(** * Habit tracking and streak engine: a shallow embedding

    The development follows the back end of the application
    (models/Habit.js, models/HabitCompletion.js, the User model, the habits
    router and middleware/auth.js) and the offline helpers of the front end
    (lib/api/habits.ts).

    Conventions of the embedding.
    - A calendar day, which the code keeps as a 'YYYY-MM-DD' string, is the
      number of days since 1970-01-01 (a [Z]); comparing two such strings is
      comparing the two numbers.  The server clock is taken to be in UTC, so
      that the local midnight of [setHours(0,0,0,0)], the UTC date of
      [toISOString()] and the local weekday of [getDay()] speak of the same
      day.  "Today" is an explicit argument of every request.
    - A time stamp is a number of milliseconds since 1970-01-01T00:00Z.
      A request carries the time of the day at which it is handled
      ([req_time], in milliseconds after midnight); with the day of the
      request it makes the value of [Date.now()].
    - The counts, streaks, points and levels are integers ([Z]); an absent
      field ([undefined]) is [None].  A rate computed by
      [Math.round(a / b * 100)] goes through the binary64 numbers of
      JavaScript, here those of [SpecFloat] with 53 bits of precision.
    - The completion collection carries a unique index on
      (habit, completionDate): it is a finite map keyed by that pair, and an
      insert under a key in use is the duplicate key error.
    - Habits enter the store through POST /api/habits or through
      utils/seedHabits.js, rows of the ledger through that script, which
      inserts them with their [completionDate]; a store is a state of the
      database.
    - A save first applies the validators of the schema to the modelled
      fields of the document, then runs the pre-save hooks, then writes.  A
      write stays when a later step of the same request fails: a route gives
      the store it leaves together with its answer.
    - The saves of a habit are taken to pass the validators of its
      schedule and progress fields, which stored habits satisfy and the
      assignments preserve (this is proved below); the validators of the two
      rates that [updateStatistics] assigns are applied.
    - A [while] loop runs on fuel; the fuel given to the streak loop is
      shown below to be enough on every ledger, so that the outcome
      [Unresponsive] never occurs.
    - The time stamps createdAt and earnedAt and the descriptive fields of
      a habit (title, colour, reminders, the stored statistics) are left
      out: no operation below branches on them.  Badge icons are written as
      words. *)

From Stdlib Require Import ZArith Lia.
From Stdlib Require SpecFloat.
From stdpp Require Import base option list sorting gmap strings.

Open Scope string_scope.
Open Scope Z_scope.

(** ** JavaScript idioms *)

(** [x || y] on optional numbers: [undefined], [null] and [0] are falsy. *)
Definition or_num (x y : option Z) : option Z :=
  match x with
  | Some n => if n =? 0 then y else x
  | None => y
  end.

(** [x || y] on optional strings: [undefined] and the empty string are falsy. *)
Definition or_str (x y : option string) : option string :=
  match x with
  | Some s => if bool_decide (s = "") then y else x
  | None => y
  end.

(** [x >= n] where [x] may be [undefined] (the comparison is then false). *)
Definition ge_num (x : option Z) (n : Z) : bool :=
  match x with
  | Some v => n <=? v
  | None => false
  end.

(** A JavaScript number: an IEEE 754 binary64 value. *)
Definition Number : Type := SpecFloat.spec_float.

(** The number of an integer, and the two operations used below. *)
Definition of_int (n : Z) : Number :=
  SpecFloat.binary_normalize 53 1024 n 0 false.

Definition js_div (x y : Number) : Number := SpecFloat.SFdiv 53 1024 x y.

Definition js_mul (x y : Number) : Number := SpecFloat.SFmul 53 1024 x y.

(** [Math.round]: the integer nearest to the number, a half rounded up.
    NaN and the infinities, which no division below produces, are given as
    0. *)
Definition Math_round (x : Number) : Z :=
  match x with
  | SpecFloat.S754_finite sign m e =>
      let n := if sign then Z.neg m else Z.pos m in
      if 0 <=? e then n * 2 ^ e
      else (2 * n + 2 ^ (- e)) / (2 * 2 ^ (- e))
  | _ => 0
  end.

(** [Math.round((a / b) * 100)] for integers [a] and [b]. *)
Definition round_percent (a b : Z) : Z :=
  Math_round (js_mul (js_div (of_int a) (of_int b)) (of_int 100)).

(** Milliseconds of a day, and the day of a time stamp. *)
Definition day_ms : Z := 86400000.

Definition day_of (t : Z) : Z := t / day_ms.

(** ** Errors raised by the routes *)

Inductive AppError : Type :=
| NotFound (message : string)      (* 404 *)
| AccessDenied                     (* 403 *)
| BadRequest                       (* 400 *)
| ValidationError                  (* a schema validator rejected the document *)
| DuplicateKey                     (* the unique index rejected the insert *)
| Unresponsive.                    (* a loop did not finish: no response *)

Inductive Result (A : Type) : Type :=
| Ok (a : A)
| Err (e : AppError).
Arguments Ok {A} a.
Arguments Err {A} e.

#[global] Instance result_ret : MRet Result := fun A a => Ok a.

#[global] Instance result_bind : MBind Result := fun A B k r =>
  match r with
  | Ok a => k a
  | Err e => Err e
  end.

#[global] Instance result_fmap : FMap Result := fun A B f r =>
  match r with
  | Ok a => Ok (f a)
  | Err e => Err e
  end.

(** ** models/User.js: gamification state *)

Record Badge : Type := mkBadge {
  name : string;
  description : string;
  icon : string
}.

Record User : Type := mkUser {
  points : Z;
  level : Z;
  badges : list Badge
}.

(** [userSchema.methods.addPoints]: returns the mutated user and [levelUp]. *)
Definition addPoints (u : User) (pts : Z) : User * bool :=
  let points' := points u + pts in
  let newLevel := points' / 100 + 1 in
  if level u <? newLevel
  then (mkUser points' newLevel (badges u), true)
  else (mkUser points' (level u) (badges u), false).

(** [userSchema.methods.addBadge]. *)
Definition addBadge (u : User) (badge : Badge) : User :=
  match List.find (fun b => bool_decide (name b = name badge)) (badges u) with
  | None => mkUser (points u) (level u) (badges u ++ [badge])
  | Some _ => u
  end.

(** ** models/Habit.js and models/HabitCompletion.js: documents *)

Inductive Frequency : Type := daily | weekly | custom.

Record Habit : Type := mkHabit {
  user : string;
  frequency : Frequency;
  customFrequency_days : list string;
  targetCount : Z;
  currentStreak : Z;
  longestStreak : Z;
  totalCompletions : Z;
  isActive : bool;
  isArchived : bool;
  customFrequency_timesPerWeek : option Z
}.

(** A completion row; its habit and completionDate are the key under which
    the row is stored. *)
Record HabitCompletion : Type := mkCompletion {
  c_user : string;
  count : Z;
  c_targetCount : Z;
  notes : option string;
  effortLevel : option Z;
  satisfactionLevel : option Z;
  moodAtTime : option string;
  streakAtCompletion : Z;
  completedAt : Z
}.

Record Store : Type := mkStore {
  habits : gmap string Habit;
  ledger : gmap (string * Z) HabitCompletion;
  users : gmap string User
}.

(** ** Due days *)

Definition dayNames : list string :=
  ["sunday"; "monday"; "tuesday"; "wednesday"; "thursday"; "friday"; "saturday"].

(** [date.getDay()]: 0 is Sunday; day 0 (1970-01-01) was a Thursday. *)
Definition getDay (date : Z) : nat := Z.to_nat ((date + 4) mod 7).

(** [habitSchema.methods.isDueToday]. *)
Definition isDueToday (h : Habit) (date : Z) : bool :=
  if negb (isActive h) then false
  else
    match frequency h with
    | daily => true
    | weekly => true
    | custom =>
        match dayNames !! getDay date with
        | Some todayName => bool_decide (todayName ∈ customFrequency_days h)
        | None => false
        end
    end.

(** The front end's copy, [isHabitDueToday] of lib/api/habits.ts, over the
    fields of the front end's [Habit] interface it reads ([customFrequency]
    is optional there). *)
Record ClientHabit : Type := mkClientHabit {
  cl_isActive : bool;
  cl_frequency : Frequency;
  cl_customFrequency : option (list string)
}.

Definition isHabitDueToday (h : ClientHabit) (date : Z) : bool :=
  if negb (cl_isActive h) then false
  else
    match cl_frequency h with
    | daily => true
    | weekly => true
    | custom =>
        match cl_customFrequency h, dayNames !! getDay date with
        | Some days, Some todayName => bool_decide (todayName ∈ days)
        | _, _ => false
        end
    end.

(** ** Streak calculation *)

(** Descending order on days, the order of [.sort({ completionDate: -1 })]. *)
Definition later_first (a b : Z) : Prop := b <= a.

#[global] Instance later_first_dec : RelDecision later_first.
Proof. intros a b. unfold later_first. apply _. Defined.

(** [HabitCompletion.find({ habit, user }).sort({ completionDate: -1 })],
    keeping the completion dates, the only field the streak loop reads. *)
Definition rows_of (l : gmap (string * Z) HabitCompletion) (hid uid : string)
  : list (string * Z * HabitCompletion) :=
  filter (fun kv => kv.1.1 = hid /\ c_user kv.2 = uid) (map_to_list l).

Definition find_completions (l : gmap (string * Z) HabitCompletion)
    (hid uid : string) : list Z :=
  merge_sort later_first ((fun kv => kv.1.2) <$> rows_of l hid uid).

(** The [while (completionIndex < completions.length)] loop shared by
    [calculateStreak] and [calculateHabitStreak].  [fuel] bounds the number
    of iterations; [None] means the bound was reached. *)
Fixpoint streak_loop (fuel : nat) (due : Z -> bool) (completions : list Z)
    (checkDate : Z) (completionIndex : nat) (streak : Z) : option Z :=
  match completions !! completionIndex with
  | None => Some streak
  | Some completionDate =>
      match fuel with
      | O => None
      | S fuel' =>
          if completionDate =? checkDate then
            streak_loop fuel' due completions (checkDate - 1)
              (S completionIndex)
              (if due checkDate then streak + 1 else streak)
          else if due checkDate then Some streak
          else streak_loop fuel' due completions (checkDate - 1)
                 completionIndex streak
      end
  end.

(** Iterations granted to the loop (the source has no bound): one per day
    from the first to the last completion of the sorted list. *)
Definition loop_bound (completions : list Z) : nat :=
  match completions, last completions with
  | first :: _, Some oldest => Z.to_nat (first - oldest + 1)
  | _, _ => O
  end.

(** Assignments to the three progress fields of a habit document. *)
Definition with_progress (h : Habit) (current longest total : Z) : Habit :=
  mkHabit (user h) (frequency h) (customFrequency_days h) (targetCount h)
    current longest total (isActive h) (isArchived h)
    (customFrequency_timesPerWeek h).

(** [habitSchema.methods.calculateStreak] on the habit stored under [hid]:
    the in-memory habit after the call, and the returned streak ([None] if
    the loop does not finish within its bound). *)
Definition calculateStreak (l : gmap (string * Z) HabitCompletion)
    (hid : string) (h : Habit) (today : Z) : option (Habit * Z) :=
  let completions := find_completions l hid (user h) in
  match completions with
  | [] => Some (with_progress h 0 (longestStreak h) (totalCompletions h), 0)
  | first :: _ =>
      let yesterday := today - 1 in
      match (if first =? today then Some today
             else if first =? yesterday then Some yesterday
             else None) with
      | None =>
          Some (with_progress h 0 (longestStreak h) (totalCompletions h), 0)
      | Some startDate =>
          match streak_loop (loop_bound completions) (isDueToday h)
                  completions startDate 0 0 with
          | None => None
          | Some streak =>
              Some (with_progress h streak
                      (if longestStreak h <? streak then streak
                       else longestStreak h)
                      (totalCompletions h), streak)
          end
      end
  end.

(** [habitCompletionSchema.statics.calculateHabitStreak]. *)
Definition calculateHabitStreak (s : Store) (habitId userId : string)
    (today : Z) : option Z :=
  match habits s !! habitId with
  | None => Some 0
  | Some habit =>
      let completions := find_completions (ledger s) habitId userId in
      match completions with
      | [] => Some 0
      | first :: _ =>
          let yesterday := today - 1 in
          match (if first =? today then Some today
                 else if first =? yesterday then Some yesterday
                 else None) with
          | None => Some 0
          | Some startDate =>
              streak_loop (loop_bound completions) (isDueToday habit)
                completions startDate 0 0
          end
      end
  end.

(** ** Gamification of a completion *)

Definition badge_7_day : Badge :=
  mkBadge "7-Day Streak" "Completed a habit for 7 consecutive days" "fire".

Definition badge_30_day : Badge :=
  mkBadge "30-Day Streak" "Completed a habit for 30 consecutive days" "gem".

(** The point computation at the head of [awardPoints]. *)
Definition completion_points (c : HabitCompletion) : Z :=
  let points := 10 in
  let points := if ge_num (effortLevel c) 4 then points + 5 else points in
  let points := if ge_num (satisfactionLevel c) 4 then points + 5 else points in
  let points := if 7 <=? streakAtCompletion c then points + 10 else points in
  let points := if 30 <=? streakAtCompletion c then points + 25 else points in
  points.

(** [habitCompletionSchema.methods.awardPoints]: the users after
    [user.save()], and the returned [{ points, levelUp }] ([None] when the
    user is not found). *)
Definition awardPoints (us : gmap string User) (c : HabitCompletion)
  : gmap string User * option (Z * bool) :=
  match us !! c_user c with
  | None => (us, None)
  | Some u =>
      let points := completion_points c in
      let '(u1, levelUp) := addPoints u points in
      let u2 :=
        if streakAtCompletion c =? 7 then addBadge u1 badge_7_day
        else if streakAtCompletion c =? 30 then addBadge u1 badge_30_day
        else u1 in
      (<[c_user c := u2]> us, Some (points, levelUp))
  end.

(** ** Schema validators *)

Definition moods : list string := ["happy"; "neutral"; "sad"; "anxious"].

Definition in_range (lo hi : Z) (x : option Z) : bool :=
  match x with
  | Some v => (lo <=? v) && (v <=? hi)
  | None => true
  end.

(** Validators of the completion schema: [count] has [min: 1], the two
    levels lie in 1..5, [notes] has [maxlength: 500], [moodAtTime] is one of
    the four moods.  (The [trim] setter of [notes] is not modelled.) *)
Definition valid_completion (c : HabitCompletion) : bool :=
  (1 <=? count c)
  && in_range 1 5 (effortLevel c)
  && in_range 1 5 (satisfactionLevel c)
  && match notes c with
     | Some n => bool_decide (String.length n <= 500)%nat
     | None => true
     end
  && match moodAtTime c with
     | Some m => bool_decide (m ∈ moods)
     | None => true
     end.

(** Validators of the habit schema on the modelled fields a client may
    update: [targetCount] has [min: 1], the custom days are weekday names,
    [timesPerWeek] lies in 1..7. *)
Definition valid_schedule (h : Habit) : bool :=
  (1 <=? targetCount h)
  && forallb (fun d => bool_decide (d ∈ dayNames)) (customFrequency_days h)
  && in_range 1 7 (customFrequency_timesPerWeek h).

(** With those of the progress fields, which have [min: 0]. *)
Definition valid_habit (h : Habit) : bool :=
  valid_schedule h
  && (0 <=? currentStreak h) && (0 <=? longestStreak h)
  && (0 <=? totalCompletions h).

(** ** middleware/auth.js *)

(** The authenticated user of a request: [req.user._id], and whether
    [req.user.role === 'admin']; and the time of the day at which the
    request is handled. *)
Record Request : Type := mkRequest {
  req_user : string;
  req_admin : bool;
  req_time : Z
}.

(** [Date.now()] while the request is handled on day [today]. *)
Definition clock (req : Request) (today : Z) : Z :=
  today * day_ms + req_time req.

(** [checkOwnership(Habit)]: the habit placed in [req.resource]. *)
Definition checkOwnership (s : Store) (req : Request) (id : string)
  : Result Habit :=
  match habits s !! id with
  | None => Err (NotFound "Resource not found")
  | Some resource =>
      if req_admin req then Ok resource
      else if bool_decide (user resource = req_user req) then Ok resource
      else Err AccessDenied
  end.

(** ** models/Habit.js: statistics *)

(** The expected completions of a week, as [updateStatistics], the
    statistics route and the dashboard compute them. *)
Definition expected_completions (h : Habit) : Z :=
  match frequency h with
  | daily => 7
  | weekly => 1
  | custom =>
      match customFrequency_timesPerWeek h with
      | Some n => if n =? 0 then 1 else n
      | None => 1
      end
  end.

(** [HabitCompletion.find({ habit, user, completedAt: { $gte: since } })]. *)
Definition completed_since (l : gmap (string * Z) HabitCompletion)
    (hid uid : string) (since : Z) : list (string * Z * HabitCompletion) :=
  filter (fun kv => kv.1.1 = hid /\ c_user kv.2 = uid
                    /\ since <= completedAt kv.2)
    (map_to_list l).

(** The two rates that [updateStatistics] assigns at time [now]. *)
Record Statistics : Type := mkStatistics {
  weeklyCompletionRate : Z;
  monthlyCompletionRate : Z
}.

Definition statistics_at (l : gmap (string * Z) HabitCompletion)
    (hid : string) (h : Habit) (now : Z) : Statistics :=
  let thirtyDaysAgo := now - 30 * day_ms in
  let completions := completed_since l hid (user h) thirtyDaysAgo in
  let sevenDaysAgo := now - 7 * day_ms in
  let weeklyCompletions :=
    filter (fun c => sevenDaysAgo <= completedAt c.2) completions in
  let expectedWeeklyCompletions := expected_completions h in
  mkStatistics
    (round_percent (Z.of_nat (length weeklyCompletions))
       expectedWeeklyCompletions)
    (round_percent (Z.of_nat (length completions))
       (expectedWeeklyCompletions * 4)).

(** The validators of the two rates: [min: 0], [max: 100]. *)
Definition valid_statistics (st : Statistics) : bool :=
  in_range 0 100 (Some (weeklyCompletionRate st))
  && in_range 0 100 (Some (monthlyCompletionRate st)).

(** [habitSchema.methods.updateStatistics] on the in-memory habit [h],
    stored under [hid]: it assigns the two rates (and the average time of
    completion, a string without validator) and saves the habit; the answer
    is the habit saved, or the validation error of the save. *)
Definition updateStatistics (l : gmap (string * Z) HabitCompletion)
    (hid : string) (h : Habit) (now : Z) : Result Habit :=
  if valid_statistics (statistics_at l hid h now) then Ok h
  else Err ValidationError.

(** ** The habits router *)

(** The fields of the body of POST /api/habits/:id/complete. *)
Record CompleteBody : Type := mkBody {
  b_count : option Z;
  b_notes : option string;
  b_effortLevel : option Z;
  b_satisfactionLevel : option Z;
  b_moodAtTime : option string
}.

(** The [data] of the response of the completion route; [r_created] tells
    the "marked as complete" answer from the "completion updated" one. *)
Record CompleteResponse : Type := mkResponse {
  r_completion : HabitCompletion;
  r_habit : Habit;
  r_created : bool;
  r_pointsAwarded : Z;
  r_levelUp : bool
}.

(** [HabitCompletion.findOne({ habit, user, completionDate })]. *)
Definition findOne (l : gmap (string * Z) HabitCompletion)
    (hid uid : string) (date : Z) : option HabitCompletion :=
  match l !! (hid, date) with
  | Some c => if bool_decide (c_user c = uid) then Some c else None
  | None => None
  end.

(** The assignments to [existingCompletion] on the update path. *)
Definition update_existing (existingCompletion : HabitCompletion)
    (habit : Habit) (body : CompleteBody) : HabitCompletion :=
  mkCompletion (c_user existingCompletion)
    (Z.min (default 1 (b_count body)) (targetCount habit))
    (c_targetCount existingCompletion)
    (or_str (b_notes body) (notes existingCompletion))
    (or_num (b_effortLevel body) (effortLevel existingCompletion))
    (or_num (b_satisfactionLevel body) (satisfactionLevel existingCompletion))
    (or_str (b_moodAtTime body) (moodAtTime existingCompletion))
    (streakAtCompletion existingCompletion)
    (completedAt existingCompletion).

(** The document given to [HabitCompletion.create] by the route, with the
    default [Date.now] of [completedAt]; it has no [completionDate]. *)
Definition new_completion (req : Request) (habit : Habit)
    (body : CompleteBody) (currentStreak now : Z) : HabitCompletion :=
  mkCompletion (req_user req)
    (Z.min (default 1 (b_count body)) (targetCount habit))
    (targetCount habit)
    (b_notes body) (b_effortLevel body) (b_satisfactionLevel body)
    (b_moodAtTime body) (currentStreak + 1) now.

(** [HabitCompletion.create] of a document for the habit [hid] given with
    the [completionDate] or without: the save validates the document, where
    [completionDate] is required; then the pre-save hook of the schema gives
    a missing [completionDate] the day of [completedAt]; then the row is
    inserted. *)
Definition create (l : gmap (string * Z) HabitCompletion) (hid : string)
    (completionDate : option Z) (doc : HabitCompletion)
  : Result (gmap (string * Z) HabitCompletion) :=
  if negb (valid_completion doc && bool_decide (is_Some completionDate))
  then Err ValidationError
  else
    let date := default (day_of (completedAt doc)) completionDate in
    match l !! (hid, date) with
    | Some _ => Err DuplicateKey
    | None => Ok (<[(hid, date) := doc]> l)
    end.

(** "Update habit statistics" after a new completion. *)
Definition count_completion (habit : Habit) (streak : Z) : Habit :=
  let current := streak + 1 in
  with_progress habit current
    (if longestStreak habit <? current then current else longestStreak habit)
    (totalCompletions habit + 1).

(** POST /api/habits/:id/complete: the store that the request leaves, and
    its answer. *)
Definition post_complete_run (s : Store) (req : Request) (id : string)
    (body : CompleteBody) (today : Z) : Store * Result CompleteResponse :=
  match checkOwnership s req id with
  | Err e => (s, Err e)
  | Ok habit =>
      match findOne (ledger s) id (req_user req) today with
      | Some existingCompletion =>
          let updated := update_existing existingCompletion habit body in
          if valid_completion updated then
            (mkStore (habits s) (<[(id, today) := updated]> (ledger s))
               (users s),
             Ok (mkResponse updated habit false 0 false))
          else (s, Err ValidationError)
      | None =>
          match calculateStreak (ledger s) id habit today with
          | None => (s, Err Unresponsive)
          | Some (habit1, streak) =>
              let completion :=
                new_completion req habit1 body streak (clock req today) in
              match create (ledger s) id None completion with
              | Err e => (s, Err e)
              | Ok ledger1 =>
                  let habit2 := count_completion habit1 streak in
                  let saved :=
                    mkStore (<[id := habit2]> (habits s)) ledger1 (users s) in
                  match updateStatistics ledger1 id habit2 (clock req today)
                  with
                  | Err e => (saved, Err e)
                  | Ok habit3 =>
                      let '(users', gamificationResult) :=
                        awardPoints (users s) completion in
                      (mkStore (<[id := habit3]> (habits s)) ledger1 users',
                       Ok (mkResponse completion habit3 true
                             (from_option fst 0 gamificationResult)
                             (from_option snd false gamificationResult)))
                  end
              end
          end
      end
  end.

(** The successful answers of a route, with the store they leave. *)
Definition answered {A} (run : Store * Result A) : Result (Store * A) :=
  match run with
  | (s, Ok a) => Ok (s, a)
  | (_, Err e) => Err e
  end.

Definition post_complete (s : Store) (req : Request) (id : string)
    (body : CompleteBody) (today : Z) : Result (Store * CompleteResponse) :=
  answered (post_complete_run s req id body today).

(** DELETE /api/habits/:id/complete: [findOneAndDelete] removes the row
    before the habit is recomputed and saved by [updateStatistics]; the
    answer carries the saved habit. *)
Definition delete_complete_run (s : Store) (req : Request) (id : string)
    (today : Z) : Store * Result Habit :=
  match checkOwnership s req id with
  | Err e => (s, Err e)
  | Ok habit =>
      match findOne (ledger s) id (req_user req) today with
      | None => (s, Err (NotFound "No completion found for today"))
      | Some _ =>
          let ledger' := delete (id, today) (ledger s) in
          let removed := mkStore (habits s) ledger' (users s) in
          let habit1 :=
            with_progress habit (currentStreak habit) (longestStreak habit)
              (Z.max 0 (totalCompletions habit - 1)) in
          match calculateStreak ledger' id habit1 today with
          | None => (removed, Err Unresponsive)
          | Some (habit2, _) =>
              match updateStatistics ledger' id habit2 (clock req today) with
              | Err e => (removed, Err e)
              | Ok habit3 =>
                  (mkStore (<[id := habit3]> (habits s)) ledger' (users s),
                   Ok habit3)
              end
          end
      end
  end.

Definition delete_complete (s : Store) (req : Request) (id : string)
    (today : Z) : Result (Store * Habit) :=
  answered (delete_complete_run s req id today).

(** GET /api/habits/:id: recomputes the streak, and [updateStatistics]
    saves the habit. *)
Definition get_habit (s : Store) (req : Request) (id : string) (today : Z)
  : Result (Store * Habit) :=
  habit ← checkOwnership s req id;
  match calculateStreak (ledger s) id habit today with
  | None => Err Unresponsive
  | Some (habit1, _) =>
      habit2 ← updateStatistics (ledger s) id habit1 (clock req today);
      Ok (mkStore (<[id := habit2]> (habits s)) (ledger s) (users s), habit2)
  end.

Definition badge_creator : Badge :=
  mkBadge "Habit Creator" "Created your first habit" "target".

(** POST /api/habits: [Habit.create({ ...req.body, user: req.user._id })]
    under the identifier [newId] of the new document, then five points for
    the author.  [body] is the request body with the defaults of the schema
    for the fields it leaves out. *)
Definition post_habit (s : Store) (req : Request) (newId : string)
    (body : Habit) : Result (Store * Habit) :=
  let habitData :=
    mkHabit (req_user req) (frequency body) (customFrequency_days body)
      (targetCount body) (currentStreak body) (longestStreak body)
      (totalCompletions body) (isActive body) (isArchived body)
      (customFrequency_timesPerWeek body) in
  if negb (valid_habit habitData) then Err ValidationError
  else
    match habits s !! newId with
    | Some _ => Err DuplicateKey
    | None =>
        let users' :=
          match users s !! req_user req with
          | None => users s
          | Some u =>
              let '(u1, levelUp) := addPoints u 5 in
              <[req_user req :=
                  if levelUp then addBadge u1 badge_creator else u1]> (users s)
          end in
        Ok (mkStore (<[newId := habitData]> (habits s)) (ledger s) users',
            habitData)
    end.

(** The modelled ones among the [allowedFields] of PUT /api/habits/:id;
    [frequency] is required by [habitValidation], and [customFrequency] is
    assigned as a whole, its days and its [timesPerWeek]. *)
Record UpdateBody : Type := mkUpdate {
  u_frequency : Frequency;
  u_customFrequency : option (list string * option Z);
  u_targetCount : option Z;
  u_isActive : option bool
}.

(** PUT /api/habits/:id; the save validates the assigned fields. *)
Definition put_habit (s : Store) (req : Request) (id : string)
    (body : UpdateBody) : Result (Store * Habit) :=
  habit ← checkOwnership s req id;
  let habit1 :=
    mkHabit (user habit) (u_frequency body)
      (default (customFrequency_days habit) (fst <$> u_customFrequency body))
      (default (targetCount habit) (u_targetCount body))
      (currentStreak habit) (longestStreak habit) (totalCompletions habit)
      (default (isActive habit) (u_isActive body)) (isArchived habit)
      (match u_customFrequency body with
       | Some customFrequency => customFrequency.2
       | None => customFrequency_timesPerWeek habit
       end) in
  if valid_schedule habit1 then
    Ok (mkStore (<[id := habit1]> (habits s)) (ledger s) (users s), habit1)
  else Err ValidationError.

(** DELETE /api/habits/:id: the habit is archived, nothing is removed. *)
Definition delete_habit (s : Store) (req : Request) (id : string)
  : Result (Store * Habit) :=
  habit ← checkOwnership s req id;
  let habit1 :=
    mkHabit (user habit) (frequency habit) (customFrequency_days habit)
      (targetCount habit) (currentStreak habit) (longestStreak habit)
      (totalCompletions habit) false true
      (customFrequency_timesPerWeek habit) in
  Ok (mkStore (<[id := habit1]> (habits s)) (ledger s) (users s), habit1).

(** ** Calendar aggregation: GET /api/habits/calendar/range *)

Record CalendarDay : Type := mkDay {
  totalHabits : Z;
  completedHabits : Z;
  completionRate : Z;
  day_habits : list (string * bool)   (* id and [completed] of each due habit *)
}.

(** [Habit.find({ user, isActive: true })]. *)
Definition active_habits (s : Store) (uid : string) : list (string * Habit) :=
  filter (fun kv => user kv.2 = uid /\ isActive kv.2 = true)
    (map_to_list (habits s)).

(** [HabitCompletion.getCompletionsInRange(user, startDate, endDate)]. *)
Definition getCompletionsInRange (s : Store) (uid : string)
    (startDate endDate : Z) : list (string * Z * HabitCompletion) :=
  filter (fun kv => c_user kv.2 = uid /\ startDate <= kv.1.2 <= endDate)
    (map_to_list (ledger s)).

(** One iteration of the loop over the days of the range. *)
Definition calendar_day (hs : list (string * Habit))
    (completions : list (string * Z * HabitCompletion)) (date : Z)
  : CalendarDay :=
  let habitsForDate := filter (fun kv => isDueToday kv.2 date = true) hs in
  let completionsForDate := filter (fun kv => kv.1.2 = date) completions in
  let total := Z.of_nat (length habitsForDate) in
  let completed := Z.of_nat (length completionsForDate) in
  mkDay total completed
    (if 0 <? total then round_percent completed total else 0)
    ((fun kv =>
        (kv.1, existsb (fun c => bool_decide (c.1.1 = kv.1)) completionsForDate))
       <$> habitsForDate).

Definition get_calendar_range (s : Store) (req : Request)
    (startDate endDate : option Z) : Result (list (Z * CalendarDay)) :=
  match startDate, endDate with
  | Some start, Some end_ =>
      let hs := active_habits s (req_user req) in
      let completions := getCompletionsInRange s (req_user req) start end_ in
      Ok ((fun date => (date, calendar_day hs completions date))
            <$> seqZ start (end_ - start + 1))
  | _, _ => Err BadRequest
  end.

(** ** Offline buffer of the front end (lib/api/habits.ts) *)

(** A value of the [offline_completions] object. *)
Record OfflineCompletion : Type := mkOffline {
  o_habitId : string;
  o_date : Z;
  o_body : CompleteBody;
  o_timestamp : Z
}.

(** The [offline_completions] object: its keys [`${habitId}_${today}`], as
    pairs, in the order in which JavaScript enumerates them (the order of
    their first insertion). *)
Definition Buffer : Type := list (string * Z * OfflineCompletion).

(** [obj[key] = value]: an existing key keeps its place. *)
Fixpoint assign (b : Buffer) (key : string * Z) (v : OfflineCompletion)
  : Buffer :=
  match b with
  | [] => [(key, v)]
  | (k, w) :: rest =>
      if bool_decide (k = key) then (k, v) :: rest
      else (k, w) :: assign rest key v
  end.

(** [saveCompletionOffline], at day [today] and clock [now]. *)
Definition saveCompletionOffline (b : Buffer) (habitId : string)
    (completion : CompleteBody) (today now : Z) : Buffer :=
  assign b (habitId, today) (mkOffline habitId today completion now).

(** What becomes of one request of the replay. *)
Inductive Delivery : Type :=
| delivered        (* the server answered *)
| request_lost     (* the request never reached the server *)
| response_lost.   (* the server handled it, the answer was lost *)

(** The loop of [syncOfflineData] over [Object.entries(offlineCompletions)]:
    the server after the replay, the entries left in the buffer, and a log
    of the requests in the order sent, each with its habit and whether the
    call resolved (the entry is deleted then) or threw. *)
Fixpoint replay (net : string * Z -> Delivery) (req : Request) (today : Z)
    (entries : Buffer) (server : Store)
  : Store * Buffer * list (string * bool) :=
  match entries with
  | [] => (server, [], [])
  | (key, completion) :: rest =>
      let '(server1, answer) :=
        post_complete_run server req (o_habitId completion)
          (o_body completion) today in
      match net key, answer with
      | delivered, Ok _ =>
          let '(server', kept, log) := replay net req today rest server1 in
          (server', kept, (o_habitId completion, true) :: log)
      | request_lost, _ =>
          let '(server', kept, log) := replay net req today rest server in
          (server', (key, completion) :: kept,
           (o_habitId completion, false) :: log)
      | _, _ =>
          let '(server', kept, log) := replay net req today rest server1 in
          (server', (key, completion) :: kept,
           (o_habitId completion, false) :: log)
      end
  end.

Definition syncOfflineData (net : string * Z -> Delivery) (req : Request)
    (today : Z) (b : Buffer) (server : Store) : Store * Buffer :=
  let '(server', kept, _) := replay net req today b server in (server', kept).

(** ** Engine operations as one transition system *)

Inductive Op : Type :=
| Create (req : Request) (newId : string) (body : Habit)
| Update (req : Request) (id : string) (body : UpdateBody)
| Archive (req : Request) (id : string)
| Complete (req : Request) (id : string) (body : CompleteBody)
| UndoToday (req : Request) (id : string)
| Recompute (req : Request) (id : string).

Definition step (s : Store) (today : Z) (op : Op) : Result Store :=
  match op with
  | Create req newId body => fst <$> post_habit s req newId body
  | Update req id body => fst <$> put_habit s req id body
  | Archive req id => fst <$> delete_habit s req id
  | Complete req id body => fst <$> post_complete s req id body today
  | UndoToday req id => fst <$> delete_complete s req id today
  | Recompute req id => fst <$> get_habit s req id today
  end.

(** The store that a request leaves, whatever its answer. *)
Definition step_store (s : Store) (today : Z) (op : Op) : Store :=
  match op with
  | Complete req id body => (post_complete_run s req id body today).1
  | UndoToday req id => (delete_complete_run s req id today).1
  | _ =>
      match step s today op with
      | Ok s' => s'
      | Err _ => s
      end
  end.

(** A history of requests, each on its day. *)
Fixpoint run (s : Store) (history : list (Z * Op)) : Store :=
  match history with
  | [] => s
  | (today, op) :: rest => run (step_store s today op) rest
  end.

(** ** Reference definitions *)

(** The walk of section 4.3 of the specification.  [dates] are the
    completions sorted most recent first and [remaining] those not consumed
    yet.  The walk ends when the list is exhausted; a day that is not due is
    skipped and consumes nothing; a due day on which a completion exists
    adds one to the streak and consumes one completion; a due day without a
    completion ends the walk.  [None] means that the walk has not ended
    within [fuel] days. *)
Fixpoint spec_walk (fuel : nat) (due : Z -> bool) (dates remaining : list Z)
    (day : Z) (streak : Z) : option Z :=
  match remaining with
  | [] => Some streak
  | _ :: older =>
      match fuel with
      | O => None
      | S fuel' =>
          if negb (due day) then
            spec_walk fuel' due dates remaining (day - 1) streak
          else if bool_decide (day ∈ dates) then
            spec_walk fuel' due dates older (day - 1) (streak + 1)
          else Some streak
      end
  end.

(** The anchor is the most recent completion when it is of today or of
    yesterday; otherwise the streak is 0. *)
Definition spec_streak (fuel : nat) (due : Z -> bool) (completions : list Z)
    (today : Z) : option Z :=
  match completions with
  | [] => Some 0
  | latest :: _ =>
      if (latest =? today) || (latest =? today - 1) then
        spec_walk fuel due completions completions latest 0
      else Some 0
  end.

(** A predicate on days that holds at least once in any seven days in a
    row. *)
Definition due_every_week (due : Z -> bool) : Prop :=
  forall day, exists j, 0 <= j < 7 /\ due (day - j) = true.

(** A habit that is due on some day of the week. *)
Definition due_some_weekday (h : Habit) : Prop :=
  isActive h = true
  /\ (frequency h = daily \/ frequency h = weekly
      \/ (frequency h = custom
          /\ exists n, n ∈ dayNames /\ n ∈ customFrequency_days h)).

(** The number of the given days up to [day]. *)
Definition up_to (dates : list Z) (day : Z) : nat :=
  length (filter (fun x => x <= day) dates).

(** The walk the code performs, told over the set of completion days
    instead of a cursor: [n] days back from [day], a day with a completion
    counts when it is due and never ends the walk, a day without one ends
    the walk when it is due. *)
Fixpoint walk_back (n : nat) (due has : Z -> bool) (day : Z) : Z :=
  match n with
  | O => 0
  | S n' =>
      if has day then
        (if due day then 1 else 0) + walk_back n' due has (day - 1)
      else if due day then 0
      else walk_back n' due has (day - 1)
  end.

Definition latest (dates : list Z) : option Z :=
  foldr (fun d acc => Some (from_option (Z.max d) d acc)) None dates.

Definition earliest (dates : list Z) : option Z :=
  foldr (fun d acc => Some (from_option (Z.min d) d acc)) None dates.

Definition reference_streak (due : Z -> bool) (dates : list Z) (today : Z)
  : Z :=
  match latest dates, earliest dates with
  | Some anchor, Some oldest =>
      if bool_decide (anchor = today \/ anchor = today - 1) then
        walk_back (Z.to_nat (anchor - oldest + 1)) due
          (fun d => bool_decide (d ∈ dates)) anchor
      else 0
  | _, _ => 0
  end.

(** The completion days of a habit, as stored (in no particular order). *)
Definition completion_days (l : gmap (string * Z) HabitCompletion)
    (hid uid : string) : list Z :=
  (fun kv => kv.1.2) <$> rows_of l hid uid.

(** The streak both functions return, from the sorted completions. *)
Definition streak_from (due : Z -> bool) (completions : list Z) (today : Z)
  : option Z :=
  match completions with
  | [] => Some 0
  | first :: _ =>
      match (if first =? today then Some today
             else if first =? today - 1 then Some (today - 1)
             else None) with
      | None => Some 0
      | Some startDate =>
          streak_loop (loop_bound completions) due completions startDate 0 0
      end
  end.

(** The stored rows under one key of the ledger. *)
Definition rows_at (l : gmap (string * Z) HabitCompletion) (key : string * Z)
  : list (string * Z * HabitCompletion) :=
  filter (fun kv => kv.1 = key) (map_to_list l).

(** The streak loop on the completions still ahead of the cursor. *)
Fixpoint suffix_loop (fuel : nat) (due : Z -> bool) (ahead : list Z)
    (checkDate : Z) (streak : Z) : option Z :=
  match ahead with
  | [] => Some streak
  | completionDate :: rest =>
      match fuel with
      | O => None
      | S fuel' =>
          if completionDate =? checkDate then
            suffix_loop fuel' due rest (checkDate - 1)
              (if due checkDate then streak + 1 else streak)
          else if due checkDate then Some streak
          else suffix_loop fuel' due ahead (checkDate - 1) streak
      end
  end.

(** Strictly descending days. *)
Definition descending (cs : list Z) : Prop :=
  StronglySorted (fun a b => b < a) cs.

(** What [calculateStreak] leaves in the habit: the streak [k] as current
    streak, a longest streak raised to [k] or kept, nothing else touched. *)
Definition recomputed (h : Habit) (k : Z) (h' : Habit) : Prop :=
  exists longest,
    h' = with_progress h k longest (totalCompletions h)
    /\ (longest = longestStreak h
        \/ (longestStreak h < k /\ longest = k)).


(** The weekday name of a day. *)
Definition weekday_name (date : Z) : string :=
  match (date + 4) mod 7 with
  | 0 => "sunday"
  | 1 => "monday"
  | 2 => "tuesday"
  | 3 => "wednesday"
  | 4 => "thursday"
  | 5 => "friday"
  | _ => "saturday"
  end.





(** ** Sample data *)

(** Noon, in milliseconds after midnight. *)
Definition noon : Z := 43200000.

Definition alice : Request := mkRequest "u1" false noon.

(** Monday 2024-01-08, Tuesday 2024-01-09 and Wednesday 2024-01-10. *)
Definition mon : Z := 19730.
Definition tue : Z := 19731.
Definition wed : Z := 19732.

Definition new_user : User := mkUser 0 1 [].

Definition daily_habit : Habit :=
  mkHabit "u1" daily [] 1 0 0 0 true false None.

Definition mon_wed_habit : Habit :=
  mkHabit "u1" custom ["monday"; "wednesday"] 1 0 0 0 true false None.

Definition archived_habit : Habit :=
  mkHabit "u1" daily [] 1 0 0 0 false true None.

Definition plain : CompleteBody := mkBody None None None None None.

(** A row of user "u1" as utils/seedHabits.js inserts it for [day], at
    noon, with effort, satisfaction and mood; the count, the target and the
    streak are given. *)
Definition row (count target streak day : Z) : HabitCompletion :=
  mkCompletion "u1" count target None (Some 3) (Some 3) (Some "happy") streak
    (day * day_ms + noon).

(** The stores below are states that the program reaches: a habit without
    rows is made by POST /api/habits; rows are inserted, with their
    [completionDate], by utils/seedHabits.js, which also sets the progress
    of the habit, and are updated by the completion route. *)

(** The daily habit, not completed yet. *)
Definition store0 : Store :=
  mkStore {[ "h1" := daily_habit ]} ∅ {[ "u1" := new_user ]}.

(** The daily habit with its row of Wednesday, and the answer to a
    completion repeated that day. *)
Definition store1 : Store :=
  mkStore {[ "h1" := mkHabit "u1" daily [] 1 1 1 1 true false None ]}
    {[ ("h1", wed) := row 1 1 1 wed ]}
    {[ "u1" := new_user ]}.

Definition response1 : CompleteResponse :=
  mkResponse (row 1 1 1 wed) (mkHabit "u1" daily [] 1 1 1 1 true false None)
    false 0 false.


(** Eight glasses a day; the row of Wednesday, inserted with count 1 and
    target 1, has been updated to five glasses. *)
Definition glasses_habit : Habit :=
  mkHabit "u1" daily [] 8 0 0 0 true false None.

Definition five : CompleteBody := mkBody (Some 5) None None None None.

Definition store_glasses : Store :=
  mkStore {[ "h1" := mkHabit "u1" daily [] 8 1 1 1 true false None ]}
    {[ ("h1", wed) := row 5 1 1 wed ]}
    {[ "u1" := new_user ]}.

(** The daily habit with its row of Wednesday, archived the same day. *)
Definition store_archived : Store :=
  run store1 [(wed, Archive alice "h1")].

(** The daily habit with rows of Monday, Tuesday and Wednesday, and one
    eight days before that Wednesday. *)
Definition store_three_days : Store :=
  mkStore {[ "h1" := mkHabit "u1" daily [] 1 3 3 4 true false None ]}
    (<[("h1", wed - 8) := row 1 1 1 (wed - 8)]>
       (<[("h1", mon) := row 1 1 1 mon]>
          (<[("h1", tue) := row 1 1 2 tue]>
             {[ ("h1", wed) := row 1 1 3 wed ]})))
    {[ "u1" := new_user ]}.

(** A Monday and Wednesday habit with rows on three days in a row. *)
Definition store_mon_wed : Store :=
  mkStore
    {[ "h1" := mkHabit "u1" custom ["monday"; "wednesday"] 1 2 2 3 true
                 false None ]}
    (<[("h1", mon) := row 1 1 1 mon]>
       (<[("h1", tue) := row 1 1 2 tue]>
          {[ ("h1", wed) := row 1 1 2 wed ]}))
    {[ "u1" := new_user ]}.

(** A Tuesday on which the daily habit "a" stays open, while the Monday
    habit "b" has a row, and so has the habit "c", archived afterwards. *)
Definition store_calendar : Store :=
  run (mkStore
         (<["a" := daily_habit]>
            (<["b" := mkHabit "u1" custom ["monday"] 1 1 1 1 true false None]>
               {[ "c" := mkHabit "u1" daily [] 1 1 1 1 true false None ]}))
         (<[("b", tue) := row 1 1 1 tue]> {[ ("c", tue) := row 1 1 1 tue ]})
         {[ "u1" := new_user ]})
    [(tue, Archive alice "c")].

(** A weekly habit with rows of Monday, Tuesday and Wednesday. *)
Definition weekly_habit : Habit :=
  mkHabit "u1" weekly [] 1 3 3 3 true false None.

Definition store_weekly : Store :=
  mkStore {[ "h1" := weekly_habit ]}
    (<[("h1", mon) := row 1 1 1 mon]>
       (<[("h1", tue) := row 1 1 2 tue]>
          {[ ("h1", wed) := row 1 1 3 wed ]}))
    {[ "u1" := new_user ]}.

(** Two completions of one habit buffered on Monday and on Tuesday. *)
Definition buffer_two_days : Buffer :=
  saveCompletionOffline
    (saveCompletionOffline [] "h1" plain mon 1704700000000)
    "h1" plain tue 1704790000000.

(** The completion of "a" buffered, then one of "b", then "a" saved again
    the same day. *)
Definition buffer_saved_again : Buffer :=
  saveCompletionOffline
    (saveCompletionOffline
       (saveCompletionOffline [] "a" plain mon 1704700000000)
       "b" plain mon 1704700001000)
    "a" five mon 1704700002000.

(** * More of the code *)

(** ** Fields left out of [Habit] *)

(** The fields of a habit document that [Habit] leaves out and that the
    functions below read; they are given by the identifier of the habit. *)
Record HabitMeta : Type := mkMeta {
  title : string;
  category : string;
  moodBooster : bool;
  recommendedMoods : list string
}.

(** ** models/HabitCompletion.js: virtuals and statics *)

(** The virtual [isFullyCompleted]. *)
Definition isFullyCompleted (c : HabitCompletion) : bool :=
  c_targetCount c <=? count c.

(** [HabitCompletion.getTodayCompletions(userId, date)]. *)
Definition getTodayCompletions (s : Store) (uid : string) (date : Z)
  : list (string * Z * HabitCompletion) :=
  filter (fun kv => c_user kv.2 = uid /\ kv.1.2 = date)
    (map_to_list (ledger s)).

(** [obj[key] = (obj[key] || 0) + 1] on an object whose keys are kept in
    the order of their first insertion. *)
Fixpoint bump (obj : list (string * Z)) (key : string) : list (string * Z) :=
  match obj with
  | [] => [(key, 1)]
  | (k, v) :: rest =>
      if bool_decide (k = key) then (k, (if v =? 0 then 0 else v) + 1) :: rest
      else (k, v) :: bump rest key
  end.

(** [obj[key]] on such an object. *)
Definition get_stat (obj : list (string * Z)) (key : string) : option Z :=
  snd <$> List.find (fun kv => bool_decide (kv.1 = key)) obj.

(** The capitalised names of [getCompletionStats]. *)
Definition DayNames : list string :=
  ["Sunday"; "Monday"; "Tuesday"; "Wednesday"; "Thursday"; "Friday"; "Saturday"].

(** Ascending order on dated rows, the order of
    [.sort({ completionDate: 1 })]. *)
Definition earlier_first (a b : Z * HabitCompletion) : Prop := a.1 <= b.1.

#[global] Instance earlier_first_dec : RelDecision earlier_first.
Proof. intros a b. unfold earlier_first. apply _. Defined.

(** [Math.round(a / b * 10) / 10] for integers [a] and [b > 0], in tenths,
    on the exact quotient. *)
Definition round_tenths (a b : Z) : Z := (20 * a + b) / (2 * b).

Record CompletionStats : Type := mkStats {
  st_totalCompletions : Z;
  st_averageEffort : Z;             (* in tenths *)
  st_averageSatisfaction : Z;       (* in tenths *)
  st_dayOfWeekStats : list (string * Z);
  st_monthlyData : list (string * Z);
  st_completions : list (Z * HabitCompletion)
}.

(** The rows of the query of [getCompletionStats], oldest first. *)
Definition stats_completions (l : gmap (string * Z) HabitCompletion)
    (userId habitId : string) (startDate endDate : Z)
  : list (Z * HabitCompletion) :=
  merge_sort earlier_first
    ((fun kv => (kv.1.2, kv.2))
       <$> filter (fun kv => c_user kv.2 = userId /\ kv.1.1 = habitId
                             /\ startDate <= kv.1.2 <= endDate)
             (map_to_list l)).

(** [HabitCompletion.getCompletionStats(userId, habitId, days)] on day
    [today].  [month_of] gives the 'YYYY-MM' prefix of the date string of a
    day. *)
Definition getCompletionStats (month_of : Z -> string) (s : Store)
    (userId habitId : string) (days today : Z) : CompletionStats :=
  let completions :=
    stats_completions (ledger s) userId habitId (today - days) today in
  let n := Z.of_nat (length completions) in
  let averageEffort :=
    if 0 <? n then
      round_tenths
        (foldl (fun sum c => sum + default 0 (effortLevel c.2)) 0 completions)
        n
    else 0 in
  let averageSatisfaction :=
    if 0 <? n then
      round_tenths
        (foldl (fun sum c => sum + default 0 (satisfactionLevel c.2)) 0
           completions) n
    else 0 in
  let dayOfWeekStats :=
    foldl (fun obj c => bump obj (default "" (DayNames !! getDay c.1))) []
      completions in
  let monthlyData :=
    foldl (fun obj c => bump obj (month_of c.1)) [] completions in
  mkStats n averageEffort averageSatisfaction dayOfWeekStats monthlyData
    (drop (length completions - 7) completions).

(** ** models/Habit.js: statics *)

(** [Habit.getHabitsForDate(userId, date)]. *)
Definition getHabitsForDate (s : Store) (uid : string) (date : Z)
  : list (string * Habit) :=
  filter (fun kv => isDueToday kv.2 date = true) (active_habits s uid).

(** [Habit.getMoodBoostingHabits(userId, mood)]. *)
Definition getMoodBoostingHabits (meta : string -> HabitMeta) (s : Store)
    (uid mood : string) : list (string * Habit) :=
  take 3
    (filter (fun kv => moodBooster (meta kv.1) = true
                       \/ mood ∈ recommendedMoods (meta kv.1))
       (active_habits s uid)).

(** ** More routes *)

(** GET /api/habits/recommendations/:mood. *)
Definition get_recommendations (meta : string -> HabitMeta) (s : Store)
    (req : Request) (mood : string) : Result (list (string * Habit)) :=
  if bool_decide (mood ∈ moods) then
    Ok (getMoodBoostingHabits meta s (req_user req) mood)
  else Err BadRequest.

(** The [todayStatus] attached to a habit by GET /api/habits. *)
Record TodayStatus : Type := mkStatus {
  ts_completed : bool;
  ts_count : Z;
  ts_targetCount : Z
}.

(** The [completionMap] built by [completions.forEach]. *)
Definition completionMap (completions : list (string * Z * HabitCompletion))
  : gmap string TodayStatus :=
  foldl (fun m kv =>
           <[kv.1.1 := mkStatus true (count kv.2) (c_targetCount kv.2)]> m)
    ∅ completions.

Definition with_status (m : gmap string TodayStatus) (kv : string * Habit)
  : string * Habit * TodayStatus :=
  (kv.1, kv.2, default (mkStatus false 0 (targetCount kv.2)) (m !! kv.1)).

(** [Habit.find(query)] of GET /api/habits: the habits of the user, of the
    category when one is given, active or not as [active] says when it is
    given.  (The order by [createdAt] is not modelled.) *)
Definition find_habits (meta : string -> HabitMeta) (s : Store)
    (uid : string) (q_category q_active : option string)
  : list (string * Habit) :=
  filter
    (fun kv =>
       bool_decide (user kv.2 = uid)
       && match q_category with
          | Some c =>
              if bool_decide (c = "") then true
              else bool_decide (category (meta kv.1) = c)
          | None => true
          end
       && match q_active with
          | Some a =>
              bool_decide (isActive kv.2 = bool_decide (a = "true"))
          | None => true
          end = true)
    (map_to_list (habits s)).

(** The two answers of GET /api/habits. *)
Inductive HabitList : Type :=
| ForDate (hs : list (string * Habit * TodayStatus)) (date : Z)
    (total completed : Z)
| ForToday (hs : list (string * Habit * TodayStatus))
    (total active completedToday : Z).

(** GET /api/habits. *)
Definition get_habits (meta : string -> HabitMeta) (s : Store) (req : Request)
    (q_category q_active : option string) (q_date : option Z) (today : Z)
  : HabitList :=
  let hs := find_habits meta s (req_user req) q_category q_active in
  match q_date with
  | Some date =>
      let completions := getTodayCompletions s (req_user req) date in
      let m := completionMap completions in
      let habitsForDate :=
        with_status m <$> filter (fun kv => isDueToday kv.2 date = true) hs in
      ForDate habitsForDate date (Z.of_nat (length habitsForDate))
        (Z.of_nat
           (length (filter (fun h => ts_completed h.2 = true) habitsForDate)))
  | None =>
      let todayCompletions := getTodayCompletions s (req_user req) today in
      let m := completionMap todayCompletions in
      ForToday (with_status m <$> hs) (Z.of_nat (length hs))
        (Z.of_nat (length (filter (fun kv => isActive kv.2 = true) hs)))
        (Z.of_nat (length todayCompletions))
  end.

Record WeekData : Type := mkWeek {
  w_week : Z;
  w_weekStart : Z;
  w_weekEnd : Z;
  w_completions : Z;
  w_expected : Z;
  w_rate : Z
}.

(** The [weeklyData] of GET /api/habits/:id/stats, from the completion
    days of the range: the loop runs [i] from 7 down to 0. *)
Definition weeklyData (dates : list Z) (expected today : Z) : list WeekData :=
  (fun i =>
     let weekStart := today - (i * 7 + 6) in
     let weekEnd := today - i * 7 in
     let n :=
       Z.of_nat (length (filter (fun d => weekStart <= d <= weekEnd) dates)) in
     mkWeek (8 - i) weekStart weekEnd n expected (round_percent n expected))
    <$> reverse (seqZ 0 8).

(** The weekly part of GET /api/habits/:id/stats. *)
Definition get_stats_weekly (s : Store) (req : Request) (id : string)
    (days today : Z) : Result (list WeekData) :=
  habit ← checkOwnership s req id;
  let completions :=
    filter (fun kv => kv.1.1 = id)
      (getCompletionsInRange s (req_user req) (today - days) today) in
  Ok (weeklyData ((fun kv => kv.1.2) <$> completions)
        (expected_completions habit) today).

(** [stats[a] > stats[b]], false when a side is [undefined]. *)
Definition gt_stat (x y : option Z) : bool :=
  match x, y with
  | Some a, Some b => b <? a
  | _, _ => false
  end.

(** The [bestDay] of the insights: a reduction over the keys, started at
    'Monday'. *)
Definition bestDay (stats : list (string * Z)) : string :=
  foldl (fun a b => if gt_stat (get_stat stats a) (get_stat stats b) then a
                    else b)
    "Monday" (stats.*1).

(** The [bestStreak] of the dashboard: a reduction over the streaks,
    started at an empty title with streak 0. *)
Definition bestStreak (streaks : list (string * Z)) : string * Z :=
  foldl (fun max current => if max.2 <? current.2 then current else max)
    ("", 0) streaks.

Record Summary : Type := mkSummary {
  sm_totalHabits : Z;
  sm_todayCompleted : Z;
  sm_todayRemaining : Z;
  sm_weeklyCompletionRate : Z;
  sm_bestStreak : string * Z;
  sm_totalPointsThisWeek : Z
}.

(** The streaks of the dashboard: [calculateStreak] on each habit, nothing
    saved. *)
Definition dashboard_streaks (meta : string -> HabitMeta)
    (l : gmap (string * Z) HabitCompletion) (hs : list (string * Habit))
    (today : Z) : option (list (string * Z)) :=
  mapM (fun kv =>
          (fun r : Habit * Z => (title (meta kv.1), r.2))
            <$> calculateStreak l kv.1 kv.2 today) hs.

(** The [summary] of GET /api/habits/dashboard/summary. *)
Definition get_dashboard_summary (meta : string -> HabitMeta) (s : Store)
    (req : Request) (today : Z) : Result Summary :=
  let weekAgo := today - 7 in
  let hs := active_habits s (req_user req) in
  let todayCompletions := getTodayCompletions s (req_user req) today in
  let weekCompletions :=
    getCompletionsInRange s (req_user req) weekAgo today in
  match dashboard_streaks meta (ledger s) hs today with
  | None => Err Unresponsive
  | Some streaks =>
      let expectedWeekly :=
        foldl (fun total kv => total + expected_completions kv.2) 0 hs in
      let week := Z.of_nat (length weekCompletions) in
      Ok (mkSummary (Z.of_nat (length hs))
            (Z.of_nat (length todayCompletions))
            (Z.of_nat (length (filter (fun kv => isDueToday kv.2 today = true)
                                 hs))
             - Z.of_nat (length todayCompletions))
            (if 0 <? expectedWeekly then round_percent week expectedWeekly
             else 0)
            (bestStreak streaks)
            (week * 10))
  end.

(** ** More of the front end *)

(** The loop of [getNextDueDate] from [i] on, [n] iterations left. *)
Fixpoint next_due (days : list string) (todayIndex : nat) (today : Z)
    (i n : nat) : option Z :=
  match n with
  | O => None
  | S n' =>
      let checkIndex := ((todayIndex + i) mod 7)%nat in
      match dayNames !! checkIndex with
      | Some checkDay =>
          if bool_decide (checkDay ∈ days) then Some (today + Z.of_nat i)
          else next_due days todayIndex today (S i) n'
      | None => next_due days todayIndex today (S i) n'
      end
  end.

(** [getNextDueDate] of lib/api/habits.ts, on day [today]. *)
Definition getNextDueDate (h : ClientHabit) (today : Z) : option Z :=
  if negb (cl_isActive h) then None
  else
    match cl_frequency h with
    | daily => Some today
    | weekly => Some today
    | custom =>
        match cl_customFrequency h with
        | Some days => next_due days (getDay today) today 0 7
        | None => None
        end
    end.

(** The grid of components/habits/HabitCalendar.tsx: from the Sunday on or
    before the start of the month to the Saturday on or after its end. *)
Definition calendar_grid (monthStart monthEnd : Z) : Z * Z :=
  (monthStart - Z.of_nat (getDay monthStart),
   monthEnd + (6 - Z.of_nat (getDay monthEnd))).

(** What [completeHabitNetworkAware] returns or throws. *)
Inductive NetworkAware : Type :=
| Completed (r : CompleteResponse)
| SavedOffline
| Thrown.

(** [completeHabitNetworkAware] of lib/api/habits.ts: [online] is
    [navigator.onLine], [net] the fate of the request, [clientDay] and [now]
    the day and the clock of the client, [today] the day of the server. *)
Definition completeHabitNetworkAware (online : bool) (net : Delivery)
    (req : Request) (habitId : string) (data : CompleteBody)
    (clientDay now today : Z) (b : Buffer) (server : Store)
  : Store * Buffer * NetworkAware :=
  if online then
    let '(server', answer) :=
      post_complete_run server req habitId data today in
    match net, answer with
    | delivered, Ok r => (server', b, Completed r)
    | request_lost, _ =>
        (server, saveCompletionOffline b habitId data clientDay now, Thrown)
    | _, _ =>
        (server', saveCompletionOffline b habitId data clientDay now, Thrown)
    end
  else (server, saveCompletionOffline b habitId data clientDay now,
        SavedOffline).

(** The value stored under a key of the buffer. *)
Definition buffered (b : Buffer) (key : string * Z) : option OfflineCompletion :=
  snd <$> List.find (fun kv => bool_decide (kv.1 = key)) b.

(** ** Well-formed stores *)

(** The number of rows of a habit. *)
Definition rows_count (l : gmap (string * Z) HabitCompletion) (hid : string)
  : nat :=
  length (filter (fun kv => kv.1.1 = hid) (map_to_list l)).

(** Every row belongs to a stored habit, and no habit has more rows than
    its [totalCompletions] says. *)
Definition counted (s : Store) : Prop :=
  (forall key c, ledger s !! key = Some c -> is_Some (habits s !! key.1))
  /\ (forall id h, habits s !! id = Some h ->
        Z.of_nat (rows_count (ledger s) id) <= totalCompletions h).

(** Every row passes the validators of its schema and records a streak of
    at least 1. *)
Definition rows_valid (s : Store) : Prop :=
  forall key c, ledger s !! key = Some c ->
    valid_completion c = true /\ 1 <= streakAtCompletion c.

(** No user of [s] is lost in [s'], loses points or a level, or loses a
    badge. *)
Definition gamification_kept (s s' : Store) : Prop :=
  forall uid u, users s !! uid = Some u ->
    exists u', users s' !! uid = Some u'
               /\ points u <= points u' /\ level u <= level u'
               /\ badges u `prefix_of` badges u'.

(** ** Predicates of the properties *)

(** Each of the five routes on a habit fails with [e]. *)
Definition habit_routes_fail (s : Store) (req : Request) (id : string)
    (e : AppError) : Prop :=
  (forall body, put_habit s req id body = Err e)
  /\ delete_habit s req id = Err e
  /\ (forall body today, post_complete s req id body today = Err e)
  /\ (forall today, delete_complete s req id today = Err e)
  /\ (forall today, get_habit s req id today = Err e).

(** The fields of a habit that only the update and archive routes write. *)
Definition same_schedule (h h' : Habit) : Prop :=
  user h' = user h /\ frequency h' = frequency h
  /\ customFrequency_days h' = customFrequency_days h
  /\ targetCount h' = targetCount h
  /\ isActive h' = isActive h /\ isArchived h' = isArchived h.

(** A user who has lost no points, no level and no badge. *)
Definition user_kept (u u' : User) : Prop :=
  points u <= points u' /\ level u <= level u'
  /\ badges u `prefix_of` badges u'.

(** Every stored habit passes the validators of its schema. *)
Definition habits_valid (s : Store) : Prop :=
  forall id h, habits s !! id = Some h -> valid_habit h = true.

(** The status of a habit on a date, read from the row of the user. *)
Definition status_of (s : Store) (uid id : string) (h : Habit) (date : Z)
  : TodayStatus :=
  match findOne (ledger s) id uid date with
  | Some c => mkStatus true (count c) (c_targetCount c)
  | None => mkStatus false 0 (targetCount h)
  end.

(** The habits selected by the query of GET /api/habits. *)
Definition selected (meta : string -> HabitMeta) (s : Store) (uid : string)
    (q_category q_active : option string) (id : string) (h : Habit) : Prop :=
  habits s !! id = Some h /\ user h = uid
  /\ (forall c, q_category = Some c -> c <> "" -> category (meta id) = c)
  /\ (forall a, q_active = Some a -> isActive h = bool_decide (a = "true")).

(** The streak of a habit on a day, by the reference walk. *)
Definition streak_on (s : Store) (id : string) (h : Habit) (today : Z) : Z :=
  reference_streak (isDueToday h) (completion_days (ledger s) id (user h))
    today.

(** Points, level and badges of a user fit together: the level is the one
    of the points, and no badge name occurs twice. *)
Definition user_wf (u : User) : Prop :=
  0 <= points u /\ level u = points u / 100 + 1
  /\ NoDup (name <$> badges u).

Definition users_wf (s : Store) : Prop :=
  forall uid u, users s !! uid = Some u -> user_wf u.

(** ** More sample data *)

Definition bob : Request := mkRequest "u2" false noon.

(** A store with one user and nothing else. *)
Definition store_fresh : Store := mkStore ∅ ∅ {[ "u1" := new_user ]}.

(** Requests of a Wednesday on the habit with rows of three days. *)
Definition history_week : list (Z * Op) :=
  [(wed, Create alice "h2" glasses_habit);
   (wed, Complete alice "h1" five);
   (wed, Complete alice "h2" plain);
   (wed, Update alice "h1" (mkUpdate daily None (Some 2) None));
   (wed, Complete alice "h1" five);
   (wed, Complete bob "h1" plain);
   (wed, UndoToday alice "h1");
   (wed, Recompute alice "h1");
   (wed, Archive alice "h1")].

Definition ten : CompleteBody := mkBody (Some 10) None None None None.

(** * Properties *)

(** ** The streak loop *)

Section StreakLoop.
Variable due : Z -> bool.

Lemma streak_loop_suffix fuel : forall (cs : list Z) d i s,
  streak_loop fuel due cs d i s = suffix_loop fuel due (drop i cs) d s.
Proof.
  induction fuel as [|fuel IH]; intros cs d i s; simpl;
    destruct (cs !! i) as [c|] eqn:E.
  - rewrite (drop_S _ _ _ E). reflexivity.
  - rewrite drop_ge; [reflexivity | by apply lookup_ge_None].
  - rewrite (drop_S _ _ _ E). rewrite !IH.
    rewrite <- (drop_S _ _ _ E). reflexivity.
  - rewrite drop_ge; [reflexivity | by apply lookup_ge_None].
Qed.

Lemma walk_back_ext n : forall (has1 has2 : Z -> bool) d,
  (forall x, x <= d -> has1 x = has2 x) ->
  walk_back n due has1 d = walk_back n due has2 d.
Proof.
  induction n as [|n IH]; intros has1 has2 d H; simpl; [reflexivity|].
  rewrite (H d) by lia.
  rewrite (IH has1 has2 (d - 1)) by (intros; apply H; lia).
  reflexivity.
Qed.

Lemma walk_back_none n : forall (has : Z -> bool) d,
  (forall x, x <= d -> has x = false) -> walk_back n due has d = 0.
Proof.
  induction n as [|n IH]; intros has d H; simpl; [reflexivity|].
  rewrite (H d) by lia. destruct (due d); [reflexivity|].
  apply IH. intros; apply H; lia.
Qed.

Lemma descending_tail_below c rest :
  descending (c :: rest) -> Forall (fun x => x <= c - 1) rest.
Proof.
  intros H. apply StronglySorted_inv in H as [_ H].
  eapply Forall_impl; [exact H|]. simpl. intros; lia.
Qed.

(** On strictly descending completions none of which is after the day
    checked, the loop finishes within as many iterations as there are
    days down to the oldest completion, and counts what [walk_back]
    counts. *)
Lemma suffix_loop_walk_back : forall (n : nat) (cs : list Z) d s fuel,
  descending cs ->
  Forall (fun c => c <= d) cs ->
  (forall l, last cs = Some l -> d - l + 1 <= Z.of_nat n) ->
  (n <= fuel)%nat ->
  suffix_loop fuel due cs d s
  = Some (s + walk_back n due (fun x => bool_decide (x ∈ cs)) d).
Proof.
  induction n as [|n IH]; intros cs d s fuel Hs Hle Hlast Hfuel.
  - destruct cs as [|c rest].
    + destruct fuel; simpl; f_equal; lia.
    + exfalso. destruct (last (c :: rest)) as [l|] eqn:El.
      * specialize (Hlast l eq_refl).
        apply last_Some_elem_of in El.
        rewrite Forall_forall in Hle. specialize (Hle l El). simpl in Hle. lia.
      * apply last_None in El. discriminate.
  - destruct cs as [|c rest].
    + rewrite walk_back_none.
      * destruct fuel; simpl; f_equal; lia.
      * intros x _. apply bool_decide_eq_false. apply not_elem_of_nil.
    + destruct fuel as [|fuel]; [lia|].
      pose proof (descending_tail_below _ _ Hs) as Hrest.
      assert (Hc : c <= d) by (by apply Forall_inv in Hle).
      cbn [suffix_loop walk_back].
      destruct (Z.eqb_spec c d) as [->|Hne].
      * rewrite bool_decide_eq_true_2 by apply list_elem_of_here.
        rewrite (IH rest (d - 1)); try lia.
        -- f_equal.
           rewrite (walk_back_ext n (fun x => bool_decide (x ∈ d :: rest))
                      (fun x => bool_decide (x ∈ rest)) (d - 1)).
           ++ destruct (due d); lia.
           ++ intros x Hx. apply bool_decide_ext.
              rewrite elem_of_cons. intuition lia.
        -- by apply StronglySorted_inv in Hs as [Hs _].
        -- exact Hrest.
        -- intros l Hl. destruct rest as [|c' rest']; [discriminate|].
           rewrite <- last_cons_cons with (x1 := d) in Hl.
           specialize (Hlast l Hl). lia.
      * assert (Hnotin : d ∉ c :: rest).
        { intros Hin. apply elem_of_cons in Hin as [->|Hin]; [lia|].
          rewrite Forall_forall in Hrest. specialize (Hrest d Hin). simpl in Hrest. lia. }
        rewrite bool_decide_eq_false_2 by exact Hnotin.
        destruct (due d); [f_equal; lia|].
        rewrite (IH (c :: rest) (d - 1)); try lia; try done.
        -- apply Forall_cons; split; [lia|].
           eapply Forall_impl; [exact Hrest|]. simpl. intros; lia.
        -- intros l Hl. specialize (Hlast l Hl). lia.
Qed.
End StreakLoop.

(** ** The completions of a habit, sorted *)

#[global] Instance later_first_trans : Transitive later_first.
Proof. unfold later_first. intros a b c ? ?. lia. Qed.

#[global] Instance later_first_total : Total later_first.
Proof. unfold later_first. intros a b. lia. Qed.

Lemma completion_days_NoDup l hid uid : NoDup (completion_days l hid uid).
Proof.
  unfold completion_days, rows_of.
  apply NoDup_fmap_2_strong.
  - intros [[h1 d1] c1] [[h2 d2] c2] H1 H2 Heq. simpl in Heq. subst d2.
    apply list_elem_of_filter in H1 as [[Hh1 _] H1].
    apply list_elem_of_filter in H2 as [[Hh2 _] H2].
    simpl in Hh1, Hh2. subst h1 h2.
    apply elem_of_map_to_list in H1. apply elem_of_map_to_list in H2.
    congruence.
  - apply NoDup_filter, NoDup_map_to_list.
Qed.

Lemma find_completions_perm l hid uid :
  find_completions l hid uid ≡ₚ completion_days l hid uid.
Proof. apply merge_sort_Permutation. Qed.

Lemma sorted_NoDup_descending (cs : list Z) :
  StronglySorted later_first cs -> NoDup cs -> descending cs.
Proof.
  induction cs as [|c rest IH]; intros Hs Hn; [constructor|].
  apply StronglySorted_inv in Hs as [Hs Hall].
  apply NoDup_cons in Hn as [Hc Hn].
  constructor; [by apply IH|].
  rewrite Forall_forall in Hall |- *. intros x Hx.
  specialize (Hall x Hx). unfold later_first in Hall.
  assert (x <> c) by (intros ->; contradiction). lia.
Qed.

Lemma find_completions_descending l hid uid :
  descending (find_completions l hid uid).
Proof.
  apply sorted_NoDup_descending.
  - apply StronglySorted_merge_sort; apply _.
  - rewrite find_completions_perm. apply completion_days_NoDup.
Qed.

Lemma latest_max (dates : list Z) :
  match latest dates with
  | None => dates = []
  | Some m => m ∈ dates /\ Forall (fun x => x <= m) dates
  end.
Proof.
  induction dates as [|d rest IH]; [reflexivity|].
  simpl. destruct (latest rest) as [m|]; simpl.
  - destruct IH as [Hin Hall]. split.
    + destruct (Z.max_spec d m) as [[_ ->]|[_ ->]];
        [by apply list_elem_of_further | apply list_elem_of_here].
    + constructor; [lia|].
      eapply Forall_impl; [exact Hall|]. simpl. intros; lia.
  - subst rest. split; [apply list_elem_of_here|].
    constructor; [lia | constructor].
Qed.

Lemma earliest_min (dates : list Z) :
  match earliest dates with
  | None => dates = []
  | Some m => m ∈ dates /\ Forall (fun x => m <= x) dates
  end.
Proof.
  induction dates as [|d rest IH]; [reflexivity|].
  simpl. destruct (earliest rest) as [m|]; simpl.
  - destruct IH as [Hin Hall]. split.
    + destruct (Z.min_spec d m) as [[_ ->]|[_ ->]];
        [apply list_elem_of_here | by apply list_elem_of_further].
    + constructor; [lia|].
      eapply Forall_impl; [exact Hall|]. simpl. intros; lia.
  - subst rest. split; [apply list_elem_of_here|].
    constructor; [lia | constructor].
Qed.

Lemma latest_unique (dates : list Z) m :
  m ∈ dates -> Forall (fun x => x <= m) dates -> latest dates = Some m.
Proof.
  intros Hin Hall. pose proof (latest_max dates) as H.
  destruct (latest dates) as [m'|].
  - destruct H as [Hin' Hall']. rewrite Forall_forall in Hall, Hall'.
    specialize (Hall m' Hin'). specialize (Hall' m Hin). simpl in *.
    f_equal. lia.
  - subst dates. by apply elem_of_nil in Hin.
Qed.

Lemma earliest_unique (dates : list Z) m :
  m ∈ dates -> Forall (fun x => m <= x) dates -> earliest dates = Some m.
Proof.
  intros Hin Hall. pose proof (earliest_min dates) as H.
  destruct (earliest dates) as [m'|].
  - destruct H as [Hin' Hall']. rewrite Forall_forall in Hall, Hall'.
    specialize (Hall m' Hin'). specialize (Hall' m Hin). simpl in *.
    f_equal. lia.
  - subst dates. by apply elem_of_nil in Hin.
Qed.

Lemma descending_last (cs : list Z) l :
  descending cs -> last cs = Some l -> Forall (fun x => l <= x) cs.
Proof.
  induction cs as [|c rest IH]; intros Hs Hl; [constructor|].
  pose proof (descending_tail_below _ _ Hs) as Hrest.
  apply StronglySorted_inv in Hs as [Hs _].
  destruct rest as [|c' rest'].
  - simpl in Hl. injection Hl as ->. constructor; [lia | constructor].
  - rewrite last_cons_cons in Hl. specialize (IH Hs Hl).
    constructor; [|exact IH].
    pose proof (last_Some_elem_of _ _ Hl) as Hin.
    rewrite Forall_forall in Hrest. specialize (Hrest l Hin). simpl in Hrest. lia.
Qed.

(** The body shared by the two streak functions always finishes, with the
    count of [reference_streak]. *)
Lemma streak_from_reference due l hid uid today :
  streak_from due (find_completions l hid uid) today
  = Some (reference_streak due (completion_days l hid uid) today).
Proof.
  pose proof (find_completions_perm l hid uid) as Hperm.
  pose proof (find_completions_descending l hid uid) as Hdesc.
  set (dates := completion_days l hid uid) in *.
  destruct (find_completions l hid uid) as [|c rest] eqn:Ecs.
  - symmetry in Hperm. apply Permutation_nil_r in Hperm.
    unfold reference_streak. rewrite Hperm. reflexivity.
  - assert (Hhead : Forall (fun x => x <= c) (c :: rest)).
    { constructor; [lia|]. eapply Forall_impl;
        [exact (descending_tail_below _ _ Hdesc)|]. simpl. intros; lia. }
    destruct (last (c :: rest)) as [o|] eqn:El;
      [|apply last_None in El; discriminate].
    pose proof (descending_last _ _ Hdesc El) as Hlast.
    assert (Hoc : o <= c) by (by apply Forall_inv in Hlast).
    assert (Hlatest : latest dates = Some c).
    { apply latest_unique.
      - rewrite <- Hperm. apply list_elem_of_here.
      - by rewrite <- Hperm. }
    assert (Hearliest : earliest dates = Some o).
    { apply earliest_unique.
      - rewrite <- Hperm. by apply last_Some_elem_of.
      - by rewrite <- Hperm. }
    assert (Hloop : forall d, d = c ->
      streak_loop (loop_bound (c :: rest)) due (c :: rest) d 0 0
      = Some (walk_back (Z.to_nat (c - o + 1)) due
                (fun x => bool_decide (x ∈ dates)) c)).
    { intros d ->. rewrite streak_loop_suffix. rewrite drop_0.
      unfold loop_bound. rewrite El.
      rewrite (suffix_loop_walk_back due (Z.to_nat (c - o + 1))); try done.
      - f_equal. rewrite Z.add_0_l. apply walk_back_ext.
        intros x _. apply bool_decide_ext. by rewrite Hperm.
      - intros l' Hl'. rewrite El in Hl'. injection Hl' as <-. lia. }
    unfold streak_from, reference_streak. rewrite Hlatest, Hearliest.
    destruct (Z.eqb_spec c today) as [Hct|Hct].
    + rewrite bool_decide_eq_true_2 by (left; exact Hct).
      apply Hloop. congruence.
    + destruct (Z.eqb_spec c (today - 1)) as [Hcy|Hcy].
      * rewrite bool_decide_eq_true_2 by (right; exact Hcy).
        apply Hloop. congruence.
      * rewrite bool_decide_eq_false_2 by (intros [?|?]; contradiction).
        reflexivity.
Qed.

Lemma calculateStreak_reference l hid h today :
  exists h',
    calculateStreak l hid h today
    = Some (h', reference_streak (isDueToday h)
                  (completion_days l hid (user h)) today)
    /\ recomputed h (reference_streak (isDueToday h)
                       (completion_days l hid (user h)) today) h'.
Proof.
  pose proof (streak_from_reference (isDueToday h) l hid (user h) today) as H.
  unfold calculateStreak, streak_from in *.
  destruct (find_completions l hid (user h)) as [|c rest] eqn:Ecs.
  - injection H as <-.
    eexists; split; [reflexivity|]. eexists; split; [reflexivity|]. by left.
  - cbv zeta.
    destruct (if c =? today then Some today
              else if c =? today - 1 then Some (today - 1) else None)
      as [startDate|].
    + rewrite H.
      eexists; split; [reflexivity|]. eexists; split; [reflexivity|].
      destruct (Z.ltb_spec (longestStreak h)
                  (reference_streak (isDueToday h)
                     (completion_days l hid (user h)) today)); [right|left]; done.
    + injection H as <-.
      eexists; split; [reflexivity|]. eexists; split; [reflexivity|]. by left.
Qed.


(** ** Due days (C8) *)

Lemma dayNames_getDay date : dayNames !! getDay date = Some (weekday_name date).
Proof.
  unfold getDay, weekday_name.
  pose proof (Z.mod_pos_bound (date + 4) 7 ltac:(lia)) as Hm.
  set (m := (date + 4) mod 7) in *.
  assert (m = 0 \/ m = 1 \/ m = 2 \/ m = 3 \/ m = 4 \/ m = 5 \/ m = 6)
    as Hcases by lia.
  destruct Hcases as [->|[->|[->|[->|[->|[->| ->]]]]]]; reflexivity.
Qed.

(** C8, amended.  For every date, [isDueToday] is false for every habit
    that is not active; for an active habit it is true when the frequency
    is daily or weekly, and for an active custom habit it is true if and
    only if the weekday name of the date is in the habit's day set.  The
    front end's [isHabitDueToday] decides the same. *)
Theorem isDueToday_active_schedule h date :
  (isDueToday h date = true <->
     isActive h = true
     /\ (frequency h = daily \/ frequency h = weekly
         \/ (frequency h = custom
             /\ weekday_name date ∈ customFrequency_days h)))
  /\ isHabitDueToday
       (mkClientHabit (isActive h) (frequency h)
          (Some (customFrequency_days h))) date
     = isDueToday h date.
Proof.
  unfold isDueToday, isHabitDueToday. simpl.
  rewrite dayNames_getDay.
  destruct (isActive h); simpl.
  - destruct (frequency h); split; try reflexivity.
    + split; [intros _; split; [done | by left] | done].
    + split; [intros _; split; [done | right; by left] | done].
    + rewrite bool_decide_eq_true. split.
      * intros Hin. split; [done|]. right; right. by split.
      * intros [_ [?|[?|[_ Hin]]]]; done.
  - split; [|reflexivity]. split; [discriminate | intros [? _]; discriminate].
Qed.

(** C8 as stated fails on an archived daily habit: it is due on no day. *)
Lemma archived_daily_habit_never_due :
  frequency archived_habit = daily /\ isDueToday archived_habit wed = false.
Proof. split; reflexivity. Qed.

(** ** Streak calculation (C1) *)

Lemma up_to_le (dates : list Z) d : (up_to dates (d - 1) <= up_to dates d)%nat.
Proof.
  unfold up_to. induction dates as [|x dates IH]; [reflexivity|].
  rewrite !filter_cons.
  destruct (decide (x <= d - 1)), (decide (x <= d)); simpl; lia.
Qed.

Lemma up_to_member (dates : list Z) d :
  d ∈ dates -> (S (up_to dates (d - 1)) <= up_to dates d)%nat.
Proof.
  unfold up_to. induction dates as [|x dates IH]; intros Hin;
    [by apply elem_of_nil in Hin|].
  rewrite !filter_cons. apply elem_of_cons in Hin as [<-|Hin].
  - pose proof (up_to_le dates d) as Hle. unfold up_to in Hle.
    destruct (decide (d <= d - 1)), (decide (d <= d)); simpl; lia.
  - specialize (IH Hin).
    destruct (decide (x <= d - 1)), (decide (x <= d)); simpl; lia.
Qed.

Lemma up_to_none (dates : list Z) d :
  up_to dates d = O -> forall x, x <= d -> x ∉ dates.
Proof.
  unfold up_to. intros H x Hx Hin.
  apply length_zero_iff_nil in H.
  by apply (filter_nil_not_elem_of _ _ x H).
Qed.

Section SpecWalk.
Variable due : Z -> bool.
Variable dates : list Z.

(** Below the oldest completion the walk ends at the next due day. *)
Lemma spec_walk_past_oldest : forall (j : nat) fuel remaining day streak,
  (j < fuel)%nat ->
  due (day - Z.of_nat j) = true ->
  (forall x, x <= day -> x ∉ dates) ->
  spec_walk fuel due dates remaining day streak = Some streak.
Proof.
  induction j as [|j IH]; intros fuel remaining day streak Hfuel Hdue Hnone;
    (destruct remaining as [|c older]; [by destruct fuel|]);
    (destruct fuel as [|fuel]; [lia|]); simpl.
  - replace (day - Z.of_nat 0) with day in Hdue by lia. rewrite Hdue. simpl.
    rewrite bool_decide_eq_false_2; [reflexivity|]. apply Hnone. lia.
  - destruct (due day); simpl.
    + rewrite bool_decide_eq_false_2; [reflexivity|]. apply Hnone. lia.
    + apply IH; [lia| |intros x Hx; apply Hnone; lia].
      replace (day - 1 - Z.of_nat j) with (day - Z.of_nat (S j)) by lia.
      exact Hdue.
Qed.

(** When some day is due every week, the walk of the specification ends
    and counts what [walk_back] counts. *)
Lemma spec_walk_walk_back :
  due_every_week due ->
  forall (n : nat) fuel remaining day streak,
    (n + 7 <= fuel)%nat ->
    (forall x, x ∈ dates -> day - Z.of_nat n < x) ->
    (up_to dates day <= length remaining)%nat ->
    spec_walk fuel due dates remaining day streak
    = Some (streak
            + walk_back n due (fun x => bool_decide (x ∈ dates)) day).
Proof.
  intros Hweek. induction n as [|n IH];
    intros fuel remaining day streak Hfuel Hold Hcount.
  - simpl. rewrite Z.add_0_r.
    destruct (Hweek day) as (j & Hj & Hdue).
    apply (spec_walk_past_oldest (Z.to_nat j)); [lia| |].
    + by rewrite Z2Nat.id by lia.
    + intros x Hx Hin. specialize (Hold x Hin). lia.
  - destruct remaining as [|c older].
    + rewrite walk_back_none.
      * destruct fuel; simpl; f_equal; lia.
      * intros x Hx. apply bool_decide_eq_false.
        apply (up_to_none dates day); [|exact Hx]. simpl in Hcount. lia.
    + destruct fuel as [|fuel]; [lia|]. simpl.
      destruct (due day); simpl.
      * case_bool_decide as Hin.
        -- rewrite (IH fuel older (day - 1)); [f_equal; lia|lia| |].
           ++ intros x Hx. specialize (Hold x Hx). lia.
           ++ pose proof (up_to_member dates day Hin). simpl in Hcount. lia.
        -- f_equal. lia.
      * rewrite (IH fuel (c :: older) (day - 1)); [|lia| |].
        -- by destruct (bool_decide (day ∈ dates)).
        -- intros x Hx. specialize (Hold x Hx). lia.
        -- pose proof (up_to_le dates day). lia.
Qed.

(** When no day is due, the walk of the specification never ends. *)
Lemma spec_walk_never_due :
  (forall day, due day = false) ->
  forall fuel c older day streak,
    spec_walk fuel due dates (c :: older) day streak = None.
Proof.
  intros Hnever. induction fuel as [|fuel IH]; intros c older day streak;
    [reflexivity|].
  simpl. rewrite Hnever. simpl. apply IH.
Qed.
End SpecWalk.

Lemma weekday_within_week n day :
  n ∈ dayNames -> exists j, 0 <= j < 7 /\ weekday_name (day - j) = n.
Proof.
  intros Hn. apply list_elem_of_lookup in Hn as [k Hk].
  assert (Hk7 : (k < 7)%nat) by (apply lookup_lt_Some in Hk; exact Hk).
  exists ((day + 4 - Z.of_nat k) mod 7).
  split; [apply Z.mod_pos_bound; lia|].
  pose proof (dayNames_getDay (day - (day + 4 - Z.of_nat k) mod 7)) as Hd.
  assert (Hg : getDay (day - (day + 4 - Z.of_nat k) mod 7) = k).
  { unfold getDay. apply Nat2Z.inj. rewrite Z2Nat.id.
    - Z.div_mod_to_equations. lia.
    - apply Z.mod_pos_bound. lia. }
  rewrite Hg, Hk in Hd. by injection Hd.
Qed.

Lemma due_some_weekday_every_week h :
  due_some_weekday h -> due_every_week (isDueToday h).
Proof.
  intros [Hactive Hfreq] day. unfold isDueToday. rewrite Hactive. simpl.
  destruct Hfreq as [->|[->|[-> (n & Hn & Hday)]]].
  - exists 0. split; [lia | reflexivity].
  - exists 0. split; [lia | reflexivity].
  - destruct (weekday_within_week n day Hn) as (j & Hj & Hname).
    exists j. split; [exact Hj|].
    rewrite dayNames_getDay, Hname. by apply bool_decide_eq_true.
Qed.

(** A habit is due on some day of the week or on no day at all. *)
Lemma due_some_weekday_or_never h :
  due_some_weekday h \/ forall day, isDueToday h day = false.
Proof.
  unfold due_some_weekday, isDueToday.
  destruct (isActive h); [|by right].
  destruct (frequency h); [left; auto | left; auto |].
  destruct (decide (Exists (fun n => n ∈ customFrequency_days h) dayNames))
    as [Hex|Hnone].
  - left. split; [done|]. right; right. split; [done|].
    apply Exists_exists in Hex as (n & Hn & Hin). by exists n.
  - right. intros day. simpl. rewrite dayNames_getDay.
    apply bool_decide_eq_false. intros Hin. apply Hnone.
    apply Exists_exists. exists (weekday_name day). split; [|exact Hin].
    apply list_elem_of_lookup. exists (getDay day). apply dayNames_getDay.
Qed.

Lemma never_due_streak_zero due :
  (forall day, due day = false) ->
  forall n has day, walk_back n due has day = 0.
Proof.
  intros Hnever. induction n as [|n IH]; intros has day; [reflexivity|].
  simpl. rewrite Hnever, IH. by destruct (has day).
Qed.

(** The walk of the specification on the sorted completions of a habit
    that is due some day every week. *)
Lemma spec_streak_reference due l hid uid today fuel :
  due_every_week due ->
  (loop_bound (find_completions l hid uid) + 7 <= fuel)%nat ->
  spec_streak fuel due (find_completions l hid uid) today
  = Some (reference_streak due (completion_days l hid uid) today).
Proof.
  intros Hweek Hfuel.
  pose proof (find_completions_perm l hid uid) as Hperm.
  pose proof (find_completions_descending l hid uid) as Hdesc.
  set (dates := completion_days l hid uid) in *.
  destruct (find_completions l hid uid) as [|c rest] eqn:Ecs.
  - symmetry in Hperm. apply Permutation_nil_r in Hperm.
    unfold reference_streak. rewrite Hperm. reflexivity.
  - assert (Hhead : Forall (fun x => x <= c) (c :: rest)).
    { constructor; [lia|]. eapply Forall_impl;
        [exact (descending_tail_below _ _ Hdesc)|]. simpl. intros; lia. }
    destruct (last (c :: rest)) as [o|] eqn:El;
      [|apply last_None in El; discriminate].
    pose proof (descending_last _ _ Hdesc El) as Hlast.
    assert (Hoc : o <= c) by (by apply Forall_inv in Hlast).
    assert (Hlatest : latest dates = Some c).
    { apply latest_unique.
      - rewrite <- Hperm. apply list_elem_of_here.
      - by rewrite <- Hperm. }
    assert (Hearliest : earliest dates = Some o).
    { apply earliest_unique.
      - rewrite <- Hperm. by apply last_Some_elem_of.
      - by rewrite <- Hperm. }
    unfold spec_streak, reference_streak. rewrite Hlatest, Hearliest.
    unfold loop_bound in Hfuel. rewrite El in Hfuel.
    destruct ((c =? today) || (c =? today - 1)) eqn:Eanchor.
    + rewrite bool_decide_eq_true_2 by lia.
      rewrite (spec_walk_walk_back due (c :: rest) Hweek
                 (Z.to_nat (c - o + 1))); try lia.
      * f_equal. rewrite Z.add_0_l. apply walk_back_ext.
        intros x _. apply bool_decide_ext. by rewrite Hperm.
      * intros x Hx. rewrite Forall_forall in Hlast.
        specialize (Hlast x Hx). simpl in Hlast. lia.
      * unfold up_to. apply length_filter.
    + rewrite bool_decide_eq_false_2 by lia. reflexivity.
Qed.

(** C1, amended.  For every habit and completion history the streak loop
    of [calculateStreak] and of [calculateHabitStreak] finishes, and the
    computed current streak is 0 if the most recent completion is neither
    today nor yesterday and otherwise the count of the walk back from that
    anchor, one calendar day at a time, in which a day with a completion
    consumes it whether the day is due or not and counts only when it is due,
    a day without a completion ends the walk when it is due and is skipped
    when it is not, and the walk ends when the completions are exhausted.
    For a habit that is due on some day of the week this is the result of
    the reference walk of the specification, in which a day that is not due
    consumes nothing.  For a habit that is due on no day, the only other
    case, the computed streak is 0. *)
Theorem calculateStreak_walks_completion_days s hid h uid today :
  let completions := find_completions (ledger s) hid (user h) in
  let k :=
    reference_streak (isDueToday h) (completion_days (ledger s) hid (user h))
      today in
  (exists h',
      calculateStreak (ledger s) hid h today = Some (h', k)
      /\ recomputed h k h')
  /\ calculateHabitStreak s hid uid today
     = Some (match habits s !! hid with
             | Some habit =>
                 reference_streak (isDueToday habit)
                   (completion_days (ledger s) hid uid) today
             | None => 0
             end)
  /\ (due_some_weekday h ->
      forall fuel, (loop_bound completions + 7 <= fuel)%nat ->
        spec_streak fuel (isDueToday h) completions today = Some k)
  /\ ((forall day, isDueToday h day = false) -> k = 0)
  /\ (due_some_weekday h \/ forall day, isDueToday h day = false).
Proof.
  cbv zeta. split; [apply calculateStreak_reference|].
  split; [|split; [|split; [|apply due_some_weekday_or_never]]].
  - unfold calculateHabitStreak. destruct (habits s !! hid) as [habit|].
    + apply (streak_from_reference (isDueToday habit)).
    + reflexivity.
  - intros Hdue fuel Hfuel. apply spec_streak_reference; [|exact Hfuel].
    by apply due_some_weekday_every_week.
  - intros Hnever. unfold reference_streak.
    destruct (latest (completion_days (ledger s) hid (user h))) as [anchor|];
      [|reflexivity].
    destruct (earliest (completion_days (ledger s) hid (user h)))
      as [oldest|]; [|reflexivity].
    case_bool_decide; [|reflexivity].
    by apply never_due_streak_zero.
Qed.

Lemma calculateStreak_walks_completion_days_witness :
  due_some_weekday daily_habit
  /\ spec_streak 8 (isDueToday daily_habit)
       (find_completions (ledger store1) "h1" (user daily_habit)) wed
     = Some (reference_streak (isDueToday daily_habit)
               (completion_days (ledger store1) "h1" (user daily_habit)) wed).
Proof.
  assert (Hdue : due_some_weekday daily_habit)
    by (split; [reflexivity | left; reflexivity]).
  split; [exact Hdue|].
  destruct (calculateStreak_walks_completion_days store1 "h1" daily_habit
              "u1" wed) as (_ & _ & Hspec & _ & _).
  apply Hspec; [exact Hdue | vm_compute; lia].
Defined.

(** A daily habit completed on days D, D-1 and D-2 but not on D-3 has
    streak 3 on day D, for the code and for the reference walk. *)
Example streak_three_days :
  calculateHabitStreak store_three_days "h1" "u1" wed = Some 3
  /\ spec_streak 20 (isDueToday daily_habit)
       (find_completions (ledger store_three_days) "h1" "u1") wed = Some 3.
Proof. split; vm_compute; reflexivity. Qed.

(** A Monday and Wednesday habit completed on Monday, Tuesday and
    Wednesday has streak 2 on the Wednesday: the Tuesday neither breaks nor
    extends it. *)
Example streak_skips_day_off :
  calculateHabitStreak store_mon_wed "h1" "u1" wed = Some 2
  /\ spec_streak 20 (isDueToday mon_wed_habit)
       (find_completions (ledger store_mon_wed) "h1" "u1") wed = Some 2.
Proof. split; vm_compute; reflexivity. Qed.

(** C1 as stated fails on a habit that is due on no day: for the daily
    habit completed on Wednesday and archived, the code computes 0 that
    Wednesday, while the reference walk of the specification, which never
    meets a due day and never consumes the completion, does not end. *)
Lemma spec_walk_never_ends_for_archived_habit :
  exists h,
    habits store_archived !! "h1" = Some h
    /\ isActive h = false
    /\ find_completions (ledger store_archived) "h1" (user h) = [wed]
    /\ snd <$> calculateStreak (ledger store_archived) "h1" h wed = Some 0
    /\ forall fuel, spec_streak fuel (isDueToday h) [wed] wed = None.
Proof.
  eexists. split; [vm_compute; reflexivity|].
  split; [reflexivity|]. split; [vm_compute; reflexivity|].
  split; [vm_compute; reflexivity|].
  intros fuel. unfold spec_streak. rewrite Z.eqb_refl. simpl.
  apply spec_walk_never_due. intros day. reflexivity.
Qed.

(** ** The completion routes *)

Lemma or_num_idem a b : or_num a (or_num a b) = or_num a b.
Proof. unfold or_num. destruct a as [n|]; [destruct (n =? 0)|]; reflexivity. Qed.

Lemma or_str_idem a b : or_str a (or_str a b) = or_str a b.
Proof.
  unfold or_str. destruct a as [x|]; [destruct (bool_decide (x = ""))|];
    reflexivity.
Qed.

Lemma or_num_same a : or_num a a = a.
Proof. unfold or_num. destruct a as [n|]; [destruct (n =? 0)|]; reflexivity. Qed.

Lemma or_str_same a : or_str a a = a.
Proof.
  unfold or_str. destruct a as [x|]; [destruct (bool_decide (x = ""))|];
    reflexivity.
Qed.

Lemma checkOwnership_Ok s req id habit :
  checkOwnership s req id = Ok habit <->
  habits s !! id = Some habit
  /\ (req_admin req = true \/ user habit = req_user req).
Proof.
  unfold checkOwnership. destruct (habits s !! id) as [h|].
  - destruct (req_admin req).
    + split; [intros [= ->]; auto | intros [[= ->] _]; reflexivity].
    + case_bool_decide as Hu.
      * split; [intros [= ->]; auto | intros [[= ->] _]; reflexivity].
      * split; [discriminate | intros [[= ->] [?|?]]; [discriminate | done]].
  - split; [discriminate | intros [? _]; discriminate].
Qed.

(** Saving a habit of the same owner keeps the ownership check. *)
Lemma checkOwnership_saved s req id habit habit' l us :
  checkOwnership s req id = Ok habit ->
  user habit' = user habit ->
  checkOwnership (mkStore (<[id := habit']> (habits s)) l us) req id
  = Ok habit'.
Proof.
  rewrite !checkOwnership_Ok. simpl. intros [_ Hown] Hu.
  rewrite lookup_insert_eq, Hu. done.
Qed.

Lemma findOne_Some l hid uid date c :
  findOne l hid uid date = Some c <-> l !! (hid, date) = Some c /\ c_user c = uid.
Proof.
  unfold findOne. destruct (l !! (hid, date)) as [c'|].
  - case_bool_decide as Hu.
    + split; [intros [= ->]; auto | intros [[= ->] _]; reflexivity].
    + split; [discriminate | intros [[= ->] ?]; done].
  - split; [discriminate | intros [? _]; discriminate].
Qed.

Lemma findOne_absent l hid uid date :
  l !! (hid, date) = None -> findOne l hid uid date = None.
Proof. unfold findOne. by intros ->. Qed.

Lemma recomputed_user h k h' : recomputed h k h' -> user h' = user h.
Proof. by intros (longest & -> & _). Qed.

Lemma recomputed_longest h k h' :
  recomputed h k h' -> longestStreak h <= longestStreak h'.
Proof. intros (longest & -> & [->|[? ->]]); simpl; lia. Qed.

Lemma recomputed_statistics l hid h k h' now :
  recomputed h k h' -> statistics_at l hid h' now = statistics_at l hid h now.
Proof. by intros (longest & -> & _). Qed.

Lemma statistics_at_with_progress l hid h a b c now :
  statistics_at l hid (with_progress h a b c) now = statistics_at l hid h now.
Proof. reflexivity. Qed.

Lemma calculateStreak_inv l hid h today h1 k :
  calculateStreak l hid h today = Some (h1, k) ->
  k = reference_streak (isDueToday h) (completion_days l hid (user h)) today
  /\ recomputed h k h1.
Proof.
  intros H. destruct (calculateStreak_reference l hid h today) as (h' & E & R).
  rewrite E in H. injection H as <- <-. done.
Qed.

(** The route gives no [completionDate] to [HabitCompletion.create], and
    the validation, which comes before the pre-save hook, rejects the
    document. *)
Lemma create_rejected l hid doc : create l hid None doc = Err ValidationError.
Proof.
  unfold create. rewrite (bool_decide_eq_false_2 (is_Some None)).
  - by rewrite andb_false_r.
  - apply is_Some_None.
Qed.

(** Without a row of the caller for the day, the completion route stops at
    the creation, before anything is written. *)
Lemma post_complete_new s req id body today habit :
  checkOwnership s req id = Ok habit ->
  findOne (ledger s) id (req_user req) today = None ->
  post_complete_run s req id body today = (s, Err ValidationError).
Proof.
  intros Hown Hfind. unfold post_complete_run. rewrite Hown, Hfind.
  destruct (calculateStreak_reference (ledger s) id habit today)
    as (habit1 & E & _).
  rewrite E. by rewrite create_rejected.
Qed.

Lemma post_complete_run_update s req id body today habit existing :
  checkOwnership s req id = Ok habit ->
  findOne (ledger s) id (req_user req) today = Some existing ->
  valid_completion (update_existing existing habit body) = true ->
  post_complete_run s req id body today
  = (mkStore (habits s)
       (<[(id, today) := update_existing existing habit body]> (ledger s))
       (users s),
     Ok (mkResponse (update_existing existing habit body) habit false 0 false)).
Proof.
  intros Hown Hfind Hvalid. unfold post_complete_run.
  by rewrite Hown, Hfind, Hvalid.
Qed.

(** The completion route either fails and leaves the store as it was, or
    updates the row of the day. *)
Lemma post_complete_run_inv s req id body today :
  (exists e, post_complete_run s req id body today = (s, Err e))
  \/ exists habit existing,
       checkOwnership s req id = Ok habit
       /\ findOne (ledger s) id (req_user req) today = Some existing
       /\ valid_completion (update_existing existing habit body) = true
       /\ post_complete_run s req id body today
          = (mkStore (habits s)
               (<[(id, today) := update_existing existing habit body]>
                  (ledger s))
               (users s),
             Ok (mkResponse (update_existing existing habit body) habit
                   false 0 false)).
Proof.
  destruct (checkOwnership s req id) as [habit|e] eqn:Hown.
  - destruct (findOne (ledger s) id (req_user req) today)
      as [existing|] eqn:Hfind.
    + destruct (valid_completion (update_existing existing habit body))
        eqn:Hvalid.
      * right. exists habit, existing. repeat split; try done.
        by apply post_complete_run_update.
      * left. exists ValidationError. unfold post_complete_run.
        by rewrite Hown, Hfind, Hvalid.
    + left. exists ValidationError. by eapply post_complete_new.
  - left. exists e. unfold post_complete_run. by rewrite Hown.
Qed.

(** The one way in which the completion route succeeds. *)
Lemma post_complete_inv s req id body today s1 r1 :
  post_complete s req id body today = Ok (s1, r1) ->
  exists habit existing,
    checkOwnership s req id = Ok habit
    /\ findOne (ledger s) id (req_user req) today = Some existing
    /\ valid_completion (update_existing existing habit body) = true
    /\ s1 = mkStore (habits s)
              (<[(id, today) := update_existing existing habit body]>
                 (ledger s))
              (users s)
    /\ r1 = mkResponse (update_existing existing habit body) habit
              false 0 false.
Proof.
  unfold post_complete.
  destruct (post_complete_run_inv s req id body today)
    as [[e ->]|(habit & existing & Hown & Hfind & Hvalid & ->)];
    [discriminate|].
  simpl. intros [= <- <-]. by exists habit, existing.
Qed.

Lemma post_complete_update s req id body today habit existing :
  checkOwnership s req id = Ok habit ->
  findOne (ledger s) id (req_user req) today = Some existing ->
  valid_completion (update_existing existing habit body) = true ->
  post_complete s req id body today
  = Ok (mkStore (habits s)
          (<[(id, today) := update_existing existing habit body]> (ledger s))
          (users s),
        mkResponse (update_existing existing habit body) habit false 0 false).
Proof.
  intros Hown Hfind Hvalid. unfold post_complete.
  by rewrite (post_complete_run_update _ _ _ _ _ _ _ Hown Hfind Hvalid).
Qed.

(** A failed completion leaves the store as it was. *)
Lemma post_complete_run_failed s req id body today s' e :
  post_complete_run s req id body today = (s', Err e) -> s' = s.
Proof.
  destruct (post_complete_run_inv s req id body today)
    as [[e' ->]|(habit & existing & _ & _ & _ & ->)]; [|discriminate].
  by intros [= <- _].
Qed.

Lemma filter_none {A} (P : A -> Prop) `{forall x, Decision (P x)} (l : list A) :
  Forall (fun x => ~ P x) l -> filter P l = [].
Proof.
  induction 1 as [|x l Hx _ IH]; [reflexivity|].
  by rewrite filter_cons_False.
Qed.

Lemma rows_at_one l key c : l !! key = Some c -> rows_at l key = [(key, c)].
Proof.
  intros H. apply Permutation_singleton_r. unfold rows_at.
  rewrite <- (insert_delete_id l key c H).
  rewrite map_to_list_insert by apply lookup_delete_eq.
  rewrite filter_cons_True by reflexivity.
  rewrite filter_none; [reflexivity|].
  apply Forall_forall. intros [k v] Hin Hk. simpl in Hk. subst k.
  apply elem_of_map_to_list in Hin. by rewrite lookup_delete_eq in Hin.
Qed.

Lemma rows_at_none l key : l !! key = None -> rows_at l key = [].
Proof.
  intros H. unfold rows_at. apply filter_none, Forall_forall.
  intros [k v] Hin Hk. simpl in Hk. subst k.
  apply elem_of_map_to_list in Hin. by rewrite H in Hin.
Qed.

Lemma update_existing_again existing habit body :
  update_existing (update_existing existing habit body) habit body
  = update_existing existing habit body.
Proof.
  unfold update_existing. simpl.
  by rewrite !or_str_idem, !or_num_idem.
Qed.

(** The undo route: the three stores it may leave. *)
Lemma delete_complete_run_inv s req id today :
  (exists e, delete_complete_run s req id today = (s, Err e))
  \/ exists habit c habit2 k,
       checkOwnership s req id = Ok habit
       /\ findOne (ledger s) id (req_user req) today = Some c
       /\ calculateStreak (delete (id, today) (ledger s)) id
            (with_progress habit (currentStreak habit) (longestStreak habit)
               (Z.max 0 (totalCompletions habit - 1))) today
          = Some (habit2, k)
       /\ ((valid_statistics
              (statistics_at (delete (id, today) (ledger s)) id habit
                 (clock req today)) = false
            /\ delete_complete_run s req id today
               = (mkStore (habits s) (delete (id, today) (ledger s))
                    (users s),
                  Err ValidationError))
           \/ (valid_statistics
                 (statistics_at (delete (id, today) (ledger s)) id habit
                    (clock req today)) = true
               /\ delete_complete_run s req id today
                  = (mkStore (<[id := habit2]> (habits s))
                       (delete (id, today) (ledger s)) (users s),
                     Ok habit2))).
Proof.
  destruct (checkOwnership s req id) as [habit|e] eqn:Hown.
  2: { left. exists e. unfold delete_complete_run. by rewrite Hown. }
  destruct (findOne (ledger s) id (req_user req) today) as [c|] eqn:Hfind.
  2: { left. eexists. unfold delete_complete_run. by rewrite Hown, Hfind. }
  right.
  destruct (calculateStreak_reference (delete (id, today) (ledger s)) id
              (with_progress habit (currentStreak habit)
                 (longestStreak habit)
                 (Z.max 0 (totalCompletions habit - 1))) today)
    as (habit2 & E & R).
  exists habit, c, habit2. eexists.
  split; [reflexivity|]. split; [reflexivity|]. split; [exact E|].
  unfold delete_complete_run. rewrite Hown, Hfind. cbv zeta. rewrite E.
  unfold updateStatistics.
  rewrite (recomputed_statistics _ _ _ _ _ _ R), statistics_at_with_progress.
  destruct (valid_statistics _); [right | left]; done.
Qed.

(** Once the row is found, it is deleted, whatever the answer. *)
Lemma delete_complete_run_found s req id today habit c :
  checkOwnership s req id = Ok habit ->
  findOne (ledger s) id (req_user req) today = Some c ->
  ledger (delete_complete_run s req id today).1
  = delete (id, today) (ledger s).
Proof.
  intros Hown Hfind. unfold delete_complete_run. rewrite Hown, Hfind.
  cbv zeta. destruct (calculateStreak _ _ _ _) as [[h2 k]|]; [|reflexivity].
  by destruct (updateStatistics _ _ _ _).
Qed.

Lemma delete_complete_inv s req id today s1 habit2 :
  delete_complete s req id today = Ok (s1, habit2) ->
  exists habit c k,
    checkOwnership s req id = Ok habit
    /\ findOne (ledger s) id (req_user req) today = Some c
    /\ calculateStreak (delete (id, today) (ledger s)) id
         (with_progress habit (currentStreak habit) (longestStreak habit)
            (Z.max 0 (totalCompletions habit - 1))) today
       = Some (habit2, k)
    /\ valid_statistics
         (statistics_at (delete (id, today) (ledger s)) id habit
            (clock req today)) = true
    /\ s1 = mkStore (<[id := habit2]> (habits s))
              (delete (id, today) (ledger s)) (users s).
Proof.
  unfold delete_complete.
  destruct (delete_complete_run_inv s req id today)
    as [[e ->]|(habit & c & h2 & k & Hown & Hfind & Hstreak
                & [[Hst ->]|[Hst ->]])]; try discriminate.
  simpl. intros [= <- <-]. by exists habit, c, k.
Qed.

(** The detail route succeeds when the two rates pass their validators. *)
Lemma get_habit_inv s req id today s1 habit2 :
  get_habit s req id today = Ok (s1, habit2) ->
  exists habit k,
    checkOwnership s req id = Ok habit
    /\ calculateStreak (ledger s) id habit today = Some (habit2, k)
    /\ valid_statistics (statistics_at (ledger s) id habit (clock req today))
       = true
    /\ s1 = mkStore (<[id := habit2]> (habits s)) (ledger s) (users s).
Proof.
  unfold get_habit.
  destruct (checkOwnership s req id) as [habit|e] eqn:Hown; [|discriminate].
  simpl.
  destruct (calculateStreak_reference (ledger s) id habit today)
    as (habit1 & E & R).
  rewrite E. unfold updateStatistics.
  rewrite (recomputed_statistics _ _ _ _ _ _ R).
  destruct (valid_statistics _) eqn:Hst; [|discriminate].
  simpl. intros [= <- <-]. by exists habit; eexists.
Qed.

(** ** Repeating a completion (C2) *)

(** C2.  For a request that passes the ownership check: when the ledger
    has no row for (habit, today), [recordCompletion] is rejected with a
    validation error and stores nothing, so that two calls leave no row
    where the claim has one; and whenever the call succeeds, a row was
    there, the same call again succeeds with the same answer and leaves the
    same store, with one ledger row for (habit, today), the habits (so
    [totalCompletions]) and the users (so their points) untouched, no
    points awarded. *)
Theorem complete_twice s req id body today habit :
  checkOwnership s req id = Ok habit ->
  (ledger s !! (id, today) = None ->
   let first := post_complete_run s req id body today in
   first = (s, Err ValidationError)
   /\ post_complete_run first.1 req id body today
      = (s, Err ValidationError)
   /\ rows_at (ledger s) (id, today) = [])
  /\ (forall s1 r1,
        post_complete s req id body today = Ok (s1, r1) ->
        is_Some (ledger s !! (id, today))
        /\ post_complete s1 req id body today = Ok (s1, r1)
        /\ rows_at (ledger s1) (id, today) = [((id, today), r_completion r1)]
        /\ habits s1 = habits s /\ users s1 = users s
        /\ r_created r1 = false /\ r_pointsAwarded r1 = 0).
Proof.
  intros Hown. split.
  - intros Hkey first.
    assert (Hfirst : first = (s, Err ValidationError)).
    { eapply post_complete_new; [exact Hown|]. by apply findOne_absent. }
    rewrite Hfirst. simpl. fold first. rewrite Hfirst.
    split; [done|]. split; [done|]. by apply rows_at_none.
  - intros s1 r1 H.
    apply post_complete_inv
      in H as (habit' & existing & Hown' & Hfind & Hvalid & -> & ->).
    apply findOne_Some in Hfind as [Hrow Huser].
    split; [by rewrite Hrow|].
    set (u := update_existing existing habit' body) in *.
    split.
    + rewrite (post_complete_update _ req id body today habit' u); try done.
      * subst u. rewrite update_existing_again. simpl.
        by rewrite insert_insert_eq.
      * apply findOne_Some. simpl. by rewrite lookup_insert_eq.
      * subst u. by rewrite update_existing_again.
    + simpl. split; [|done]. apply rows_at_one, lookup_insert_eq.
Qed.

Lemma complete_twice_witness :
  (let first := post_complete_run store0 alice "h1" plain wed in
   first = (store0, Err ValidationError)
   /\ post_complete_run first.1 alice "h1" plain wed
      = (store0, Err ValidationError)
   /\ rows_at (ledger store0) ("h1", wed) = [])
  /\ (post_complete store1 alice "h1" plain wed = Ok (store1, response1)
      /\ is_Some (ledger store1 !! ("h1", wed))
      /\ post_complete store1 alice "h1" plain wed = Ok (store1, response1)
      /\ rows_at (ledger store1) ("h1", wed)
         = [(("h1", wed), r_completion response1)]
      /\ habits store1 = habits store1 /\ users store1 = users store1
      /\ r_created response1 = false /\ r_pointsAwarded response1 = 0).
Proof.
  assert (H0 : checkOwnership store0 alice "h1" = Ok daily_habit)
    by (vm_compute; reflexivity).
  assert (H1 : checkOwnership store1 alice "h1" = Ok (r_habit response1))
    by (vm_compute; reflexivity).
  assert (H : post_complete store1 alice "h1" plain wed
              = Ok (store1, response1)) by (vm_compute; reflexivity).
  split.
  - apply (complete_twice store0 alice "h1" plain wed daily_habit H0).
    reflexivity.
  - split; [exact H|].
    apply (complete_twice store1 alice "h1" plain wed (r_habit response1) H1).
    exact H.
Defined.

(** ** Completing again without a count (C10) *)

(** C10.  When a row exists for (habit, today) and the call gives no
    count, the call, if its fields pass the validators, overwrites the stored
    count with min(1, targetCount), which is 1, whatever count the row
    held. *)
Theorem complete_again_without_count s req id body today habit existing :
  checkOwnership s req id = Ok habit ->
  findOne (ledger s) id (req_user req) today = Some existing ->
  b_count body = None ->
  valid_completion (update_existing existing habit body) = true ->
  exists s' r,
    post_complete s req id body today = Ok (s', r)
    /\ ledger s' !! (id, today) = Some (r_completion r)
    /\ count (r_completion r) = Z.min 1 (targetCount habit)
    /\ count (r_completion r) = 1.
Proof.
  intros Hown Hfind Hcount Hvalid.
  do 2 eexists. split; [by apply post_complete_update|].
  simpl. split; [apply lookup_insert_eq|].
  rewrite Hcount. simpl. split; [reflexivity|].
  unfold valid_completion in Hvalid.
  repeat (apply andb_true_iff in Hvalid as [Hvalid _]).
  apply Z.leb_le in Hvalid. simpl in Hvalid. rewrite Hcount in Hvalid.
  simpl in Hvalid. lia.
Qed.

Lemma complete_again_without_count_witness :
  count (row 5 1 1 wed) = 5
  /\ exists s' r,
       post_complete store_glasses alice "h1" plain wed = Ok (s', r)
       /\ ledger s' !! ("h1", wed) = Some (r_completion r)
       /\ count (r_completion r)
          = Z.min 1 (targetCount (mkHabit "u1" daily [] 8 1 1 1 true false None))
       /\ count (r_completion r) = 1.
Proof.
  split; [reflexivity|].
  apply (complete_again_without_count store_glasses alice "h1" plain wed
           (mkHabit "u1" daily [] 8 1 1 1 true false None) (row 5 1 1 wed));
    vm_compute; reflexivity.
Defined.

(** ** Undoing today's completion (C3, C4) *)

(** C3.  For a request that passes the ownership check: when the ledger
    has no row for (habit, today), or the row of another user,
    [undoCompletion] fails with NotFound and changes nothing.  When it has a
    row of the caller, that row and no
    other is deleted; then, if the two rates that [updateStatistics]
    computes from the remaining rows pass their validators, the habit is
    saved with [totalCompletions] lowered by one but not below 0 and with
    the streak computed anew from the remaining rows, whatever the stored
    streak was; if a rate exceeds 100, the request fails with a validation
    error after the row is deleted, and the habit keeps its stored
    [totalCompletions] and streak. *)
Theorem undo_today s req id today habit :
  checkOwnership s req id = Ok habit ->
  match ledger s !! (id, today) with
  | None =>
      delete_complete_run s req id today
      = (s, Err (NotFound "No completion found for today"))
  | Some c =>
      (c_user c <> req_user req ->
       delete_complete_run s req id today
       = (s, Err (NotFound "No completion found for today")))
      /\ (c_user c = req_user req ->
          let ledger' := delete (id, today) (ledger s) in
          if valid_statistics
               (statistics_at ledger' id habit (clock req today))
          then
            exists habit',
              delete_complete_run s req id today
              = (mkStore (<[id := habit']> (habits s)) ledger' (users s),
                 Ok habit')
              /\ totalCompletions habit'
                 = Z.max 0 (totalCompletions habit - 1)
              /\ currentStreak habit'
                 = reference_streak (isDueToday habit)
                     (completion_days ledger' id (user habit)) today
              /\ longestStreak habit <= longestStreak habit'
          else
            delete_complete_run s req id today
            = (mkStore (habits s) ledger' (users s), Err ValidationError))
  end.
Proof.
  intros Hown.
  destruct (ledger s !! (id, today)) as [c|] eqn:Hrow.
  - split.
    { intros Huser. unfold delete_complete_run, findOne.
      by rewrite Hown, Hrow, bool_decide_eq_false_2. }
    intros Huser ledger'.
    assert (Hfind : findOne (ledger s) id (req_user req) today = Some c)
      by (by apply findOne_Some).
    destruct (delete_complete_run_inv s req id today)
      as [[e He]|(habit0 & c0 & h2 & k & Hown0 & _ & Hstreak & Hrun)].
    { pose proof (delete_complete_run_found _ _ _ _ _ _ Hown Hfind) as Hl.
      rewrite He in Hl. simpl in Hl.
      apply (f_equal (fun l => l !! (id, today))) in Hl.
      by rewrite lookup_delete_eq, Hrow in Hl. }
    rewrite Hown in Hown0. injection Hown0 as <-.
    destruct Hrun as [[Hst ->]|[Hst ->]]; subst ledger'; rewrite Hst;
      [reflexivity|].
    exists h2. split; [reflexivity|].
    apply calculateStreak_inv in Hstreak as [Hk R].
    pose proof (recomputed_longest _ _ _ R) as Hl.
    destruct R as (longest & -> & _). simpl in *. done.
  - unfold delete_complete_run.
    by rewrite Hown, (findOne_absent _ _ _ _ Hrow).
Qed.

Lemma undo_today_witness :
  delete_complete_run store0 alice "h1" wed
  = (store0, Err (NotFound "No completion found for today"))
  /\ (exists habit',
        delete_complete_run store1 alice "h1" wed
        = (mkStore (<["h1" := habit']> (habits store1))
             (delete ("h1", wed) (ledger store1)) (users store1), Ok habit')
        /\ totalCompletions habit'
           = Z.max 0 (totalCompletions (r_habit response1) - 1)
        /\ currentStreak habit'
           = reference_streak (isDueToday (r_habit response1))
               (completion_days (delete ("h1", wed) (ledger store1)) "h1"
                  (user (r_habit response1))) wed
        /\ longestStreak (r_habit response1) <= longestStreak habit')
  /\ delete_complete_run store_weekly alice "h1" wed
     = (mkStore (habits store_weekly)
          (delete ("h1", wed) (ledger store_weekly)) (users store_weekly),
        Err ValidationError).
Proof.
  assert (H0 : checkOwnership store0 alice "h1" = Ok daily_habit)
    by (vm_compute; reflexivity).
  assert (H1 : checkOwnership store1 alice "h1" = Ok (r_habit response1))
    by (vm_compute; reflexivity).
  assert (H2 : checkOwnership store_weekly alice "h1" = Ok weekly_habit)
    by (vm_compute; reflexivity).
  pose proof (undo_today store0 alice "h1" wed daily_habit H0) as U0.
  pose proof (undo_today store1 alice "h1" wed (r_habit response1) H1) as U1.
  pose proof (undo_today store_weekly alice "h1" wed weekly_habit H2) as U2.
  assert (R0 : ledger store0 !! ("h1", wed) = None)
    by (vm_compute; reflexivity).
  assert (R1 : ledger store1 !! ("h1", wed) = Some (row 1 1 1 wed))
    by (vm_compute; reflexivity).
  assert (R2 : ledger store_weekly !! ("h1", wed) = Some (row 1 1 3 wed))
    by (vm_compute; reflexivity).
  rewrite R0 in U0. rewrite R1 in U1. rewrite R2 in U2.
  destruct U1 as [_ U1]. destruct U2 as [_ U2].
  specialize (U1 eq_refl). specialize (U2 eq_refl). cbv zeta in U1, U2.
  assert (S1 : valid_statistics
                 (statistics_at (delete ("h1", wed) (ledger store1)) "h1"
                    (r_habit response1) (clock alice wed)) = true)
    by (vm_compute; reflexivity).
  assert (S2 : valid_statistics
                 (statistics_at (delete ("h1", wed) (ledger store_weekly))
                    "h1" weekly_habit (clock alice wed)) = false)
    by (vm_compute; reflexivity).
  rewrite S1 in U1. rewrite S2 in U2.
  split; [exact U0|]. split; [exact U1 | exact U2].
Defined.

(** C4.  Once the row of (habit, today) is there and [undoCompletion] has
    deleted it, whether the undo then answered with the habit or with the
    validation error of the statistics, [recordCompletion] again the same
    day, with whatever arguments, is rejected with a validation error and
    stores nothing: the store stays the one the undo left, without a row for
    (habit, today), so that neither the count nor the streak of before the
    undo comes back. *)
Theorem undo_then_redo s req id body today habit c :
  checkOwnership s req id = Ok habit ->
  ledger s !! (id, today) = Some c ->
  c_user c = req_user req ->
  let s1 := (delete_complete_run s req id today).1 in
  ledger s1 = delete (id, today) (ledger s)
  /\ ledger s1 !! (id, today) = None
  /\ post_complete_run s1 req id body today = (s1, Err ValidationError).
Proof.
  intros Hown Hrow Huser s1.
  assert (Hfind : findOne (ledger s) id (req_user req) today = Some c)
    by (by apply findOne_Some).
  assert (Hs1 : ledger s1 = delete (id, today) (ledger s)
                /\ exists habit1,
                     checkOwnership s1 req id = Ok habit1).
  { subst s1.
    destruct (delete_complete_run_inv s req id today)
      as [[e He]|(habit0 & c0 & h2 & k & Hown0 & _ & Hstreak & Hrun)].
    - pose proof (delete_complete_run_found _ _ _ _ _ _ Hown Hfind) as Hl.
      rewrite He in Hl. simpl in Hl.
      apply (f_equal (fun l => l !! (id, today))) in Hl.
      by rewrite lookup_delete_eq, Hrow in Hl.
    - rewrite Hown in Hown0. injection Hown0 as <-.
      apply calculateStreak_inv in Hstreak as [_ R].
      destruct Hrun as [[_ ->]|[_ ->]]; simpl; (split; [reflexivity|]).
      + exists habit. apply checkOwnership_Ok in Hown.
        by apply checkOwnership_Ok.
      + exists h2. eapply checkOwnership_saved; [exact Hown|].
        by rewrite (recomputed_user _ _ _ R). }
  destruct Hs1 as [Hl (habit1 & Hown1)].
  assert (Hnone : ledger s1 !! (id, today) = None)
    by (rewrite Hl; apply lookup_delete_eq).
  split; [exact Hl|]. split; [exact Hnone|].
  eapply post_complete_new; [exact Hown1|]. by apply findOne_absent.
Qed.

Lemma undo_then_redo_witness :
  count <$> ledger store1 !! ("h1", wed) = Some 1
  /\ currentStreak <$> habits store1 !! "h1" = Some 1
  /\ currentStreak
       <$> habits (delete_complete_run store1 alice "h1" wed).1 !! "h1"
     = Some 0
  /\ (let s1 := (delete_complete_run store1 alice "h1" wed).1 in
      ledger s1 = delete ("h1", wed) (ledger store1)
      /\ ledger s1 !! ("h1", wed) = None
      /\ post_complete_run s1 alice "h1" plain wed
         = (s1, Err ValidationError)).
Proof.
  split; [vm_compute; reflexivity|].
  split; [vm_compute; reflexivity|].
  split; [vm_compute; reflexivity|].
  apply (undo_then_redo store1 alice "h1" plain wed (r_habit response1)
           (row 1 1 1 wed)); vm_compute; reflexivity.
Defined.

(** ** The longest streak (C9) *)

Lemma fmap_Ok_inv {A B} (f : A -> B) (r : Result A) b :
  f <$> r = Ok b -> exists a, r = Ok a /\ b = f a.
Proof.
  destruct r as [a|e]; [|discriminate]. intros [= <-]. by exists a.
Qed.








(** ** Points and badges (C5) *)




Lemma addBadge_points u b : points (addBadge u b) = points u.
Proof. unfold addBadge. destruct (List.find _ _); reflexivity. Qed.

Lemma addBadge_names u b n :
  n ∈ name <$> badges (addBadge u b) <-> n ∈ name <$> badges u \/ n = name b.
Proof.
  unfold addBadge.
  destruct (List.find _ (badges u)) as [b'|] eqn:E; simpl.
  - apply find_some in E as [Hin Hname].
    apply bool_decide_eq_true in Hname. apply list_elem_of_In in Hin.
    split; [by left|]. intros [?| ->]; [done|].
    rewrite <- Hname. by apply list_elem_of_fmap_2.
  - rewrite fmap_app, elem_of_app. simpl. rewrite list_elem_of_singleton. done.
Qed.

Lemma addBadge_NoDup u b :
  NoDup (name <$> badges u) -> NoDup (name <$> badges (addBadge u b)).
Proof.
  intros Hnd. unfold addBadge.
  destruct (List.find _ (badges u)) as [b'|] eqn:E; simpl; [done|].
  rewrite fmap_app. apply NoDup_app. split; [done|]. split.
  - intros n Hn Hb. simpl in Hb. apply list_elem_of_singleton in Hb as ->.
    apply list_elem_of_fmap in Hn as (b' & Hname & Hin).
    apply list_elem_of_In in Hin.
    pose proof (find_none _ _ E b' Hin) as Hf. simpl in Hf.
    apply bool_decide_eq_false in Hf. congruence.
  - apply NoDup_singleton.
Qed.






(** ** Calendar aggregation (C6) *)

(** A day on which no active habit is due has rate 0. *)
Lemma calendar_day_nothing_due hs completions date :
  Forall (fun kv : string * Habit => isDueToday kv.2 date = false) hs ->
  totalHabits (calendar_day hs completions date) = 0
  /\ completionRate (calendar_day hs completions date) = 0.
Proof.
  intros H. unfold calendar_day. simpl.
  rewrite filter_none; [done|].
  eapply Forall_impl; [exact H|]. simpl. intros kv ->. discriminate.
Qed.

(** The total is the number of active habits due that day, but the
    completed count is the number of the user's rows of that day, those of
    habits not due that day and of archived habits included. *)
Lemma calendar_day_counts hs completions date :
  totalHabits (calendar_day hs completions date)
  = Z.of_nat (length (filter (fun kv => isDueToday kv.2 date = true) hs))
  /\ completedHabits (calendar_day hs completions date)
     = Z.of_nat (length (filter (fun kv => kv.1.2 = date) completions)).
Proof. split; reflexivity. Qed.

(** C6, at the input where the code departs from it: on a Tuesday the
    only due habit "a" has no completion, while the Monday habit "b" and the
    archived habit "c" have one each.  Section 4.4 asks for 0 completed
    of 1 and a rate of 0; the route reports 2 completed of 1 and a rate of 200,
    next to the flag of "a" saying it is not completed. *)
Theorem calendar_counts_rows_of_habits_not_due :
  get_calendar_range store_calendar alice (Some tue) (Some tue)
  = Ok [(tue, mkDay 1 2 200 [("a", false)])].
Proof. vm_compute. reflexivity. Qed.

(** ** Offline replay (C7) *)






(** The order of the replay is that of the keys, not of the time stamps:
    an entry saved again keeps its place with a later time stamp. *)
Lemma replay_order_is_key_order :
  (fun e : string * Z * OfflineCompletion => (o_habitId e.2, o_timestamp e.2))
    <$> buffer_saved_again
  = [("a", 1704700002000); ("b", 1704700001000)].
Proof. reflexivity. Qed.

(** On a day for which the habit has no row yet, the requests of the
    replay are rejected as any first completion of a day is: the entries
    stay buffered and no row is written. *)
Lemma replay_without_row_of_the_day :
  syncOfflineData (fun _ => delivered) alice wed buffer_two_days store0
  = (store0, buffer_two_days).
Proof. vm_compute. reflexivity. Qed.

(** * More properties *)

(** ** Bounds on the streak *)

Lemma walk_back_nonneg n : forall due has d, 0 <= walk_back n due has d.
Proof.
  induction n as [|n IH]; intros due has d; simpl; [lia|].
  specialize (IH due has (d - 1)).
  destruct (has d), (due d); lia.
Qed.

Lemma walk_back_le_up_to n : forall due (dates : list Z) d,
  walk_back n due (fun x => bool_decide (x ∈ dates)) d
  <= Z.of_nat (up_to dates d).
Proof.
  induction n as [|n IH]; intros due dates d; simpl; [lia|].
  specialize (IH due dates (d - 1)).
  pose proof (up_to_le dates d).
  case_bool_decide as Hin.
  - pose proof (up_to_member dates d Hin). destruct (due d); lia.
  - destruct (due d); lia.
Qed.

Lemma reference_streak_bounds due (dates : list Z) today :
  0 <= reference_streak due dates today <= Z.of_nat (length dates).
Proof.
  unfold reference_streak.
  destruct (latest dates) as [anchor|]; [|lia].
  destruct (earliest dates) as [oldest|]; [|lia].
  case_bool_decide; [|lia]. split; [apply walk_back_nonneg|].
  etransitivity; [apply walk_back_le_up_to|].
  unfold up_to. pose proof (length_filter (fun x => x <= anchor) dates). lia.
Qed.

(** The days of the completions of a habit by a user are the days on which
    [findOne] finds a row. *)
Lemma completion_days_findOne l hid uid d :
  d ∈ completion_days l hid uid <-> is_Some (findOne l hid uid d).
Proof.
  unfold completion_days, rows_of. rewrite list_elem_of_fmap. split.
  - intros ([[h d'] c] & -> & Hin). simpl.
    apply list_elem_of_filter in Hin as [[Hh Hu] Hin]. simpl in Hh, Hu.
    apply elem_of_map_to_list in Hin. subst h.
    exists c. apply findOne_Some. done.
  - intros [c Hc]. apply findOne_Some in Hc as [Hrow Hu].
    exists ((hid, d), c). split; [reflexivity|].
    apply list_elem_of_filter. split; [done|]. by apply elem_of_map_to_list.
Qed.

Lemma reference_streak_no_anchor due (dates : list Z) today :
  today ∉ dates -> today - 1 ∉ dates -> reference_streak due dates today = 0.
Proof.
  intros Ht Hy. unfold reference_streak.
  pose proof (latest_max dates) as Hmax.
  destruct (latest dates) as [anchor|]; [|reflexivity].
  destruct (earliest dates) as [oldest|]; [|reflexivity].
  destruct Hmax as [Hin _].
  rewrite bool_decide_eq_false_2; [reflexivity|].
  intros [->| ->]; contradiction.
Qed.

(** X1.  The streak computed by [calculateStreak] lies between 0 and the
    number of completion rows of the habit, and it is 0 when the habit has a
    row neither for today nor for yesterday. *)
Theorem streak_bounds l hid h today :
  exists h' k,
    calculateStreak l hid h today = Some (h', k)
    /\ 0 <= k <= Z.of_nat (length (rows_of l hid (user h)))
    /\ k <= Z.of_nat (rows_count l hid)
    /\ (findOne l hid (user h) today = None ->
        findOne l hid (user h) (today - 1) = None -> k = 0).
Proof.
  destruct (calculateStreak_reference l hid h today) as (h' & E & _).
  eexists h', _. split; [exact E|].
  pose proof (reference_streak_bounds (isDueToday h)
                (completion_days l hid (user h)) today) as Hb.
  assert (Hlen : length (completion_days l hid (user h))
                 = length (rows_of l hid (user h)))
    by (unfold completion_days; apply length_fmap).
  rewrite Hlen in Hb.
  split; [exact Hb|]. split.
  - assert (length (rows_of l hid (user h)) <= rows_count l hid)%nat; [|lia].
    unfold rows_of, rows_count.
    induction (map_to_list l) as [|kv rest IH]; [reflexivity|].
    rewrite !filter_cons.
    destruct (decide (kv.1.1 = hid /\ c_user kv.2 = user h)) as [[? ?]|];
      destruct (decide (kv.1.1 = hid)); simpl; try lia. contradiction.
  - intros Ht Hy. apply reference_streak_no_anchor.
    + rewrite completion_days_findOne, Ht. by intros [? ?].
    + rewrite completion_days_findOne, Hy. by intros [? ?].
Qed.

Lemma calculateStreak_nonneg l hid h today h1 k :
  calculateStreak l hid h today = Some (h1, k) -> 0 <= k.
Proof.
  intros H. apply calculateStreak_inv in H as [-> _].
  apply reference_streak_bounds.
Qed.

Lemma calculateStreak_within l hid h today h1 k :
  calculateStreak l hid h today = Some (h1, k) ->
  0 <= longestStreak h ->
  0 <= currentStreak h1 <= longestStreak h1
  /\ longestStreak h <= longestStreak h1.
Proof.
  intros H Hlong. pose proof (calculateStreak_nonneg _ _ _ _ _ _ H) as Hk.
  unfold calculateStreak in H.
  destruct (find_completions l hid (user h)) as [|c rest].
  - injection H as <- <-. simpl. lia.
  - cbv zeta in H.
    destruct (if c =? today then Some today
              else if c =? today - 1 then Some (today - 1) else None).
    + destruct (streak_loop _ _ _ _ _ _) as [streak|]; [|discriminate].
      injection H as <- <-. simpl.
      destruct (Z.ltb_spec (longestStreak h) streak); lia.
    + injection H as <- <-. simpl. lia.
Qed.

(** X2.  When the stored longest streak of a habit is not negative, the
    habit saved by an undo or by the detail route that succeeds has a
    current streak between 0 and its longest streak. *)
Theorem streak_within_longest s req id today h :
  habits s !! id = Some h ->
  0 <= longestStreak h ->
  (forall s' h', delete_complete s req id today = Ok (s', h') ->
     habits s' !! id = Some h'
     /\ 0 <= currentStreak h' <= longestStreak h')
  /\ (forall s' h', get_habit s req id today = Ok (s', h') ->
        habits s' !! id = Some h'
        /\ 0 <= currentStreak h' <= longestStreak h').
Proof.
  intros Hid Hlong. split.
  - intros s' h' H.
    apply delete_complete_inv
      in H as (habit & c & k & Hown & _ & Hstreak & _ & ->).
    apply checkOwnership_Ok in Hown as [Hid' _].
    assert (habit = h) by congruence. subst habit.
    simpl. rewrite lookup_insert_eq. split; [done|].
    by apply (calculateStreak_within _ _ _ _ _ _ Hstreak).
  - intros s' h' H.
    apply get_habit_inv in H as (habit & k & Hown & Hstreak & _ & ->).
    apply checkOwnership_Ok in Hown as [Hid' _].
    assert (habit = h) by congruence. subst habit.
    simpl. rewrite lookup_insert_eq. split; [done|].
    by apply (calculateStreak_within _ _ _ _ _ _ Hstreak).
Qed.

Lemma streak_within_longest_witness :
  (exists s' h',
      delete_complete store_three_days alice "h1" wed = Ok (s', h')
      /\ habits s' !! "h1" = Some h'
      /\ 0 <= currentStreak h' <= longestStreak h')
  /\ (exists s' h',
        get_habit store_three_days alice "h1" wed = Ok (s', h')
        /\ habits s' !! "h1" = Some h'
        /\ 0 <= currentStreak h' <= longestStreak h').
Proof.
  destruct (streak_within_longest store_three_days alice "h1" wed
              (mkHabit "u1" daily [] 1 3 3 4 true false None))
    as [Hundo Hget]; [vm_compute; reflexivity | simpl; lia |].
  split.
  - eexists _, _. split; [vm_compute; reflexivity|].
    apply Hundo. vm_compute. reflexivity.
  - eexists _, _. split; [vm_compute; reflexivity|].
    apply Hget. vm_compute. reflexivity.
Defined.

(** ** Ownership and framing *)

Lemma habit_routes_fail_of s req id e :
  checkOwnership s req id = Err e -> habit_routes_fail s req id e.
Proof.
  intros Hown. repeat split; intros.
  - unfold put_habit. by rewrite Hown.
  - unfold delete_habit. by rewrite Hown.
  - unfold post_complete, post_complete_run. by rewrite Hown.
  - unfold delete_complete, delete_complete_run. by rewrite Hown.
  - unfold get_habit. by rewrite Hown.
Qed.

(** X3.  Each of the five routes on a habit (update, archive, completion,
    undo, detail) answers 404 when no habit has the identifier, and denies
    access to a user who is neither the owner of the habit nor an
    administrator, whatever the body and the day, before anything is
    written. *)
Theorem habit_routes_guarded s req id :
  (habits s !! id = None ->
   habit_routes_fail s req id (NotFound "Resource not found"))
  /\ (forall h, habits s !! id = Some h -> req_admin req = false ->
        user h <> req_user req -> habit_routes_fail s req id AccessDenied).
Proof.
  split.
  - intros Hid. apply habit_routes_fail_of.
    unfold checkOwnership. by rewrite Hid.
  - intros h Hid Hadmin Hu. apply habit_routes_fail_of.
    unfold checkOwnership. rewrite Hid, Hadmin.
    by rewrite bool_decide_eq_false_2.
Qed.

Lemma habit_routes_guarded_witness :
  habit_routes_fail store0 bob "h2" (NotFound "Resource not found")
  /\ habit_routes_fail store0 bob "h1" AccessDenied.
Proof.
  destruct (habit_routes_guarded store0 bob "h2") as [Hmissing _].
  destruct (habit_routes_guarded store0 bob "h1") as [_ Hdenied].
  split.
  - apply Hmissing. reflexivity.
  - apply (Hdenied daily_habit); [reflexivity | reflexivity | discriminate].
Defined.

Lemma recomputed_same_schedule h k h' : recomputed h k h' -> same_schedule h h'.
Proof. intros (longest & -> & _). by repeat split. Qed.

(** X4.  A completion answered with success is the update of the row of
    (habit, today): the row of the caller was there, it keeps its author,
    its target, its recorded streak and its time, and the request writes
    that row and nothing else, no other row, no habit and no user.  A
    completion answered with an error has written nothing. *)
Theorem post_complete_frame s req id body today :
  (forall s1 r1,
     post_complete s req id body today = Ok (s1, r1) ->
     habits s1 = habits s /\ users s1 = users s
     /\ (forall key, key <> (id, today) -> ledger s1 !! key = ledger s !! key)
     /\ (exists existing,
           ledger s !! (id, today) = Some existing
           /\ c_user existing = req_user req
           /\ ledger s1 !! (id, today) = Some (r_completion r1)
           /\ c_user (r_completion r1) = c_user existing
           /\ c_targetCount (r_completion r1) = c_targetCount existing
           /\ streakAtCompletion (r_completion r1)
              = streakAtCompletion existing
           /\ completedAt (r_completion r1) = completedAt existing)
     /\ r_created r1 = false /\ r_pointsAwarded r1 = 0)
  /\ (forall s1 e,
        post_complete_run s req id body today = (s1, Err e) -> s1 = s).
Proof.
  split; [|intros s1 e; apply post_complete_run_failed].
  intros s1 r1 H.
  apply post_complete_inv
    in H as (habit & existing & Hown & Hfind & _ & -> & ->).
  apply findOne_Some in Hfind as [Hrow Huser]. simpl.
  split; [done|]. split; [done|].
  split; [intros; by rewrite lookup_insert_ne|]. split; [|done].
  exists existing. rewrite lookup_insert_eq. done.
Qed.

Lemma post_complete_frame_witness :
  exists s1 r1,
    post_complete store_glasses alice "h1" (mkBody (Some 3) None None None None)
      wed = Ok (s1, r1)
    /\ count (r_completion r1) = 3
    /\ habits s1 = habits store_glasses /\ users s1 = users store_glasses
    /\ (forall key, key <> ("h1", wed) ->
          ledger s1 !! key = ledger store_glasses !! key)
    /\ (exists existing,
          ledger store_glasses !! ("h1", wed) = Some existing
          /\ c_user existing = req_user alice
          /\ ledger s1 !! ("h1", wed) = Some (r_completion r1)
          /\ c_user (r_completion r1) = c_user existing
          /\ c_targetCount (r_completion r1) = c_targetCount existing
          /\ streakAtCompletion (r_completion r1)
             = streakAtCompletion existing
          /\ completedAt (r_completion r1) = completedAt existing)
    /\ r_created r1 = false /\ r_pointsAwarded r1 = 0.
Proof.
  eexists _, _. split; [vm_compute; reflexivity|].
  split; [reflexivity|].
  apply (post_complete_frame store_glasses alice "h1"
           (mkBody (Some 3) None None None None) wed).
  vm_compute. reflexivity.
Defined.

(** X5.  A successful undo removes the row of (habit, today) and nothing
    else from the ledger, leaves every user as it is (the points of the
    completion are not taken back) and every other habit, keeps the owner,
    schedule, target and status flags of the habit; a second undo on the same
    day then fails with the 404 of a missing completion. *)
Theorem delete_complete_frame s req id today s1 h1 :
  delete_complete s req id today = Ok (s1, h1) ->
  ledger s1 = delete (id, today) (ledger s)
  /\ users s1 = users s
  /\ (forall id', id' <> id -> habits s1 !! id' = habits s !! id')
  /\ (exists h, habits s !! id = Some h /\ habits s1 !! id = Some h1
                /\ same_schedule h h1)
  /\ delete_complete s1 req id today
     = Err (NotFound "No completion found for today").
Proof.
  intros H.
  apply delete_complete_inv
    in H as (habit & c & k & Hown & _ & Hstreak & _ & ->).
  simpl.
  apply calculateStreak_inv in Hstreak as [_ Hrec].
  pose proof (recomputed_same_schedule _ _ _ Hrec) as Hsame.
  split; [done|]. split; [done|].
  split; [intros; by rewrite lookup_insert_ne|]. split.
  - apply checkOwnership_Ok in Hown as [Hid _].
    exists habit. rewrite lookup_insert_eq. done.
  - unfold delete_complete, delete_complete_run.
    rewrite (checkOwnership_saved s req id habit h1 _ _ Hown).
    + simpl. rewrite findOne_absent; [done|]. apply lookup_delete_eq.
    + by destruct Hsame as [? _].
Qed.

Lemma delete_complete_frame_witness :
  exists s1 h1,
    delete_complete store1 alice "h1" wed = Ok (s1, h1)
    /\ ledger s1 = delete ("h1", wed) (ledger store1)
    /\ users s1 = users store1
    /\ (forall id', id' <> "h1" -> habits s1 !! id' = habits store1 !! id')
    /\ (exists h, habits store1 !! "h1" = Some h
                  /\ habits s1 !! "h1" = Some h1 /\ same_schedule h h1)
    /\ delete_complete s1 alice "h1" wed
       = Err (NotFound "No completion found for today").
Proof.
  eexists _, _. split; [vm_compute; reflexivity|].
  apply (delete_complete_frame store1 alice "h1" wed).
  vm_compute. reflexivity.
Defined.

(** ** Invariants of the store along a history *)

(** The successful steps, case by case. *)
Ltac step_cases H :=
  match type of H with
  | step _ _ ?op = Ok _ =>
      destruct op as [req newId body|req id body|req id|req id body|req id
                     |req id];
      simpl in H; apply fmap_Ok_inv in H as ([s1 x] & H & ->); simpl;
      [ unfold post_habit in H;
        destruct (negb (valid_habit _)) eqn:Hvalid; [discriminate|];
        apply negb_false_iff in Hvalid;
        destruct (habits _ !! newId) eqn:Hnew; [discriminate|];
        injection H as <- _
      | unfold put_habit in H;
        destruct (checkOwnership _ req id) as [habit|] eqn:Hown;
          [|discriminate];
        simpl in H; apply checkOwnership_Ok in Hown as [Hid Hown];
        destruct (valid_schedule _) eqn:Hvalid; [|discriminate];
        injection H as <- _
      | unfold delete_habit in H;
        destruct (checkOwnership _ req id) as [habit|] eqn:Hown;
          [|discriminate];
        simpl in H; apply checkOwnership_Ok in Hown as [Hid Hown];
        injection H as <- _
      | apply post_complete_inv
          in H as (habit & existing & Hown & Hfound & Hvalid & -> & _);
        apply checkOwnership_Ok in Hown as [Hid Hown]
      | apply delete_complete_inv
          in H as (habit & existing & k & Hown & Hfound & Hstreak & _ & ->);
        apply checkOwnership_Ok in Hown as [Hid Hown]
      | apply get_habit_inv in H as (habit & k & Hown & Hstreak & _ & ->);
        apply checkOwnership_Ok in Hown as [Hid Hown] ]
  end.

(** The store that a request leaves: the one of its success, the store as
    it was, or, for an undo that fails after its delete, the store without
    the row. *)
Lemma step_store_cases s today op :
  step s today op = Ok (step_store s today op)
  \/ step_store s today op = s
  \/ exists key,
       step_store s today op
       = mkStore (habits s) (delete key (ledger s)) (users s).
Proof.
  destruct op as [req newId body|req id body|req id|req id body|req id|req id].
  1, 2, 3, 6:
    unfold step_store;
    match goal with
    | |- context [step ?s0 ?day ?op] =>
        destruct (step s0 day op) as [s'|e]; [by left | right; by left]
    end.
  - simpl. unfold post_complete.
    destruct (post_complete_run_inv s req id body today)
      as [[e ->]|(habit & existing & _ & _ & _ & ->)];
      [right; by left | by left].
  - simpl. unfold delete_complete.
    destruct (delete_complete_run_inv s req id today)
      as [[e ->]|(habit & c & h2 & k & _ & _ & _ & [[_ ->]|[_ ->]])].
    + right. by left.
    + right. right. by eexists.
    + by left.
Qed.

(** A property kept by the successful requests and by the delete of a
    row is kept along a history. *)
Lemma run_invariant (P : Store -> Prop) :
  (forall s today op s', P s -> step s today op = Ok s' -> P s') ->
  (forall s key,
     P s -> P (mkStore (habits s) (delete key (ledger s)) (users s))) ->
  forall history s, P s -> P (run s history).
Proof.
  intros Hstep Hdelete history.
  induction history as [|[today op] rest IH]; intros s Hs; simpl; [done|].
  apply IH.
  destruct (step_store_cases s today op) as [Hop|[->|[key ->]]].
  - by apply (Hstep s today op).
  - exact Hs.
  - by apply Hdelete.
Qed.

Lemma run_preorder (R : Store -> Store -> Prop) :
  (forall s, R s s) ->
  (forall s1 s2 s3, R s1 s2 -> R s2 s3 -> R s1 s3) ->
  (forall s today op s', step s today op = Ok s' -> R s s') ->
  (forall s key,
     R s (mkStore (habits s) (delete key (ledger s)) (users s))) ->
  forall history s, R s (run s history).
Proof.
  intros Hrefl Htrans Hstep Hdelete history.
  induction history as [|[today op] rest IH]; intros s; simpl; [done|].
  apply (Htrans _ (step_store s today op)); [|apply IH].
  destruct (step_store_cases s today op) as [Hop|[->|[key ->]]].
  - by apply (Hstep s today op).
  - apply Hrefl.
  - apply Hdelete.
Qed.

(** *** Rows and their count *)

Lemma rows_count_insert_fresh l key c id :
  l !! key = None ->
  rows_count (<[key := c]> l) id
  = ((if bool_decide (key.1 = id) then 1 else 0) + rows_count l id)%nat.
Proof.
  intros Hkey. unfold rows_count.
  rewrite (map_to_list_insert l key c Hkey), filter_cons. simpl.
  case_bool_decide as Hid; destruct (decide (key.1 = id)); done.
Qed.

Lemma rows_count_delete l key c id :
  l !! key = Some c ->
  rows_count l id
  = ((if bool_decide (key.1 = id) then 1 else 0)
     + rows_count (delete key l) id)%nat.
Proof.
  intros Hkey.
  rewrite <- (rows_count_insert_fresh (delete key l) key c id)
    by apply lookup_delete_eq.
  by rewrite insert_delete_id.
Qed.

Lemma rows_count_insert_found l key c c' id :
  l !! key = Some c -> rows_count (<[key := c']> l) id = rows_count l id.
Proof.
  intros Hkey. rewrite (rows_count_delete l key c id Hkey).
  rewrite <- (insert_delete_eq l).
  apply rows_count_insert_fresh, lookup_delete_eq.
Qed.

Lemma rows_count_none l id :
  (forall key c, l !! key = Some c -> key.1 <> id) -> rows_count l id = 0%nat.
Proof.
  intros Hl. unfold rows_count. rewrite filter_none; [done|].
  apply Forall_forall. intros [key c] Hin. simpl.
  apply elem_of_map_to_list in Hin. by apply (Hl key c).
Qed.

Lemma recomputed_total h k h' :
  recomputed h k h' -> totalCompletions h' = totalCompletions h.
Proof. by intros (longest & -> & _). Qed.

(** Saving a habit with the same counter keeps the store counted. *)
Lemma counted_save s id h h' :
  counted s -> habits s !! id = Some h ->
  totalCompletions h' = totalCompletions h ->
  counted (mkStore (<[id := h']> (habits s)) (ledger s) (users s)).
Proof.
  intros [Hrows Htotal] Hid Heq. split; simpl.
  - intros key c Hkey. apply lookup_insert_is_Some'. right. by apply (Hrows key c).
  - intros id' h0 H. destruct (decide (id' = id)) as [->|Hne].
    + rewrite lookup_insert_eq in H. injection H as <-. rewrite Heq. by apply Htotal.
    + rewrite lookup_insert_ne in H by done. by apply Htotal.
Qed.

Lemma step_counted s today op s' :
  counted s -> step s today op = Ok s' -> counted s'.
Proof.
  intros Hs H. pose proof Hs as [Hrows Htotal]. step_cases H.
  - (* create *)
    split; simpl.
    + intros key c Hkey. apply lookup_insert_is_Some'. right.
      by apply (Hrows key c).
    + intros id h H. destruct (decide (id = newId)) as [->|Hne].
      * rewrite lookup_insert_eq in H. injection H as <-. simpl.
        rewrite rows_count_none.
        -- unfold valid_habit in Hvalid. simpl in Hvalid.
           apply andb_true_iff in Hvalid as [_ Hvalid]. lia.
        -- intros key c Hkey <-. apply Hrows in Hkey as [h Hh]. congruence.
      * rewrite lookup_insert_ne in H by done. by apply Htotal.
  - by apply (counted_save s id habit).
  - by apply (counted_save s id habit).
  - (* complete, update of the row *)
    apply findOne_Some in Hfound as [Hfound _]. split; simpl.
    + intros key c Hkey. destruct (decide (key = (id, today))) as [->|Hne].
      * by exists habit.
      * rewrite lookup_insert_ne in Hkey by done. by apply (Hrows key c).
    + intros id' h H. rewrite (rows_count_insert_found _ _ existing) by done.
      by apply Htotal.
  - (* undo *)
    apply calculateStreak_inv in Hstreak as [_ Hrec].
    apply recomputed_total in Hrec. simpl in Hrec.
    apply findOne_Some in Hfound as [Hfound _]. split; simpl.
    + intros key c Hkey. apply lookup_insert_is_Some'. right.
      apply lookup_delete_Some in Hkey as [_ Hkey]. by apply (Hrows key c).
    + intros id' h H.
      pose proof (rows_count_delete _ _ _ id' Hfound) as Hcount.
      simpl in Hcount. destruct (decide (id' = id)) as [->|Hne].
      * rewrite lookup_insert_eq in H. injection H as <-. rewrite Hrec.
        rewrite bool_decide_eq_true_2 in Hcount by done.
        specialize (Htotal id habit Hid). lia.
      * rewrite lookup_insert_ne in H by done.
        rewrite bool_decide_eq_false_2 in Hcount by done.
        specialize (Htotal id' h H). lia.
  - (* recompute *)
    apply calculateStreak_inv in Hstreak as [_ Hrec].
    apply recomputed_total in Hrec. by apply (counted_save s id habit).
Qed.

(** A delete of a row keeps the store counted. *)
Lemma counted_delete s key :
  counted s ->
  counted (mkStore (habits s) (delete key (ledger s)) (users s)).
Proof.
  intros [Hrows Htotal]. split; simpl.
  - intros key' c Hkey. apply lookup_delete_Some in Hkey as [_ Hkey].
    by apply (Hrows key' c).
  - intros id h H. specialize (Htotal id h H).
    destruct (ledger s !! key) as [c|] eqn:Hkey.
    + pose proof (rows_count_delete _ _ _ id Hkey). lia.
    + by rewrite delete_id.
Qed.

Lemma counted_three_days : counted store_three_days.
Proof. split; apply (bool_decide_unpack _); vm_compute; exact I. Qed.

(** X6.  Along any history of requests the rows of the ledger stay attached
    to stored habits, and the counter [totalCompletions] of a habit never
    falls below the number of its rows: an undo takes a row away and, when
    it succeeds, one from the counter, a creation starts at no row, and the
    other routes touch neither. *)
Theorem run_counted s history : counted s -> counted (run s history).
Proof.
  apply run_invariant.
  - intros ? ? ? ?. apply step_counted.
  - apply counted_delete.
Qed.

Lemma run_counted_witness : counted (run store_three_days history_week).
Proof. apply run_counted. exact counted_three_days. Defined.

(** *** Validators *)

Lemma valid_habit_iff h :
  valid_habit h = true <->
  valid_schedule h = true /\ 0 <= currentStreak h /\ 0 <= longestStreak h
  /\ 0 <= totalCompletions h.
Proof.
  unfold valid_habit. rewrite !andb_true_iff, !Z.leb_le. tauto.
Qed.

Lemma recomputed_valid h k h' :
  recomputed h k h' -> 0 <= k -> valid_habit h = true -> valid_habit h' = true.
Proof.
  intros (longest & -> & Hlong) Hk. rewrite !valid_habit_iff. simpl.
  intros (Hs & _ & Hl & Ht). split; [exact Hs|]. lia.
Qed.

Lemma habits_valid_save s id h' l us :
  habits_valid s -> valid_habit h' = true ->
  habits_valid (mkStore (<[id := h']> (habits s)) l us).
Proof.
  intros Hs Hh id' h H. simpl in H.
  destruct (decide (id' = id)) as [->|Hne].
  - rewrite lookup_insert_eq in H. by injection H as <-.
  - rewrite lookup_insert_ne in H by done. by apply (Hs id').
Qed.

Lemma step_habits_valid s today op s' :
  habits_valid s -> step s today op = Ok s' -> habits_valid s'.
Proof.
  intros Hs H. step_cases H.
  - by apply habits_valid_save.
  - apply habits_valid_save; [done|].
    apply Hs in Hid. apply valid_habit_iff in Hid as (_ & ? & ? & ?).
    apply valid_habit_iff. by repeat split.
  - apply habits_valid_save; [done|]. apply Hs in Hid. exact Hid.
  - exact Hs.
  - apply habits_valid_save; [done|].
    pose proof (calculateStreak_nonneg _ _ _ _ _ _ Hstreak) as Hk.
    apply calculateStreak_inv in Hstreak as [_ Hrec].
    apply (recomputed_valid _ _ _ Hrec Hk).
    apply Hs in Hid. apply valid_habit_iff in Hid as (Hsch & Hc & Hl & Ht).
    apply valid_habit_iff. simpl. split; [exact Hsch|]. lia.
  - apply habits_valid_save; [done|].
    pose proof (calculateStreak_nonneg _ _ _ _ _ _ Hstreak) as Hk.
    apply calculateStreak_inv in Hstreak as [_ Hrec].
    apply (recomputed_valid _ _ _ Hrec Hk). by apply (Hs id).
Qed.

Lemma habits_valid_three_days : habits_valid store_three_days.
Proof. apply (bool_decide_unpack _). vm_compute. exact I. Qed.

(** X7.  Along any history of requests every stored habit passes the
    validators of the habit schema: the target stays at least 1, the custom
    days stay weekday names, and the current streak, the longest streak and
    the number of completions stay non-negative, whatever the routes assign
    to them; so the saves of a habit never fail on these fields. *)
Theorem run_habits_valid s history :
  habits_valid s -> habits_valid (run s history).
Proof. apply run_invariant; [|done]. intros ? ? ? ?. apply step_habits_valid. Qed.

Lemma run_habits_valid_witness :
  habits_valid (run store_three_days history_week).
Proof. apply run_habits_valid. exact habits_valid_three_days. Defined.

Lemma step_rows_valid s today op s' :
  rows_valid s -> step s today op = Ok s' -> rows_valid s'.
Proof.
  intros Hs H. step_cases H; try exact Hs.
  - (* complete, update of the row *)
    apply findOne_Some in Hfound as [Hfound _].
    intros key c Hkey. simpl in Hkey.
    destruct (decide (key = (id, today))) as [->|Hne].
    + rewrite lookup_insert_eq in Hkey. injection Hkey as <-.
      split; [exact Hvalid|]. simpl. by apply (Hs (id, today)).
    + rewrite lookup_insert_ne in Hkey by done. by apply (Hs key).
  - (* undo *)
    intros key c Hkey. simpl in Hkey.
    apply lookup_delete_Some in Hkey as [_ Hkey]. by apply (Hs key).
Qed.

Lemma rows_valid_delete s key :
  rows_valid s ->
  rows_valid (mkStore (habits s) (delete key (ledger s)) (users s)).
Proof.
  intros Hs key' c Hkey. simpl in Hkey.
  apply lookup_delete_Some in Hkey as [_ Hkey]. by apply (Hs key').
Qed.

Lemma rows_valid_three_days : rows_valid store_three_days.
Proof. apply (bool_decide_unpack _). vm_compute. exact I. Qed.

(** X8.  Along any history of requests every row of the ledger passes the
    validators of the completion schema (a count of at least 1, effort and
    satisfaction in 1..5, notes of at most 500 characters, a known mood) and
    records a streak of at least 1. *)
Theorem run_rows_valid s history : rows_valid s -> rows_valid (run s history).
Proof.
  apply run_invariant.
  - intros ? ? ? ?. apply step_rows_valid.
  - apply rows_valid_delete.
Qed.

Lemma run_rows_valid_witness :
  rows_valid (run store_three_days history_week).
Proof. apply run_rows_valid. exact rows_valid_three_days. Defined.

(** *** Points, levels and badges *)

Lemma user_kept_refl u : user_kept u u.
Proof. unfold user_kept. split; [lia|]. split; [lia|done]. Qed.

Lemma user_kept_trans u1 u2 u3 :
  user_kept u1 u2 -> user_kept u2 u3 -> user_kept u1 u3.
Proof.
  intros (? & ? & ?) (? & ? & ?). split; [lia|]. split; [lia|].
  by etrans.
Qed.

Lemma addPoints_kept u pts : 0 <= pts -> user_kept u (addPoints u pts).1.
Proof.
  intros Hp. unfold addPoints, user_kept.
  destruct (Z.ltb_spec (level u) ((points u + pts) / 100 + 1));
    simpl; (split; [lia|]); (split; [lia|done]).
Qed.

Lemma addBadge_kept u b : user_kept u (addBadge u b).
Proof.
  unfold addBadge, user_kept.
  destruct (List.find _ _); simpl; (split; [lia|]); (split; [lia|]);
    [done | by apply prefix_app_r].
Qed.

Lemma gamification_kept_refl s : gamification_kept s s.
Proof. intros uid u H. exists u. split; [done|]. apply user_kept_refl. Qed.

Lemma gamification_kept_trans s1 s2 s3 :
  gamification_kept s1 s2 -> gamification_kept s2 s3 ->
  gamification_kept s1 s3.
Proof.
  intros H12 H23 uid u H.
  destruct (H12 uid u H) as (u2 & H2 & Hk2).
  destruct (H23 uid u2 H2) as (u3 & H3 & Hk3).
  exists u3. split; [done|]. by apply (user_kept_trans u u2 u3).
Qed.

Lemma gamification_kept_users s hs l :
  gamification_kept s (mkStore hs l (users s)).
Proof. intros uid u H. exists u. split; [done|]. apply user_kept_refl. Qed.

Lemma gamification_kept_save s hs l uid u u' :
  users s !! uid = Some u -> user_kept u u' ->
  gamification_kept s (mkStore hs l (<[uid := u']> (users s))).
Proof.
  intros Hu Hk uid' u0 H. simpl.
  destruct (decide (uid' = uid)) as [->|Hne].
  - exists u'. rewrite lookup_insert_eq. split; [done|].
    rewrite Hu in H. injection H as <-. exact Hk.
  - exists u0. rewrite lookup_insert_ne by done. split; [done|].
    apply user_kept_refl.
Qed.

Lemma step_gamification_kept s today op s' :
  step s today op = Ok s' -> gamification_kept s s'.
Proof.
  intros H. step_cases H; try apply gamification_kept_users.
  - (* create *)
    destruct (users s !! req_user req) as [u|] eqn:Hu;
      [|apply gamification_kept_users].
    pose proof (addPoints_kept u 5) as Hk.
    destruct (addPoints u 5) as [u1 levelUp]. simpl in Hk.
    apply (gamification_kept_save s _ _ _ u); [done|].
    destruct levelUp; [|apply Hk; lia].
    apply (user_kept_trans u u1); [apply Hk; lia | apply addBadge_kept].
Qed.

(** X9.  Along any history of requests no user is removed and no user loses
    points, a level or a badge: the points of a completion are not taken
    back by an undo, and badges are only appended. *)
Theorem run_gamification_kept s history :
  gamification_kept s (run s history).
Proof.
  apply run_preorder.
  - apply gamification_kept_refl.
  - apply gamification_kept_trans.
  - apply step_gamification_kept.
  - intros s0 key. apply gamification_kept_users.
Qed.

(** ** The front end *)

(** *** The next due date *)

Lemma getDay_add today (i : nat) :
  ((getDay today + i) mod 7)%nat = getDay (today + Z.of_nat i).
Proof.
  unfold getDay. apply Nat2Z.inj.
  pose proof (Z.mod_pos_bound (today + 4) 7 ltac:(lia)).
  pose proof (Z.mod_pos_bound (today + Z.of_nat i + 4) 7 ltac:(lia)).
  rewrite Nat2Z.inj_mod, Nat2Z.inj_add, !Z2Nat.id by lia.
  change (Z.of_nat 7) with 7. rewrite Zplus_mod_idemp_l.
  f_equal. lia.
Qed.

Lemma weekday_name_week d k : weekday_name (d + 7 * k) = weekday_name d.
Proof.
  unfold weekday_name.
  replace (d + 7 * k + 4) with (d + 4 + k * 7) by lia.
  by rewrite Z_mod_plus_full.
Qed.

Lemma weekday_name_window today d :
  exists d', today <= d' < today + 7 /\ weekday_name d' = weekday_name d.
Proof.
  exists (today + (d - today) mod 7).
  pose proof (Z.mod_pos_bound (d - today) 7 ltac:(lia)). split; [lia|].
  rewrite <- (weekday_name_week _ ((d - today) / 7)). f_equal.
  pose proof (Z.div_mod (d - today) 7 ltac:(lia)). lia.
Qed.

Lemma next_due_spec days today : forall n i,
  match next_due days (getDay today) today i n with
  | Some d =>
      today + Z.of_nat i <= d < today + Z.of_nat i + Z.of_nat n
      /\ weekday_name d ∈ days
      /\ forall d', today + Z.of_nat i <= d' < d -> weekday_name d' ∉ days
  | None =>
      forall d', today + Z.of_nat i <= d' < today + Z.of_nat i + Z.of_nat n ->
        weekday_name d' ∉ days
  end.
Proof.
  induction n as [|n IH]; intros i; [simpl; intros d'; lia|].
  cbn [next_due]. rewrite getDay_add, dayNames_getDay.
  case_bool_decide as Hin.
  - split; [lia|]. split; [exact Hin|]. intros d'. lia.
  - specialize (IH (S i)).
    destruct (next_due days (getDay today) today (S i) n) as [d|].
    + destruct IH as (Hd & Hdue & Hfirst). split; [lia|]. split; [exact Hdue|].
      intros d' Hd'.
      destruct (decide (d' = today + Z.of_nat i)) as [->|Hne]; [exact Hin|].
      apply Hfirst. lia.
    + intros d' Hd'.
      destruct (decide (d' = today + Z.of_nat i)) as [->|Hne]; [exact Hin|].
      apply IH. lia.
Qed.

(** X10.  When [getNextDueDate] returns a date, it is a date of the seven
    days from today on which the habit is due, and the first one; when it
    returns null, the habit is due on no day at all. *)
Theorem getNextDueDate_first h today :
  match getNextDueDate h today with
  | Some d =>
      today <= d < today + 7
      /\ isHabitDueToday h d = true
      /\ forall d', today <= d' < d -> isHabitDueToday h d' = false
  | None => forall d, isHabitDueToday h d = false
  end.
Proof.
  unfold getNextDueDate, isHabitDueToday.
  destruct (cl_isActive h); cbn [negb]; [|done].
  destruct (cl_frequency h).
  - split; [lia|]. split; [done|]. intros d'. lia.
  - split; [lia|]. split; [done|]. intros d'. lia.
  - destruct (cl_customFrequency h) as [days|]; [|done].
    pose proof (next_due_spec days today 7 0) as H.
    destruct (next_due days (getDay today) today 0 7) as [d|].
    + destruct H as (Hd & Hdue & Hfirst). split; [lia|].
      rewrite dayNames_getDay. split; [by apply bool_decide_eq_true_2|].
      intros d' Hd'. rewrite dayNames_getDay.
      apply bool_decide_eq_false_2, Hfirst. lia.
    + intros d. rewrite dayNames_getDay. apply bool_decide_eq_false_2.
      destruct (weekday_name_window today d) as (d' & Hd' & <-).
      apply H. lia.
Qed.

(** *** The offline buffer *)

Lemma post_complete_ledger s req id body today s1 r1 :
  post_complete s req id body today = Ok (s1, r1) ->
  ledger s1 = <[(id, today) := r_completion r1]> (ledger s).
Proof.
  intros H.
  by apply post_complete_inv in H as (habit & existing & _ & _ & _ & -> & ->).
Qed.

Lemma buffered_assign b key v : buffered (assign b key v) key = Some v.
Proof.
  unfold buffered. induction b as [|[k w] rest IH]; simpl.
  - by rewrite bool_decide_eq_true_2.
  - case_bool_decide as Hk; simpl.
    + by rewrite bool_decide_eq_true_2.
    + by rewrite bool_decide_eq_false_2.
Qed.

Lemma buffered_assign_ne b key v key' :
  key' <> key -> buffered (assign b key v) key' = buffered b key'.
Proof.
  intros Hne. unfold buffered. induction b as [|[k w] rest IH]; simpl.
  - by rewrite bool_decide_eq_false_2.
  - case_bool_decide as Hk; simpl.
    + subst k. by rewrite !bool_decide_eq_false_2 by done.
    + case_bool_decide; [done | exact IH].
Qed.

Lemma assign_keys b key v :
  (assign b key v).*1
  = if bool_decide (key ∈ b.*1) then b.*1 else (b.*1 ++ [key])%list.
Proof.
  induction b as [|[k w] rest IH]; [reflexivity|].
  cbn [assign]. destruct (decide (k = key)) as [->|Hk].
  - rewrite (bool_decide_eq_true_2 (key = key)) by done.
    rewrite !fmap_cons. cbn [fst].
    rewrite bool_decide_eq_true_2; [done|]. apply list_elem_of_here.
  - rewrite (bool_decide_eq_false_2 (k = key)) by done.
    rewrite !fmap_cons, IH. cbn [fst].
    destruct (decide (key ∈ rest.*1)) as [Hin|Hin].
    + rewrite !bool_decide_eq_true_2; [done | | done].
      by apply list_elem_of_further.
    + rewrite !bool_decide_eq_false_2; [done | | done].
      intros [?|?]%elem_of_cons; congruence.
Qed.

(** X11.  After [saveCompletionOffline] the buffer holds the new data under
    the key of the habit and the day, the entries of the other keys are as
    before, and the keys keep their order: a key that was there keeps its
    place (so a second save of a habit on the same day replaces the first),
    a new key goes to the end; no key ever occurs twice. *)
Theorem saveCompletionOffline_buffered b habitId data today now :
  let b' := saveCompletionOffline b habitId data today now in
  buffered b' (habitId, today) = Some (mkOffline habitId today data now)
  /\ (forall key, key <> (habitId, today) -> buffered b' key = buffered b key)
  /\ b'.*1 = (if bool_decide ((habitId, today) ∈ b.*1) then b.*1
              else (b.*1 ++ [(habitId, today)])%list)
  /\ (NoDup b.*1 -> NoDup b'.*1).
Proof.
  unfold saveCompletionOffline. simpl.
  split; [apply buffered_assign|].
  split; [intros key Hne; by apply buffered_assign_ne|].
  split; [apply assign_keys|].
  rewrite assign_keys. case_bool_decide as Hin; [done|].
  intros Hnd. apply NoDup_app. split; [done|].
  split; [|apply NoDup_singleton].
  intros key Hkey ->%list_elem_of_singleton. done.
Qed.

(** X12.  [completeHabitNetworkAware] never loses a completion: when it
    resolves with the answer of the server, the ledger holds the row of the
    habit for the day of the server and the buffer is as before; in every
    other case the data are in the buffer under the key of the habit and the
    day of the client, also when the server has rejected them.  It reports
    an offline save exactly when the browser is offline, and the server is
    either untouched or changed by one completion request. *)
Theorem completeHabitNetworkAware_keeps online net req habitId data clientDay
    now today b server :
  let '(server', b', out) :=
    completeHabitNetworkAware online net req habitId data clientDay now today
      b server in
  match out with
  | Completed r =>
      b' = b /\ ledger server' !! (habitId, today) = Some (r_completion r)
  | _ =>
      buffered b' (habitId, clientDay)
      = Some (mkOffline habitId clientDay data now)
  end
  /\ (out = SavedOffline <-> online = false)
  /\ (server' = server
      \/ exists r, online = true /\ net <> request_lost
                   /\ post_complete server req habitId data today
                      = Ok (server', r)).
Proof.
  unfold completeHabitNetworkAware, saveCompletionOffline.
  destruct online.
  - destruct (post_complete_run server req habitId data today)
      as [server' [r|e]] eqn:Hrun.
    + assert (Hpost : post_complete server req habitId data today
                      = Ok (server', r))
        by (unfold post_complete; by rewrite Hrun).
      pose proof (post_complete_ledger _ _ _ _ _ _ _ Hpost) as Hl.
      destruct net.
      * split; [split; [done|]; by rewrite Hl, lookup_insert_eq|].
        split; [done|]. right. by exists r.
      * split; [apply buffered_assign|]. split; [done|]. by left.
      * split; [apply buffered_assign|]. split; [done|]. right. by exists r.
    + apply post_complete_run_failed in Hrun as ->.
      destruct net; (split; [apply buffered_assign|]); (split; [done|]);
        by left.
  - split; [apply buffered_assign|]. split; [done|]. by left.
Qed.

(** *** The replay *)

Lemma post_complete_run_habits s req id body today :
  habits (post_complete_run s req id body today).1 = habits s.
Proof.
  by destruct (post_complete_run_inv s req id body today)
    as [[e ->]|(habit & existing & _ & _ & _ & ->)].
Qed.

Lemma checkOwnership_habits s s' req id :
  habits s' = habits s -> checkOwnership s' req id = checkOwnership s req id.
Proof. intros H. unfold checkOwnership. by rewrite H. Qed.

Lemma replay_keeps net req today : forall b server,
  let '(server', kept, log) := replay net req today b server in
  kept `sublist_of` b
  /\ habits server' = habits server
  /\ (forall key e, (key, e) ∈ b ->
        net key <> delivered
        \/ (exists err, checkOwnership server req (o_habitId e) = Err err) ->
        (key, e) ∈ kept)
  /\ ((forall key e, (key, e) ∈ b -> net key = request_lost) ->
      server' = server /\ kept = b).
Proof.
  induction b as [|[key c] rest IH]; intros server.
  - simpl. split; [done|]. split; [done|].
    split; [intros key e H; by apply elem_of_nil in H | done].
  - cbn [replay].
    pose proof (post_complete_run_habits server req (o_habitId c) (o_body c)
                  today) as Hhabits.
    destruct (post_complete_run server req (o_habitId c) (o_body c) today)
      as [server1 answer] eqn:E.
    simpl in Hhabits.
    assert (Hok : forall r err,
               answer = Ok r ->
               checkOwnership server req (o_habitId c) <> Err err).
    { intros r err -> Herr. unfold post_complete_run in E.
      rewrite Herr in E. discriminate. }
    assert (Hkeep : forall server0 kept' (server' : Store),
               habits server0 = habits server ->
               (kept' `sublist_of` rest
                /\ habits server' = habits server0
                /\ (forall key e, (key, e) ∈ rest ->
                      net key <> delivered
                      \/ (exists err,
                            checkOwnership server0 req (o_habitId e)
                            = Err err) ->
                      (key, e) ∈ kept')
                /\ ((forall key e, (key, e) ∈ rest ->
                       net key = request_lost) ->
                    server' = server0 /\ kept' = rest)) ->
               (net key = request_lost -> server0 = server) ->
               (key, c) :: kept' `sublist_of` (key, c) :: rest
               /\ habits server' = habits server
               /\ (forall key' e', (key', e') ∈ (key, c) :: rest ->
                     net key' <> delivered
                     \/ (exists err,
                           checkOwnership server req (o_habitId e')
                           = Err err) ->
                     (key', e') ∈ (key, c) :: kept')
               /\ ((forall key' e', (key', e') ∈ (key, c) :: rest ->
                      net key' = request_lost) ->
                   server' = server /\ (key, c) :: kept' = (key, c) :: rest)).
    { intros server0 kept' server' Hh (Hsub & Husers & Hkept & Hlost) Hsame.
      split; [by apply sublist_skip|].
      split; [by rewrite Husers|]. split.
      - intros key' e' [[= -> ->]|Hin]%elem_of_cons Hfail.
        + apply list_elem_of_here.
        + apply list_elem_of_further. apply (Hkept key' e' Hin).
          by rewrite (checkOwnership_habits server server0).
      - intros Hall.
        pose proof (Hall key c (list_elem_of_here _ _)) as Hkey.
        destruct Hlost as [-> ->].
        + intros key' e' Hin. apply (Hall key' e').
          by apply list_elem_of_further.
        + by rewrite (Hsame Hkey). }
    destruct (net key) eqn:Enet; [destruct answer as [r|e]| |].
    + specialize (IH server1).
      destruct (replay net req today rest server1) as [[server' kept] log].
      destruct IH as (Hsub & Husers & Hkept & Hlost).
      split; [by apply sublist_cons|].
      split; [by rewrite Husers|]. split.
      * intros key' e' [[= -> ->]|Hin]%elem_of_cons Hfail.
        -- destruct Hfail as [?|[err Herr]]; [done | by destruct (Hok r err)].
        -- apply (Hkept key' e' Hin).
           by rewrite (checkOwnership_habits server server1).
      * intros Hall. specialize (Hall key c (list_elem_of_here _ _)).
        congruence.
    + specialize (IH server1).
      destruct (replay net req today rest server1) as [[server' kept] log].
      apply (Hkeep server1); [done | exact IH | discriminate].
    + specialize (IH server).
      destruct (replay net req today rest server) as [[server' kept] log].
      by apply (Hkeep server).
    + specialize (IH server1).
      destruct (replay net req today rest server1) as [[server' kept] log].
      apply (Hkeep server1); [done | exact IH | discriminate].
Qed.

(** X13.  A replay of the buffer keeps, in their order, the entries it does
    not send successfully, and among them every entry whose request is not
    delivered and every entry whose habit is unknown to the server or owned
    by another user, whatever the network does: a rejected entry is replayed
    again at each reconnect.  A replay whose requests all fail to reach the
    server changes neither the server nor the buffer. *)
Theorem syncOfflineData_keeps net req today b server :
  let '(server', kept) := syncOfflineData net req today b server in
  kept `sublist_of` b
  /\ (forall key e, (key, e) ∈ b ->
        net key <> delivered
        \/ (exists err, checkOwnership server req (o_habitId e) = Err err) ->
        (key, e) ∈ kept)
  /\ ((forall key e, (key, e) ∈ b -> net key = request_lost) ->
      server' = server /\ kept = b).
Proof.
  pose proof (replay_keeps net req today b server) as H.
  unfold syncOfflineData.
  destruct (replay net req today b server) as [[server' kept] log].
  destruct H as (Hsub & _ & Hkept & Hlost). done.
Qed.

(** *** The grid of the calendar *)

(** X14.  The grid of the calendar starts on a Sunday and ends on a
    Saturday, contains the month, extends it by less than a week on either
    side and spans whole weeks. *)
Theorem calendar_grid_weeks monthStart monthEnd :
  let '(calendarStart, calendarEnd) := calendar_grid monthStart monthEnd in
  getDay calendarStart = 0%nat
  /\ getDay calendarEnd = 6%nat
  /\ monthStart - 6 <= calendarStart <= monthStart
  /\ monthEnd <= calendarEnd <= monthEnd + 6
  /\ (calendarEnd - calendarStart + 1) mod 7 = 0.
Proof.
  unfold calendar_grid, getDay.
  pose proof (Z.mod_pos_bound (monthStart + 4) 7 ltac:(lia)) as Hs.
  pose proof (Z.mod_pos_bound (monthEnd + 4) 7 ltac:(lia)) as He.
  rewrite !Z2Nat.id by lia.
  pose proof (Z.div_mod (monthStart + 4) 7 ltac:(lia)) as Hds.
  pose proof (Z.div_mod (monthEnd + 4) 7 ltac:(lia)) as Hde.
  set (a := (monthStart + 4) mod 7) in *.
  set (c := (monthEnd + 4) mod 7) in *.
  replace (monthStart - a + 4) with (0 + (monthStart + 4) / 7 * 7) by lia.
  replace (monthEnd + (6 - c) + 4) with (6 + (monthEnd + 4) / 7 * 7) by lia.
  replace (monthEnd + (6 - c) - (monthStart - a) + 1)
    with (0 + ((monthEnd + 4) / 7 - (monthStart + 4) / 7 + 1) * 7) by lia.
  rewrite !Z_mod_plus_full. repeat split; try reflexivity; lia.
Qed.

(** ** The list of habits *)

Lemma getTodayCompletions_row s uid date key c :
  (key, c) ∈ getTodayCompletions s uid date <->
  ledger s !! key = Some c /\ c_user c = uid /\ key.2 = date.
Proof.
  unfold getTodayCompletions.
  rewrite list_elem_of_filter, elem_of_map_to_list. simpl. tauto.
Qed.

Lemma completionMap_lookup cs id :
  match completionMap cs !! id with
  | Some st =>
      exists kv, kv ∈ cs /\ kv.1.1 = id
                 /\ st = mkStatus true (count kv.2) (c_targetCount kv.2)
  | None => forall kv, kv ∈ cs -> kv.1.1 <> id
  end.
Proof.
  unfold completionMap.
  assert (Hgen : forall (m : gmap string TodayStatus),
    match foldl (fun m kv =>
                   <[kv.1.1 := mkStatus true (count kv.2) (c_targetCount kv.2)]>
                     m) m cs !! id with
    | Some st =>
        m !! id = Some st
        \/ exists kv, kv ∈ cs /\ kv.1.1 = id
                      /\ st = mkStatus true (count kv.2) (c_targetCount kv.2)
    | None => m !! id = None /\ forall kv, kv ∈ cs -> kv.1.1 <> id
    end).
  { induction cs as [|kv cs IH]; intros m; simpl.
    - destruct (m !! id); [by left|]. split; [done|].
      intros kv H. by apply elem_of_nil in H.
    - specialize (IH (<[kv.1.1 := mkStatus true (count kv.2)
                                    (c_targetCount kv.2)]> m)).
      destruct (foldl _ _ cs !! id) as [st|].
      + destruct IH as [Hm|(kv' & Hin & Hid & ->)].
        * destruct (decide (kv.1.1 = id)) as [Hid|Hne].
          -- rewrite Hid, lookup_insert_eq in Hm. injection Hm as <-.
             right. exists kv. split; [apply list_elem_of_here | done].
          -- rewrite lookup_insert_ne in Hm by done. by left.
        * right. exists kv'. split; [by apply list_elem_of_further | done].
      + destruct IH as [Hm Hcs].
        destruct (decide (kv.1.1 = id)) as [Hid|Hne].
        * by rewrite Hid, lookup_insert_eq in Hm.
        * rewrite lookup_insert_ne in Hm by done. split; [done|].
          intros kv' [->|Hin]%elem_of_cons; [done | by apply Hcs]. }
  specialize (Hgen ∅). destruct (foldl _ _ cs !! id) as [st|].
  - destruct Hgen as [Hm|H]; [by rewrite lookup_empty in Hm | exact H].
  - by destruct Hgen.
Qed.

Lemma with_status_status_of s uid date kv :
  with_status (completionMap (getTodayCompletions s uid date)) kv
  = (kv.1, kv.2, status_of s uid kv.1 kv.2 date).
Proof.
  unfold with_status, status_of. f_equal.
  pose proof (completionMap_lookup (getTodayCompletions s uid date) kv.1) as H.
  destruct (completionMap _ !! kv.1) as [st|]; simpl.
  - destruct H as ([[id d] c] & Hin & Hid & ->). simpl in *. subst id.
    apply getTodayCompletions_row in Hin as (Hrow & Hu & Hd).
    simpl in Hd. subst d.
    by rewrite (proj2 (findOne_Some _ _ _ _ c) (conj Hrow Hu)).
  - destruct (findOne (ledger s) kv.1 uid date) as [c|] eqn:Hfound; [|done].
    apply findOne_Some in Hfound as [Hrow Hu].
    destruct (H ((kv.1, date), c)); [|done].
    by apply getTodayCompletions_row.
Qed.

Lemma find_habits_selected meta s uid q_category q_active id h :
  (id, h) ∈ find_habits meta s uid q_category q_active
  <-> selected meta s uid q_category q_active id h.
Proof.
  unfold find_habits, selected.
  rewrite list_elem_of_filter, elem_of_map_to_list. simpl.
  rewrite !andb_true_iff, bool_decide_eq_true.
  assert (Hc : match q_category with
               | Some c => if bool_decide (c = "") then true
                           else bool_decide (category (meta id) = c)
               | None => true
               end = true
               <-> forall c, q_category = Some c -> c <> "" ->
                     category (meta id) = c).
  { destruct q_category as [c|]; [|by split].
    case_bool_decide as Hempty.
    - split; [intros _ c' [= <-] ?; done | done].
    - rewrite bool_decide_eq_true. split.
      + by intros ? c' [= <-] _.
      + intros H. by apply H. }
  assert (Ha : match q_active with
               | Some a =>
                   bool_decide (isActive h = bool_decide (a = "true"))
               | None => true
               end = true
               <-> forall a, q_active = Some a ->
                     isActive h = bool_decide (a = "true")).
  { destruct q_active as [a|]; [|by split].
    rewrite bool_decide_eq_true. split.
    - by intros ? a' [= <-].
    - intros H. by apply H. }
  rewrite Hc, Ha. tauto.
Qed.

(** X15.  GET /api/habits lists exactly the habits of the caller that match
    the category and the activity asked for (and, when a date is given, are
    due on that date), each with the status of the caller's row for that habit
    on the date (today when none is given): completed with the count and the
    target of the row, or not completed with count 0 and the target of the
    habit.  The total is the length of the list and bounds the number of
    completed, respectively active, habits. *)
Theorem get_habits_status meta s req q_category q_active q_date today :
  let uid := req_user req in
  match get_habits meta s req q_category q_active q_date today with
  | ForDate hs date total completed =>
      q_date = Some date
      /\ (forall id h st, (id, h, st) ∈ hs <->
            selected meta s uid q_category q_active id h
            /\ isDueToday h date = true
            /\ st = status_of s uid id h date)
      /\ total = Z.of_nat (length hs) /\ 0 <= completed <= total
  | ForToday hs total active completedToday =>
      q_date = None
      /\ (forall id h st, (id, h, st) ∈ hs <->
            selected meta s uid q_category q_active id h
            /\ st = status_of s uid id h today)
      /\ total = Z.of_nat (length hs) /\ 0 <= active <= total
  end.
Proof.
  unfold get_habits. destruct q_date as [date|]; simpl.
  - split; [done|]. split; [|split; [done|]].
    + intros id h st. rewrite list_elem_of_fmap. split.
      * intros ([id' h'] & Heq & Hin).
        rewrite with_status_status_of in Heq. simpl in Heq.
        injection Heq as -> -> ->.
        apply list_elem_of_filter in Hin as [Hdue Hin]. simpl in Hdue.
        by apply find_habits_selected in Hin.
      * intros (Hsel & Hdue & ->). exists (id, h).
        rewrite with_status_status_of. split; [done|].
        apply list_elem_of_filter. split; [done|].
        by apply find_habits_selected.
    + pose proof (length_filter
        (fun h : string * Habit * TodayStatus => ts_completed h.2 = true)
        (with_status
           (completionMap (getTodayCompletions s (req_user req) date))
         <$> filter (fun kv => isDueToday kv.2 date = true)
               (find_habits meta s (req_user req) q_category q_active))).
      lia.
  - split; [done|]. split; [|split].
    + intros id h st. rewrite list_elem_of_fmap. split.
      * intros ([id' h'] & Heq & Hin).
        rewrite with_status_status_of in Heq. simpl in Heq.
        injection Heq as -> -> ->. by apply find_habits_selected in Hin.
      * intros (Hsel & ->). exists (id, h).
        rewrite with_status_status_of. split; [done|].
        by apply find_habits_selected.
    + by rewrite length_fmap.
    + pose proof (length_filter
        (fun kv : string * Habit => isActive kv.2 = true)
        (find_habits meta s (req_user req) q_category q_active)).
      lia.
Qed.

(** ** Recommendations *)

(** X16.  GET /api/habits/recommendations/:mood fails with a 400 exactly
    when the mood is not one of the four moods; otherwise it answers with at
    most three habits, without repetition, each an active habit of the caller
    that is a mood booster or is recommended for the mood, and with all of
    them when there are at most three. *)
Theorem get_recommendations_three meta s req mood :
  match get_recommendations meta s req mood with
  | Ok hs =>
      mood ∈ moods
      /\ (length hs <= 3)%nat
      /\ NoDup hs
      /\ (forall id h, (id, h) ∈ hs ->
            habits s !! id = Some h /\ user h = req_user req
            /\ isActive h = true
            /\ (moodBooster (meta id) = true
                \/ mood ∈ recommendedMoods (meta id)))
      /\ ((length hs < 3)%nat ->
          forall id h, habits s !! id = Some h -> user h = req_user req ->
            isActive h = true ->
            moodBooster (meta id) = true \/ mood ∈ recommendedMoods (meta id) ->
            (id, h) ∈ hs)
  | Err e => e = BadRequest /\ mood ∉ moods
  end.
Proof.
  unfold get_recommendations. case_bool_decide as Hmood; [|done].
  unfold getMoodBoostingHabits, active_habits.
  set (all := filter _ (filter _ (map_to_list (habits s)))).
  assert (Hall : forall id h, (id, h) ∈ all <->
            (moodBooster (meta id) = true \/ mood ∈ recommendedMoods (meta id))
            /\ (user h = req_user req /\ isActive h = true)
            /\ habits s !! id = Some h).
  { intros id h. unfold all.
    by rewrite !list_elem_of_filter, elem_of_map_to_list. }
  assert (Hnd : NoDup all).
  { unfold all. do 2 apply NoDup_filter. apply NoDup_map_to_list. }
  split; [done|]. split; [rewrite length_take; lia|].
  split; [apply (sublist_NoDup _ all); [exact Hnd | apply sublist_take]|].
  split.
  - intros id h Hin.
    assert (Hin' : (id, h) ∈ all).
    { apply (elem_of_sublist (take 3 all) all); [exact Hin | apply sublist_take]. }
    apply Hall in Hin'. tauto.
  - intros Hlen id h Hid Hu Hact Hrec. rewrite length_take in Hlen.
    rewrite take_ge by lia. apply Hall. tauto.
Qed.

(** ** The calendar *)

Lemma getCompletionsInRange_row s uid startDate endDate key c :
  (key, c) ∈ getCompletionsInRange s uid startDate endDate <->
  ledger s !! key = Some c /\ c_user c = uid /\ startDate <= key.2 <= endDate.
Proof.
  unfold getCompletionsInRange.
  rewrite list_elem_of_filter, elem_of_map_to_list. simpl. tauto.
Qed.

Lemma active_habits_habit s uid id h :
  (id, h) ∈ active_habits s uid <->
  habits s !! id = Some h /\ user h = uid /\ isActive h = true.
Proof.
  unfold active_habits.
  rewrite list_elem_of_filter, elem_of_map_to_list. simpl. tauto.
Qed.

Lemma calendar_flag s uid startDate endDate date id :
  startDate <= date <= endDate ->
  existsb (fun c : string * Z * HabitCompletion => bool_decide (c.1.1 = id))
    (filter (fun kv => kv.1.2 = date)
       (getCompletionsInRange s uid startDate endDate))
  = bool_decide (is_Some (findOne (ledger s) id uid date)).
Proof.
  intros Hdate. apply eq_true_iff_eq.
  rewrite existsb_exists, bool_decide_eq_true. split.
  - intros ([[id' d] c] & Hin & Hid). apply list_elem_of_In in Hin.
    apply list_elem_of_filter in Hin as [Hd Hin]. simpl in Hd. subst d.
    apply bool_decide_eq_true in Hid. simpl in Hid. subst id'.
    apply getCompletionsInRange_row in Hin as (Hrow & Hu & _).
    exists c. by apply findOne_Some.
  - intros [c Hc]. apply findOne_Some in Hc as [Hrow Hu].
    exists ((id, date), c). split; [|by apply bool_decide_eq_true].
    apply list_elem_of_In, list_elem_of_filter. split; [done|].
    by apply getCompletionsInRange_row.
Qed.

(** X17.  GET /api/habits/calendar/range fails with a 400 when a bound is
    missing; with both bounds it answers with one entry for each day from the
    start to the end, in order, and on each day lists exactly the active habits
    of the caller that are due on that day, each flagged as completed exactly
    when the caller has a row for that habit on that day; they are the
    habits of [getHabitsForDate], and [totalHabits] is their number. *)
Theorem get_calendar_range_days s req startDate endDate :
  let uid := req_user req in
  (forall bound, get_calendar_range s req None bound = Err BadRequest
                 /\ get_calendar_range s req bound None = Err BadRequest)
  /\ exists days,
       get_calendar_range s req (Some startDate) (Some endDate) = Ok days
       /\ days.*1 = seqZ startDate (endDate - startDate + 1)
       /\ forall date day, (date, day) ∈ days ->
            startDate <= date <= endDate
            /\ totalHabits day = Z.of_nat (length (day_habits day))
            /\ (day_habits day).*1 = (getHabitsForDate s uid date).*1
            /\ forall id flag, (id, flag) ∈ day_habits day <->
                 exists h, habits s !! id = Some h /\ user h = uid
                           /\ isActive h = true /\ isDueToday h date = true
                           /\ flag = bool_decide
                                       (is_Some (findOne (ledger s) id uid date)).
Proof.
  simpl. split.
  { intros bound. split; [done|]. by destruct bound. }
  eexists. split; [reflexivity|]. split.
  { rewrite <- list_fmap_compose. apply list_fmap_id. }
  intros date day [d [[= -> ->] Hd]]%list_elem_of_fmap.
  apply elem_of_seqZ in Hd.
  assert (Hdate : startDate <= d <= endDate) by lia.
  split; [exact Hdate|]. split.
  { simpl. by rewrite length_fmap. }
  split.
  { simpl. by rewrite <- list_fmap_compose. }
  intros id flag. simpl. rewrite list_elem_of_fmap. split.
  - intros ([id' h] & [= -> ->] & Hin).
    apply list_elem_of_filter in Hin as [Hdue Hin]. simpl in Hdue.
    apply active_habits_habit in Hin as (Hid & Hu & Hact).
    exists h. simpl. by rewrite (calendar_flag s _ startDate endDate d id' Hdate).
  - intros (h & Hid & Hu & Hact & Hdue & ->). exists (id, h). simpl.
    rewrite (calendar_flag s _ startDate endDate d id Hdate).
    split; [done|]. apply list_elem_of_filter. split; [done|].
    by apply active_habits_habit.
Qed.

(** ** Completion statistics *)

Lemma get_stat_bump obj key k :
  get_stat (bump obj key) k
  = if bool_decide (k = key) then Some (default 0 (get_stat obj key) + 1)
    else get_stat obj k.
Proof.
  unfold get_stat. destruct (decide (k = key)) as [->|Hk].
  - rewrite bool_decide_eq_true_2 by done.
    induction obj as [|[k0 v] rest IH]; simpl.
    + by rewrite bool_decide_eq_true_2.
    + destruct (decide (k0 = key)) as [->|Hne].
      * rewrite !(bool_decide_eq_true_2 (key = key)) by done. simpl.
        rewrite !(bool_decide_eq_true_2 (key = key)) by done. simpl.
        f_equal. destruct (Z.eqb_spec v 0); lia.
      * rewrite !(bool_decide_eq_false_2 (k0 = key)) by done. simpl.
        rewrite !(bool_decide_eq_false_2 (k0 = key)) by done. exact IH.
  - rewrite bool_decide_eq_false_2 by done.
    induction obj as [|[k0 v] rest IH]; simpl.
    + rewrite bool_decide_eq_false_2 by congruence. done.
    + destruct (decide (k0 = key)) as [->|Hne].
      * rewrite (bool_decide_eq_true_2 (key = key)) by done. simpl.
        by rewrite !(bool_decide_eq_false_2 (key = k)) by congruence.
      * rewrite (bool_decide_eq_false_2 (k0 = key)) by done. simpl.
        destruct (decide (k0 = k)) as [->|Hne'].
        -- by rewrite !(bool_decide_eq_true_2 (k = k)) by done.
        -- rewrite !(bool_decide_eq_false_2 (k0 = k)) by done. exact IH.
Qed.

Lemma get_stat_tally {A} (f : A -> string) (cs : list A) k : forall obj,
  get_stat (foldl (fun obj c => bump obj (f c)) obj cs) k
  = let n := Z.of_nat (length (filter (fun c => f c = k) cs)) in
    if n =? 0 then get_stat obj k else Some (default 0 (get_stat obj k) + n).
Proof.
  induction cs as [|c cs IH]; intros obj; [done|].
  cbn [foldl]. rewrite IH, filter_cons. cbv zeta.
  rewrite get_stat_bump.
  set (n := length (filter (fun c0 => f c0 = k) cs)).
  destruct (decide (f c = k)) as [Heq|Hne].
  - rewrite (bool_decide_eq_true_2 (k = f c)) by done. cbn [length].
    rewrite Heq.
    destruct (Z.eqb_spec (Z.of_nat n) 0), (Z.eqb_spec (Z.of_nat (S n)) 0);
      try lia; cbn [default]; f_equal; subst n; unfold id; lia.
  - by rewrite (bool_decide_eq_false_2 (k = f c)) by congruence.
Qed.

Lemma stats_completions_row l userId habitId startDate endDate d c :
  (d, c) ∈ stats_completions l userId habitId startDate endDate <->
  l !! (habitId, d) = Some c /\ c_user c = userId /\ startDate <= d <= endDate.
Proof.
  unfold stats_completions. rewrite merge_sort_Permutation, list_elem_of_fmap.
  split.
  - intros ([[id d'] c'] & [= -> ->] & Hin).
    apply list_elem_of_filter in Hin as [(Hu & Hid & Hd) Hin].
    simpl in *. subst id. by apply elem_of_map_to_list in Hin.
  - intros (Hrow & Hu & Hd). exists ((habitId, d), c). split; [done|].
    apply list_elem_of_filter. split; [done|]. by apply elem_of_map_to_list.
Qed.

Lemma level_sum_bounds (f : HabitCompletion -> option Z)
    (rows : list (Z * HabitCompletion)) :
  Forall (fun c : Z * HabitCompletion => in_range 1 5 (f c.2) = true) rows ->
  0 <= foldl (fun sum c => sum + default 0 (f c.2)) 0 rows
    <= 5 * Z.of_nat (length rows).
Proof.
  intros Hrows.
  assert (Hgen : forall a,
    a <= foldl (fun sum c => sum + default 0 (f c.2)) a rows
      <= a + 5 * Z.of_nat (length rows)).
  { induction Hrows as [|c rows Hc _ IH]; intros a; simpl; [lia|].
    specialize (IH (a + default 0 (f c.2))).
    unfold in_range in Hc. destruct (f c.2) as [v|]; simpl in *; lia. }
  specialize (Hgen 0). lia.
Qed.

Lemma round_tenths_bounds a n :
  0 < n -> 0 <= a <= 5 * n -> 0 <= round_tenths a n <= 50.
Proof.
  intros Hn Ha. unfold round_tenths. split.
  - apply Z.div_pos; lia.
  - assert ((20 * a + n) / (2 * n) < 51); [|lia].
    apply Z.div_lt_upper_bound; lia.
Qed.

#[global] Instance earlier_first_trans : Transitive earlier_first.
Proof. intros a b c. unfold earlier_first. lia. Qed.

#[global] Instance earlier_first_total : Total earlier_first.
Proof. intros a b. unfold earlier_first. lia. Qed.

(** X18.  [getCompletionStats] looks at the rows of the user for the habit
    from [days] days ago to today, oldest first.  Its total is their number;
    under each weekday name (respectively month) the statistics hold the
    number of those rows on that weekday (in that month), and no entry when
    there is none; the recent completions are the last seven rows, or all
    when there are fewer; and, the rows being valid, both averages lie between
    0 and 5 (0 and 50 tenths). *)
Theorem getCompletionStats_counts month_of s userId habitId days today :
  let rows :=
    stats_completions (ledger s) userId habitId (today - days) today in
  let st := getCompletionStats month_of s userId habitId days today in
  let tally (n : nat) := if Z.of_nat n =? 0 then None else Some (Z.of_nat n) in
  (forall d c, (d, c) ∈ rows <->
     ledger s !! (habitId, d) = Some c /\ c_user c = userId
     /\ today - days <= d <= today)
  /\ StronglySorted earlier_first rows
  /\ st_totalCompletions st = Z.of_nat (length rows)
  /\ (forall dayName,
        get_stat (st_dayOfWeekStats st) dayName
        = tally (length (filter
                   (fun c => default "" (DayNames !! getDay c.1) = dayName)
                   rows)))
  /\ (forall month,
        get_stat (st_monthlyData st) month
        = tally (length (filter (fun c => month_of c.1 = month) rows)))
  /\ st_completions st `suffix_of` rows
  /\ length (st_completions st) = Nat.min 7 (length rows)
  /\ (rows_valid s ->
      0 <= st_averageEffort st <= 50 /\ 0 <= st_averageSatisfaction st <= 50).
Proof.
  cbv zeta. split; [intros d c; apply stats_completions_row|].
  split; [apply StronglySorted_merge_sort; apply _|].
  unfold getCompletionStats. cbn [st_totalCompletions st_dayOfWeekStats
    st_monthlyData st_completions st_averageEffort st_averageSatisfaction].
  set (rows := stats_completions (ledger s) userId habitId (today - days) today).
  split; [done|].
  split; [intros dayName; by rewrite get_stat_tally|].
  split; [intros month; by rewrite get_stat_tally|].
  split; [apply suffix_drop|].
  split; [rewrite length_drop; lia|].
  intros Hvalid.
  assert (Hrows : forall f,
            (forall c, valid_completion c = true -> in_range 1 5 (f c) = true) ->
            Forall (fun c : Z * HabitCompletion => in_range 1 5 (f c.2) = true)
              rows).
  { intros f Hf. apply Forall_forall. intros [d c] Hin.
    apply stats_completions_row in Hin as (Hrow & _). simpl.
    apply Hf. by apply (Hvalid (habitId, d)). }
  destruct (Z.ltb_spec 0 (Z.of_nat (length rows))) as [Hn|Hn]; [|lia].
  split; apply round_tenths_bounds; try done; apply level_sum_bounds, Hrows.
  - intros c Hc. unfold valid_completion in Hc.
    repeat (apply andb_true_iff in Hc as [Hc ?]). done.
  - intros c Hc. unfold valid_completion in Hc.
    repeat (apply andb_true_iff in Hc as [Hc ?]). done.
Qed.

(** ** Weekly rates *)

(** The rate of no completion is 0, whatever the number expected. *)
Lemma round_percent_zero b : round_percent 0 b = 0.
Proof.
  unfold round_percent, js_div, js_mul.
  change (of_int 0) with (SpecFloat.S754_zero false).
  destruct (of_int b); reflexivity.
Qed.

Lemma filter_interval_split (dates : list Z) a b c :
  a <= b + 1 -> b <= c ->
  length (filter (fun d => a <= d <= c) dates)
  = (length (filter (fun d => (a <= d <= b)%Z) dates)
     + length (filter (fun d => (b + 1 <= d <= c)%Z) dates))%nat.
Proof.
  intros Hab Hbc. induction dates as [|d dates IH]; [done|].
  rewrite !filter_cons.
  destruct (decide (a <= d <= c)), (decide (a <= d <= b)),
    (decide (b + 1 <= d <= c)); simpl; lia.
Qed.

Lemma filter_interval_outside (dates : list Z) a b lo hi :
  (forall d, d ∈ dates -> lo <= d <= hi) -> b < lo \/ hi < a ->
  filter (fun d => a <= d <= b) dates = [].
Proof.
  intros Hin Hout. apply filter_none, Forall_forall.
  intros d Hd. specialize (Hin d Hd). lia.
Qed.

Lemma length_filter_fmap {A B} (f : A -> B) (P : B -> Prop)
    `{forall x, Decision (P x)} (l : list A) :
  length (filter P (f <$> l)) = length (filter (fun x => P (f x)) l).
Proof.
  induction l as [|x l IH]; [done|].
  rewrite fmap_cons, !filter_cons. destruct (decide (P (f x))); simpl; lia.
Qed.

Lemma weeklyData_facts dates expected today :
  let weeks := weeklyData dates expected today in
  w_week <$> weeks = seqZ 1 8
  /\ (forall (i : nat) w, weeks !! i = Some w ->
        w_weekEnd w = today - 7 * (7 - Z.of_nat i)
        /\ w_weekStart w = w_weekEnd w - 6
        /\ w_completions w
           = Z.of_nat
               (length (filter (fun d => w_weekStart w <= d <= w_weekEnd w)
                          dates))
        /\ w_expected w = expected
        /\ w_rate w = round_percent (w_completions w) expected)
  /\ foldr Z.add 0 (w_completions <$> weeks)
     = Z.of_nat (length (filter (fun d => today - 55 <= d <= today) dates)).
Proof.
  cbv zeta. unfold weeklyData.
  change (reverse (seqZ 0 8)) with [7; 6; 5; 4; 3; 2; 1; 0].
  split; [reflexivity|]. split.
  - intros i w Hw.
    do 8 (destruct i as [|i];
          [injection Hw as <-; cbn [w_weekEnd w_weekStart w_completions
             w_expected w_rate];
           repeat split; try reflexivity; try lia; do 3 f_equal;
           apply list_filter_iff; intros d; lia|]).
    discriminate Hw.
  - cbn [fmap list_fmap foldr w_completions].
    rewrite (filter_interval_split dates (today - 55) (today - 49) today)
      by lia.
    rewrite (filter_interval_split dates (today - 49 + 1) (today - 42) today)
      by lia.
    rewrite (filter_interval_split dates (today - 42 + 1) (today - 35) today)
      by lia.
    rewrite (filter_interval_split dates (today - 35 + 1) (today - 28) today)
      by lia.
    rewrite (filter_interval_split dates (today - 28 + 1) (today - 21) today)
      by lia.
    rewrite (filter_interval_split dates (today - 21 + 1) (today - 14) today)
      by lia.
    rewrite (filter_interval_split dates (today - 14 + 1) (today - 7) today)
      by lia.
    replace (today - (7 * 7 + 6)) with (today - 55) by lia.
    replace (today - 7 * 7) with (today - 49) by lia.
    replace (today - (6 * 7 + 6)) with (today - 49 + 1) by lia.
    replace (today - 6 * 7) with (today - 42) by lia.
    replace (today - (5 * 7 + 6)) with (today - 42 + 1) by lia.
    replace (today - 5 * 7) with (today - 35) by lia.
    replace (today - (4 * 7 + 6)) with (today - 35 + 1) by lia.
    replace (today - 4 * 7) with (today - 28) by lia.
    replace (today - (3 * 7 + 6)) with (today - 28 + 1) by lia.
    replace (today - 3 * 7) with (today - 21) by lia.
    replace (today - (2 * 7 + 6)) with (today - 21 + 1) by lia.
    replace (today - 2 * 7) with (today - 14) by lia.
    replace (today - (1 * 7 + 6)) with (today - 14 + 1) by lia.
    replace (today - 1 * 7) with (today - 7) by lia.
    replace (today - (0 * 7 + 6)) with (today - 7 + 1) by lia.
    replace (today - 0 * 7) with today by lia.
    lia.
Qed.

(** X19.  The weekly data hold eight weeks, numbered 1 to 8 from the oldest
    on, each of seven days, one after the other, the last ending today; each
    holds the number of the completion days given that fall in it, so that
    together they count each completion day of the 56 days up to today once. *)
Theorem weeklyData_weeks dates expected today :
  let weeks := weeklyData dates expected today in
  w_week <$> weeks = seqZ 1 8
  /\ (forall (i : nat) w, weeks !! i = Some w ->
        w_weekEnd w = today - 7 * (7 - Z.of_nat i)
        /\ w_weekStart w = w_weekEnd w - 6
        /\ w_completions w
           = Z.of_nat
               (length (filter (fun d => w_weekStart w <= d <= w_weekEnd w)
                          dates))
        /\ w_expected w = expected
        /\ w_rate w = round_percent (w_completions w) expected)
  /\ foldr Z.add 0 (w_completions <$> weeks)
     = Z.of_nat (length (filter (fun d => today - 55 <= d <= today) dates)).
Proof. apply weeklyData_facts. Qed.

(** X20.  The weekly data of GET /api/habits/:id/stats count only rows of
    the last [days] days: a week that ends before that window shows no
    completion and a rate of 0, whatever the ledger holds for it, and the
    eight weeks together count the rows of the caller for the habit in the
    days common to the window and the 56 days up to today. *)
Theorem get_stats_weekly_window s req id days today habit :
  checkOwnership s req id = Ok habit ->
  exists weeks,
    get_stats_weekly s req id days today = Ok weeks
    /\ (forall w, w ∈ weeks -> w_weekEnd w < today - days ->
          w_completions w = 0 /\ w_rate w = 0)
    /\ foldr Z.add 0 (w_completions <$> weeks)
       = Z.of_nat
           (length
              (filter (fun kv => kv.1.1 = id /\ today - 55 <= kv.1.2 <= today)
                 (getCompletionsInRange s (req_user req) (today - days)
                    today))).
Proof.
  intros Hown. unfold get_stats_weekly. rewrite Hown. simpl.
  eexists. split; [reflexivity|].
  set (rows := filter (fun kv : string * Z * HabitCompletion => kv.1.1 = id)
                 (getCompletionsInRange s (req_user req) (today - days) today)).
  set (dates := (fun kv : string * Z * HabitCompletion => kv.1.2) <$> rows).
  set (expected := expected_completions habit).
  assert (Hdates : forall d, d ∈ dates -> today - days <= d <= today).
  { intros d ([key c] & -> & Hin)%list_elem_of_fmap.
    apply list_elem_of_filter in Hin as [_ Hin].
    by apply getCompletionsInRange_row in Hin as (_ & _ & Hd). }
  pose proof (weeklyData_facts dates expected today) as (_ & Hweek & Hsum).
  split.
  - intros w Hw Hend. apply list_elem_of_lookup_1 in Hw as [i Hw].
    destruct (Hweek i w Hw) as (_ & Hstart & Hcount & Hexp & Hrate).
    assert (Hzero : w_completions w = 0).
    { rewrite Hcount.
      rewrite (filter_interval_outside dates _ _ (today - days) today);
        [done | exact Hdates | by left]. }
    split; [exact Hzero|]. rewrite Hrate, Hzero.
    apply round_percent_zero.
  - rewrite Hsum. f_equal. unfold dates, rows.
    rewrite length_filter_fmap, list_filter_filter. f_equal.
    apply list_filter_iff. intros [[id' d] c]. simpl. tauto.
Qed.

Lemma get_stats_weekly_window_witness :
  exists weeks,
    get_stats_weekly store_three_days alice "h1" 30 wed = Ok weeks
    /\ (forall w, w ∈ weeks -> w_weekEnd w < wed - 30 ->
          w_completions w = 0 /\ w_rate w = 0)
    /\ foldr Z.add 0 (w_completions <$> weeks)
       = Z.of_nat
           (length
              (filter (fun kv => kv.1.1 = "h1" /\ wed - 55 <= kv.1.2 <= wed)
                 (getCompletionsInRange store_three_days (req_user alice)
                    (wed - 30) wed))).
Proof.
  eapply get_stats_weekly_window. vm_compute. reflexivity.
Defined.

(** ** The best day and the best streak *)

Lemma bestDay_fold stats ks :
  (forall k, k ∈ ks -> is_Some (get_stat stats k)) ->
  forall acc,
    let r :=
      foldl (fun a b => if gt_stat (get_stat stats a) (get_stat stats b)
                        then a else b) acc ks in
    (r = acc \/ r ∈ ks)
    /\ (forall k m, k ∈ ks -> get_stat stats k = Some m ->
          exists n, get_stat stats r = Some n /\ m <= n)
    /\ (forall m, get_stat stats acc = Some m ->
          exists n, get_stat stats r = Some n /\ m <= n).
Proof.
  induction ks as [|b ks IH]; intros Hks acc; cbv zeta.
  - simpl. split; [by left|]. split.
    + intros k m Hk. by apply elem_of_nil in Hk.
    + intros m Hm. exists m. split; [done | lia].
  - cbn [foldl].
    assert (Hks' : forall k, k ∈ ks -> is_Some (get_stat stats k)).
    { intros k Hk. apply Hks. by apply list_elem_of_further. }
    destruct (Hks b (list_elem_of_here _ _)) as [mb Hb].
    set (acc' := if gt_stat (get_stat stats acc) (get_stat stats b)
                 then acc else b).
    destruct (IH Hks' acc') as (Hr & Hmax & Hacc).
    assert (Hle : (forall m, get_stat stats acc = Some m ->
                     exists n, get_stat stats acc' = Some n /\ m <= n)
                  /\ exists n, get_stat stats acc' = Some n /\ mb <= n).
    { unfold acc', gt_stat. rewrite Hb.
      destruct (get_stat stats acc) as [ma|] eqn:Ha.
      - destruct (Z.ltb_spec mb ma).
        + split; [intros m [= <-]; exists ma; split; [done | lia]|].
          exists ma. split; [done | lia].
        + split; [intros m [= <-]; exists mb; split; [done | lia]|].
          exists mb. split; [done | lia].
      - split; [discriminate|]. exists mb. split; [done | lia]. }
    destruct Hle as [Hle_acc Hle_b].
    split; [|split].
    + destruct Hr as [->|Hr].
      * unfold acc'. destruct (gt_stat _ _); [by left|].
        right. apply list_elem_of_here.
      * right. by apply list_elem_of_further.
    + intros k m [->|Hk]%elem_of_cons Hm.
      * destruct Hle_b as (n & Hn & Hmn). rewrite Hb in Hm.
        injection Hm as <-.
        destruct (Hacc n Hn) as (n' & Hn' & ?). exists n'. split; [done | lia].
      * by apply (Hmax k m).
    + intros m Hm. destruct (Hle_acc m Hm) as (n & Hn & Hmn).
      destruct (Hacc n Hn) as (n' & Hn' & ?). exists n'. split; [done | lia].
Qed.

Lemma get_stat_keys stats k :
  is_Some (get_stat stats k) <-> k ∈ stats.*1.
Proof.
  unfold get_stat. induction stats as [|[k0 v] rest IH]; simpl.
  - split; [by intros [? ?] | by intros ?%elem_of_nil].
  - rewrite elem_of_cons. case_bool_decide as Hk; simpl in *.
    + subst k0. split; [by left | by eexists].
    + rewrite IH. split; [by right | intros [?|?]; [congruence | done]].
Qed.

(** X21.  The best day of the insights is 'Monday' when the statistics are
    empty; otherwise it is a day of the statistics with the largest count
    (also when 'Monday' is not among them). *)
Theorem bestDay_most stats :
  (stats = [] -> bestDay stats = "Monday")
  /\ (stats <> [] ->
      exists n, get_stat stats (bestDay stats) = Some n
                /\ forall k m, get_stat stats k = Some m -> m <= n).
Proof.
  split; [by intros ->|]. intros Hne. unfold bestDay.
  destruct (bestDay_fold stats (stats.*1)
              (fun k Hk => proj2 (get_stat_keys stats k) Hk) "Monday")
    as (_ & Hmax & _).
  destruct stats as [|[k0 v0] rest]; [done|].
  destruct (proj2 (get_stat_keys ((k0, v0) :: rest) k0)
              (list_elem_of_here _ _)) as [m0 Hm0].
  destruct (Hmax k0 m0 (list_elem_of_here _ _) Hm0) as (n & Hn & _).
  exists n. split; [exact Hn|]. intros k m Hm.
  destruct (Hmax k m) as (n' & Hn' & ?); [|done|].
  - apply get_stat_keys. by eexists.
  - rewrite Hn in Hn'. injection Hn' as <-. lia.
Qed.

Lemma bestStreak_fold streaks : forall acc : string * Z,
  let r := foldl (fun max current : string * Z =>
                    if max.2 <? current.2 then current else max) acc streaks in
  (r = acc \/ r ∈ streaks)
  /\ acc.2 <= r.2
  /\ (forall e, e ∈ streaks -> e.2 <= r.2)
  /\ ((forall e, e ∈ streaks -> e.2 <= acc.2) -> r = acc).
Proof.
  induction streaks as [|c rest IH]; intros acc; cbv zeta.
  - simpl. split; [by left|]. split; [lia|].
    split; [intros e He; by apply elem_of_nil in He | done].
  - cbn [foldl].
    destruct (IH (if acc.2 <? c.2 then c else acc)) as (Hr & Hacc & Hmax & Hkeep).
    destruct (Z.ltb_spec acc.2 c.2) as [Hlt|Hge].
    + split; [|split; [lia|split]].
      * destruct Hr as [->|Hr]; right;
          [apply list_elem_of_here | by apply list_elem_of_further].
      * intros e [->|He]%elem_of_cons; [done | by apply Hmax].
      * intros Hall. specialize (Hall c (list_elem_of_here _ _)). lia.
    + split; [|split; [lia|split]].
      * destruct Hr as [->|Hr]; [by left|]. right.
        by apply list_elem_of_further.
      * intros e [->|He]%elem_of_cons; [lia | by apply Hmax].
      * intros Hall. apply Hkeep. intros e He. apply Hall.
        by apply list_elem_of_further.
Qed.

Lemma dashboard_streaks_streak_on meta s hs today :
  dashboard_streaks meta (ledger s) hs today
  = Some ((fun kv => (title (meta kv.1), streak_on s kv.1 kv.2 today)) <$> hs).
Proof.
  unfold dashboard_streaks. apply mapM_Some_2, Forall2_fmap_r, Forall_Forall2_diag.
  apply Forall_forall. intros [id h] _. simpl.
  destruct (calculateStreak_reference (ledger s) id h today) as (h' & -> & _).
  reflexivity.
Qed.

(** X22.  The dashboard always answers.  Its best streak is the largest
    current streak of the active habits of the caller, with the title of a
    habit that has it, and the empty title with streak 0 when no active
    habit has a positive streak; its points of the week are ten for each row
    of the caller from seven days ago to today. *)
Theorem get_dashboard_summary_best meta s req today :
  let uid := req_user req in
  exists sm,
    get_dashboard_summary meta s req today = Ok sm
    /\ sm_totalHabits sm = Z.of_nat (length (active_habits s uid))
    /\ 0 <= (sm_bestStreak sm).2
    /\ (forall id h, habits s !! id = Some h -> user h = uid ->
          isActive h = true -> streak_on s id h today <= (sm_bestStreak sm).2)
    /\ (sm_bestStreak sm = ("", 0)
        \/ exists id h, habits s !! id = Some h /\ user h = uid
                        /\ isActive h = true
                        /\ sm_bestStreak sm
                           = (title (meta id), streak_on s id h today))
    /\ ((forall id h, habits s !! id = Some h -> user h = uid ->
           isActive h = true -> streak_on s id h today <= 0) ->
        sm_bestStreak sm = ("", 0))
    /\ sm_totalPointsThisWeek sm
       = 10 * Z.of_nat (length (getCompletionsInRange s uid (today - 7) today)).
Proof.
  cbv zeta. unfold get_dashboard_summary.
  rewrite dashboard_streaks_streak_on.
  eexists. split; [reflexivity|].
  cbn [sm_totalHabits sm_bestStreak sm_totalPointsThisWeek].
  set (hs := active_habits s (req_user req)).
  set (streaks := (fun kv : string * Habit =>
                     (title (meta kv.1), streak_on s kv.1 kv.2 today)) <$> hs).
  destruct (bestStreak_fold streaks ("", 0)) as (Hr & Hacc & Hmax & Hkeep).
  fold (bestStreak streaks) in Hr, Hacc, Hmax, Hkeep.
  split; [done|]. split; [exact Hacc|]. split; [|split; [|split; [|lia]]].
  - intros id h Hid Hu Hact.
    apply (Hmax (title (meta id), streak_on s id h today)).
    apply list_elem_of_fmap. exists (id, h). split; [done|].
    by apply active_habits_habit.
  - destruct Hr as [->|Hr]; [by left|]. right.
    apply list_elem_of_fmap in Hr as ([id h] & -> & Hin).
    apply active_habits_habit in Hin as (Hid & Hu & Hact).
    by exists id, h.
  - intros Hall. apply Hkeep.
    intros e ([id h] & -> & Hin)%list_elem_of_fmap.
    apply active_habits_habit in Hin as (Hid & Hu & Hact).
    by apply Hall.
Qed.

(** ** Levels and badges *)

Lemma addBadge_level u b : level (addBadge u b) = level u.
Proof. unfold addBadge. by destruct (List.find _ _). Qed.

Lemma addPoints_wf u pts : 0 <= pts -> user_wf u -> user_wf (addPoints u pts).1.
Proof.
  intros Hp (Hpoints & Hlevel & Hnd). unfold addPoints, user_wf.
  pose proof (Z.div_le_mono (points u) (points u + pts) 100 ltac:(lia)
                ltac:(lia)) as Hmono.
  destruct (Z.ltb_spec (level u) ((points u + pts) / 100 + 1)); simpl;
    (split; [lia|]); (split; [lia | done]).
Qed.

Lemma addBadge_wf u b : user_wf u -> user_wf (addBadge u b).
Proof.
  intros (Hpoints & Hlevel & Hnd). unfold user_wf.
  rewrite addBadge_points, addBadge_level.
  split; [done|]. split; [done|]. by apply addBadge_NoDup.
Qed.

Lemma users_wf_users s hs l : users_wf s -> users_wf (mkStore hs l (users s)).
Proof. done. Qed.

Lemma users_wf_save s hs l uid u :
  users_wf s -> user_wf u -> users_wf (mkStore hs l (<[uid := u]> (users s))).
Proof.
  intros Hs Hu uid' u' H. simpl in H.
  destruct (decide (uid' = uid)) as [->|Hne].
  - rewrite lookup_insert_eq in H. by injection H as <-.
  - rewrite lookup_insert_ne in H by done. by apply (Hs uid').
Qed.

Lemma step_users_wf s today op s' :
  users_wf s -> step s today op = Ok s' -> users_wf s'.
Proof.
  intros Hs H. step_cases H; try exact Hs.
  - (* create *)
    destruct (users s !! req_user req) as [u|] eqn:Hu; [|exact Hs].
    pose proof (addPoints_wf u 5 ltac:(lia) (Hs _ _ Hu)) as Hwf.
    destruct (addPoints u 5) as [u1 levelUp]. simpl in Hwf.
    apply users_wf_save; [done|].
    destruct levelUp; [by apply addBadge_wf | done].
Qed.

Lemma users_wf_three_days : users_wf store_three_days.
Proof.
  intros uid u H. simpl in H.
  apply lookup_singleton_Some in H as [_ <-].
  split; [done|]. split; [done|]. apply NoDup_nil_2.
Qed.

(** X23.  Along any history of requests the points of every user stay
    non-negative, the level stays the one of the points (one more than the
    hundreds of the points) and no badge is held twice. *)
Theorem run_users_wf s history : users_wf s -> users_wf (run s history).
Proof. apply run_invariant; [|done]. intros ? ? ? ?. apply step_users_wf. Qed.

Lemma run_users_wf_witness : users_wf (run store_three_days history_week).
Proof. apply run_users_wf. exact users_wf_three_days. Defined.

(** ** Habits that are not active *)

Lemma inactive_never_due h date : isActive h = false -> isDueToday h date = false.
Proof. intros Hact. unfold isDueToday. by rewrite Hact. Qed.

Lemma reference_streak_never_due due dates today :
  (forall day, due day = false) -> reference_streak due dates today = 0.
Proof.
  intros Hnever. unfold reference_streak.
  destruct (latest dates) as [anchor|]; [|reflexivity].
  destruct (earliest dates) as [oldest|]; [|reflexivity].
  case_bool_decide; [|reflexivity].
  by apply never_due_streak_zero.
Qed.

Lemma calculateStreak_inactive l id h today h1 k :
  isActive h = false -> calculateStreak l id h today = Some (h1, k) ->
  k = 0 /\ currentStreak h1 = 0 /\ isActive h1 = false
  /\ user h1 = user h /\ targetCount h1 = targetCount h.
Proof.
  intros Hact H. apply calculateStreak_inv in H as [-> Hrec].
  rewrite reference_streak_never_due in *
    by (intros day; by apply inactive_never_due).
  destruct Hrec as (longest & -> & _). done.
Qed.

(** X24.  A habit that is not active (paused by an update, or archived) is
    due on no day, so every recomputation of its streak gives 0, whatever its
    rows: the detail route and the undo, when they succeed, save a current
    streak of 0, and the detail route succeeds when the two rates pass their
    validators.  The completion route does not look at the status: it
    updates the row of the day of such a habit as it does for an active
    one. *)
Theorem inactive_habit_streak s req id h today :
  checkOwnership s req id = Ok h ->
  isActive h = false ->
  (forall date, isDueToday h date = false)
  /\ (forall s' h', get_habit s req id today = Ok (s', h') ->
        habits s' !! id = Some h' /\ currentStreak h' = 0
        /\ isActive h' = false)
  /\ (valid_statistics (statistics_at (ledger s) id h (clock req today))
      = true ->
      exists s' h', get_habit s req id today = Ok (s', h'))
  /\ (forall s' h', delete_complete s req id today = Ok (s', h') ->
        habits s' !! id = Some h' /\ currentStreak h' = 0)
  /\ (forall body existing,
        ledger s !! (id, today) = Some existing ->
        c_user existing = req_user req ->
        valid_completion (update_existing existing h body) = true ->
        exists s1 r1,
          post_complete s req id body today = Ok (s1, r1)
          /\ ledger s1 !! (id, today) = Some (r_completion r1)
          /\ count (r_completion r1)
             = Z.min (default 1 (b_count body)) (targetCount h)).
Proof.
  intros Hown Hact.
  split; [intros date; by apply inactive_never_due|].
  split; [|split; [|split]].
  - intros s' h' H.
    apply get_habit_inv in H as (habit & k & Hown' & Hstreak & _ & ->).
    rewrite Hown in Hown'. injection Hown' as <-.
    apply (calculateStreak_inactive _ _ _ _ _ _ Hact) in Hstreak
      as (_ & ? & ? & _).
    simpl. by rewrite lookup_insert_eq.
  - intros Hst. unfold get_habit. rewrite Hown. simpl.
    destruct (calculateStreak_reference (ledger s) id h today)
      as (h' & E & R).
    rewrite E. unfold updateStatistics.
    rewrite (recomputed_statistics _ _ _ _ _ _ R), Hst. simpl.
    by eexists _, _.
  - intros s' h' H.
    apply delete_complete_inv
      in H as (habit & c & k & Hown' & _ & Hstreak & _ & ->).
    rewrite Hown in Hown'. injection Hown' as <-.
    apply calculateStreak_inactive in Hstreak as (_ & ? & _); [|done].
    simpl. by rewrite lookup_insert_eq.
  - intros body existing Hrow Huser Hvalid.
    eexists _, _. split.
    + apply (post_complete_update _ _ _ _ _ h existing); try done.
      by apply findOne_Some.
    + simpl. by rewrite lookup_insert_eq.
Qed.

Lemma inactive_habit_streak_witness :
  currentStreak <$> habits store_archived !! "h1" = Some 1
  /\ (exists s' h',
        get_habit store_archived alice "h1" wed = Ok (s', h')
        /\ habits s' !! "h1" = Some h' /\ currentStreak h' = 0
        /\ isActive h' = false)
  /\ (exists s' h',
        delete_complete store_archived alice "h1" wed = Ok (s', h')
        /\ habits s' !! "h1" = Some h' /\ currentStreak h' = 0)
  /\ (exists s1 r1,
        post_complete store_archived alice "h1" plain wed = Ok (s1, r1)
        /\ ledger s1 !! ("h1", wed) = Some (r_completion r1)
        /\ count (r_completion r1)
           = Z.min (default 1 (b_count plain))
               (targetCount (mkHabit "u1" daily [] 1 1 1 1 false true None))).
Proof.
  split; [vm_compute; reflexivity|].
  destruct (inactive_habit_streak store_archived alice "h1"
              (mkHabit "u1" daily [] 1 1 1 1 false true None) wed)
    as (_ & Hget & _ & Hundo & Hpost);
    [vm_compute; reflexivity | reflexivity |].
  split; [|split].
  - eexists _, _. split; [vm_compute; reflexivity|].
    apply Hget. vm_compute. reflexivity.
  - eexists _, _. split; [vm_compute; reflexivity|].
    apply Hundo. vm_compute. reflexivity.
  - apply (Hpost plain (row 1 1 1 wed)); vm_compute; reflexivity.
Defined.

(** ** Creating and archiving *)

(** X25.  A successful creation stores the new habit under a fresh
    identifier, owned by the caller whatever the body says, and valid; it
    leaves the other habits, the ledger and the other users as they are, and
    gives the caller five points.  The caller receives the badge 'Habit
    Creator' exactly when these five points raise the level, not with the
    first habit. *)
Theorem post_habit_created s req newId body s' h' :
  post_habit s req newId body = Ok (s', h') ->
  habits s !! newId = None
  /\ habits s' !! newId = Some h'
  /\ user h' = req_user req
  /\ valid_habit h' = true
  /\ (forall id, id <> newId -> habits s' !! id = habits s !! id)
  /\ ledger s' = ledger s
  /\ (forall uid, uid <> req_user req -> users s' !! uid = users s !! uid)
  /\ (forall u, users s !! req_user req = Some u ->
        exists u', users s' !! req_user req = Some u'
                   /\ points u' = points u + 5
                   /\ forall n, n ∈ name <$> badges u' <->
                        n ∈ name <$> badges u
                        \/ (n = "Habit Creator"
                            /\ level u < (points u + 5) / 100 + 1)).
Proof.
  intros H. unfold post_habit in H.
  destruct (negb (valid_habit _)) eqn:Hvalid; [discriminate|].
  apply negb_false_iff in Hvalid.
  destruct (habits s !! newId) eqn:Hnew; [discriminate|].
  injection H as <- <-. simpl.
  split; [done|]. split; [by rewrite lookup_insert_eq|]. split; [done|].
  split; [exact Hvalid|].
  split; [intros id Hne; by rewrite lookup_insert_ne|]. split; [done|]. split.
  - intros uid Hne. destruct (users s !! req_user req) as [u|]; [|done].
    destruct (addPoints u 5) as [u1 levelUp]. by rewrite lookup_insert_ne.
  - intros u Hu. rewrite Hu. unfold addPoints.
    destruct (Z.ltb_spec (level u) ((points u + 5) / 100 + 1)) as [Hl|Hl].
    + eexists. rewrite lookup_insert_eq. split; [reflexivity|].
      rewrite addBadge_points. split; [done|].
      intros n. rewrite addBadge_names. simpl. split.
      * intros [? | ->]; [by left | by right].
      * intros [?|[-> _]]; [by left | by right].
    + eexists. rewrite lookup_insert_eq. split; [reflexivity|].
      split; [done|]. intros n. simpl. split; [by left|].
      intros [?|[_ ?]]; [done | lia].
Qed.

Lemma post_habit_created_witness :
  exists s' h',
    post_habit store_fresh alice "h1" glasses_habit = Ok (s', h')
    /\ habits store_fresh !! "h1" = None
    /\ habits s' !! "h1" = Some h'
    /\ user h' = req_user alice
    /\ valid_habit h' = true
    /\ (forall id, id <> "h1" -> habits s' !! id = habits store_fresh !! id)
    /\ ledger s' = ledger store_fresh
    /\ (forall uid, uid <> req_user alice ->
          users s' !! uid = users store_fresh !! uid)
    /\ (forall u, users store_fresh !! req_user alice = Some u ->
          exists u', users s' !! req_user alice = Some u'
                     /\ points u' = points u + 5
                     /\ forall n, n ∈ name <$> badges u' <->
                          n ∈ name <$> badges u
                          \/ (n = "Habit Creator"
                              /\ level u < (points u + 5) / 100 + 1)).
Proof.
  eexists _, _. split; [vm_compute; reflexivity|].
  apply (post_habit_created store_fresh alice "h1" glasses_habit).
  vm_compute. reflexivity.
Defined.

(** X26.  Archiving removes nothing: the ledger, the users and the other
    habits are as before, and the habit keeps its owner, schedule, target
    and progress; it is marked as archived and not active, so it is due on no
    day and leaves the list of active habits of its owner.  Archiving it
    again changes nothing. *)
Theorem delete_habit_archives s req id s' h' :
  delete_habit s req id = Ok (s', h') ->
  ledger s' = ledger s /\ users s' = users s
  /\ (forall id', id' <> id -> habits s' !! id' = habits s !! id')
  /\ habits s' !! id = Some h'
  /\ (exists h, habits s !! id = Some h
                /\ h' = mkHabit (user h) (frequency h) (customFrequency_days h)
                          (targetCount h) (currentStreak h) (longestStreak h)
                          (totalCompletions h) false true
                          (customFrequency_timesPerWeek h))
  /\ (forall date, isDueToday h' date = false)
  /\ (forall uid, (id, h') ∉ active_habits s' uid)
  /\ delete_habit s' req id = Ok (s', h').
Proof.
  intros H. unfold delete_habit in H.
  destruct (checkOwnership s req id) as [habit|] eqn:Hown; [|discriminate].
  simpl in H. injection H as <- <-. simpl.
  split; [done|]. split; [done|].
  split; [intros id' Hne; by rewrite lookup_insert_ne|].
  split; [by rewrite lookup_insert_eq|]. split.
  { apply checkOwnership_Ok in Hown as [Hid _]. by exists habit. }
  split; [done|]. split.
  - intros uid Hin. apply active_habits_habit in Hin as (_ & _ & Hact).
    discriminate Hact.
  - unfold delete_habit.
    rewrite (checkOwnership_saved s req id habit _ _ _ Hown) by done.
    simpl. by rewrite insert_insert_eq.
Qed.

Lemma delete_habit_archives_witness :
  exists s' h',
    delete_habit store1 alice "h1" = Ok (s', h')
    /\ ledger s' = ledger store1 /\ users s' = users store1
    /\ (forall id', id' <> "h1" -> habits s' !! id' = habits store1 !! id')
    /\ habits s' !! "h1" = Some h'
    /\ (exists h, habits store1 !! "h1" = Some h
                  /\ h' = mkHabit (user h) (frequency h)
                            (customFrequency_days h) (targetCount h)
                            (currentStreak h) (longestStreak h)
                            (totalCompletions h) false true
                            (customFrequency_timesPerWeek h))
    /\ (forall date, isDueToday h' date = false)
    /\ (forall uid, ("h1", h') ∉ active_habits s' uid)
    /\ delete_habit s' alice "h1" = Ok (s', h').
Proof.
  eexists _, _. split; [vm_compute; reflexivity|].
  apply (delete_habit_archives store1 alice "h1").
  vm_compute. reflexivity.
Defined.

(** ** The detail route and the statistics *)

(** X27.  For a request that passes the ownership check, the detail route
    answers with the habit exactly when the two rates that
    [updateStatistics] computes from the rows of the last 7 and 30 days pass
    their validators: it then saves the habit with the streak computed anew
    from its rows, a longest streak not below the stored one and the same
    number of completions, and writes nothing else; when a rate exceeds 100
    it fails with a validation error. *)
Theorem get_habit_statistics s req id today habit :
  checkOwnership s req id = Ok habit ->
  if valid_statistics (statistics_at (ledger s) id habit (clock req today))
  then
    exists habit',
      get_habit s req id today
      = Ok (mkStore (<[id := habit']> (habits s)) (ledger s) (users s),
            habit')
      /\ currentStreak habit' = streak_on s id habit today
      /\ longestStreak habit <= longestStreak habit'
      /\ totalCompletions habit' = totalCompletions habit
      /\ same_schedule habit habit'
  else get_habit s req id today = Err ValidationError.
Proof.
  intros Hown. unfold get_habit. rewrite Hown. simpl.
  destruct (calculateStreak_reference (ledger s) id habit today)
    as (habit' & E & R).
  rewrite E. unfold updateStatistics.
  rewrite (recomputed_statistics _ _ _ _ _ _ R).
  destruct (valid_statistics _); [|reflexivity].
  exists habit'. split; [reflexivity|].
  pose proof (recomputed_longest _ _ _ R) as Hl.
  pose proof (recomputed_same_schedule _ _ _ R) as Hsame.
  destruct R as (longest & -> & _). done.
Qed.

Lemma get_habit_statistics_witness :
  (exists habit',
     get_habit store_three_days alice "h1" (wed + 1)
     = Ok (mkStore (<["h1" := habit']> (habits store_three_days))
             (ledger store_three_days) (users store_three_days), habit')
     /\ currentStreak habit'
        = streak_on store_three_days "h1"
            (mkHabit "u1" daily [] 1 3 3 4 true false None) (wed + 1)
     /\ longestStreak (mkHabit "u1" daily [] 1 3 3 4 true false None)
        <= longestStreak habit'
     /\ totalCompletions habit'
        = totalCompletions (mkHabit "u1" daily [] 1 3 3 4 true false None)
     /\ same_schedule (mkHabit "u1" daily [] 1 3 3 4 true false None) habit')
  /\ statistics_at (ledger store_weekly) "h1" weekly_habit (clock alice wed)
     = mkStatistics 300 75
  /\ get_habit store_weekly alice "h1" wed = Err ValidationError.
Proof.
  assert (H1 : checkOwnership store_three_days alice "h1"
               = Ok (mkHabit "u1" daily [] 1 3 3 4 true false None))
    by (vm_compute; reflexivity).
  assert (H2 : checkOwnership store_weekly alice "h1" = Ok weekly_habit)
    by (vm_compute; reflexivity).
  pose proof (get_habit_statistics store_three_days alice "h1" (wed + 1) _ H1)
    as G1.
  pose proof (get_habit_statistics store_weekly alice "h1" wed _ H2) as G2.
  assert (S1 : valid_statistics
                 (statistics_at (ledger store_three_days) "h1"
                    (mkHabit "u1" daily [] 1 3 3 4 true false None)
                    (clock alice (wed + 1))) = true)
    by (vm_compute; reflexivity).
  assert (S2 : valid_statistics
                 (statistics_at (ledger store_weekly) "h1" weekly_habit
                    (clock alice wed)) = false)
    by (vm_compute; reflexivity).
  rewrite S1 in G1. rewrite S2 in G2.
  split; [exact G1|]. split; [vm_compute; reflexivity | exact G2].
Defined.

(** ** The count of a completion *)

(** X28.  The row that a successful completion leaves carries the count
    asked for (1 when none is given), cut down to the target of the habit:
    the count lies between 1 and that target.  The target recorded in the
    row is not renewed, and the row is fully completed exactly when the
    count so stored reaches the target recorded. *)
Theorem completion_capped s req id body today s1 r1 habit :
  post_complete s req id body today = Ok (s1, r1) ->
  checkOwnership s req id = Ok habit ->
  let c := r_completion r1 in
  ledger s1 !! (id, today) = Some c
  /\ count c = Z.min (default 1 (b_count body)) (targetCount habit)
  /\ 1 <= count c <= targetCount habit
  /\ (exists existing,
        ledger s !! (id, today) = Some existing
        /\ c_targetCount c = c_targetCount existing
        /\ (isFullyCompleted c = true
            <-> c_targetCount existing
                <= Z.min (default 1 (b_count body)) (targetCount habit))).
Proof.
  intros H Hown. cbv zeta.
  pose proof (post_complete_ledger _ _ _ _ _ _ _ H) as Hl.
  apply post_complete_inv
    in H as (habit' & existing & Hown' & Hfind & Hvalid & _ & ->).
  rewrite Hown in Hown'. injection Hown' as <-.
  apply findOne_Some in Hfind as [Hrow _].
  split; [by rewrite Hl, lookup_insert_eq|].
  unfold isFullyCompleted.
  unfold valid_completion in Hvalid.
  repeat (apply andb_true_iff in Hvalid as [Hvalid ?]).
  apply Z.leb_le in Hvalid. simpl in *.
  split; [done|]. split; [lia|].
  exists existing. split; [done|]. split; [done|]. by rewrite Z.leb_le.
Qed.

Lemma completion_capped_witness :
  exists s1 r1,
    post_complete store_glasses alice "h1" ten wed = Ok (s1, r1)
    /\ count (r_completion r1) = 8
    /\ isFullyCompleted (r_completion r1) = true
    /\ ledger s1 !! ("h1", wed) = Some (r_completion r1)
    /\ count (r_completion r1)
       = Z.min (default 1 (b_count ten))
           (targetCount (mkHabit "u1" daily [] 8 1 1 1 true false None))
    /\ 1 <= count (r_completion r1)
       <= targetCount (mkHabit "u1" daily [] 8 1 1 1 true false None)
    /\ (exists existing,
          ledger store_glasses !! ("h1", wed) = Some existing
          /\ c_targetCount (r_completion r1) = c_targetCount existing
          /\ (isFullyCompleted (r_completion r1) = true
              <-> c_targetCount existing
                  <= Z.min (default 1 (b_count ten))
                       (targetCount
                          (mkHabit "u1" daily [] 8 1 1 1 true false None)))).
Proof.
  eexists _, _. split; [vm_compute; reflexivity|]. split; [reflexivity|].
  split; [reflexivity|].
  apply (completion_capped store_glasses alice "h1" ten wed);
    vm_compute; reflexivity.
Defined.

(** ** Updating a habit *)

(** X29.  A successful update leaves the ledger, the users and the other
    habits as they are and cannot touch the owner, the progress (current
    streak, longest streak, number of completions) or the archive flag of the
    habit, whatever the body: the saved habit has the frequency of the body,
    a target of at least 1 and weekday names as custom days.  In particular
    an update with [isActive: true] makes an archived habit active, and due,
    again while it stays archived. *)
Theorem put_habit_keeps_progress s req id body s' h' :
  put_habit s req id body = Ok (s', h') ->
  ledger s' = ledger s /\ users s' = users s
  /\ (forall id', id' <> id -> habits s' !! id' = habits s !! id')
  /\ habits s' !! id = Some h'
  /\ (exists h, habits s !! id = Some h
                /\ user h' = user h
                /\ currentStreak h' = currentStreak h
                /\ longestStreak h' = longestStreak h
                /\ totalCompletions h' = totalCompletions h
                /\ isArchived h' = isArchived h
                /\ isActive h' = default (isActive h) (u_isActive body))
  /\ frequency h' = u_frequency body
  /\ 1 <= targetCount h'
  /\ (forall d, d ∈ customFrequency_days h' -> d ∈ dayNames)
  /\ (u_isActive body = Some true -> u_frequency body <> custom ->
      forall date, isDueToday h' date = true).
Proof.
  intros H. unfold put_habit in H.
  destruct (checkOwnership s req id) as [habit|] eqn:Hown; [|discriminate].
  simpl in H. apply checkOwnership_Ok in Hown as [Hid _].
  destruct (valid_schedule _) eqn:Hvalid; [|discriminate].
  injection H as <- <-. simpl.
  unfold valid_schedule in Hvalid. simpl in Hvalid.
  apply andb_true_iff in Hvalid as [Hvalid _].
  apply andb_true_iff in Hvalid as [Htarget Hdays].
  apply Z.leb_le in Htarget.
  split; [done|]. split; [done|].
  split; [intros id' Hne; by rewrite lookup_insert_ne|].
  split; [by rewrite lookup_insert_eq|].
  split; [by exists habit|]. split; [done|]. split; [exact Htarget|]. split.
  - intros d Hd. rewrite forallb_forall in Hdays.
    apply list_elem_of_In in Hd. apply Hdays in Hd.
    by apply bool_decide_eq_true in Hd.
  - intros Hact Hfreq date. unfold isDueToday. simpl. rewrite Hact. simpl.
    by destruct (u_frequency body).
Qed.

Lemma put_habit_keeps_progress_witness :
  exists s' h',
    put_habit store_archived alice "h1" (mkUpdate daily None None (Some true))
    = Ok (s', h')
    /\ isActive h' = true /\ isArchived h' = true
    /\ ledger s' = ledger store_archived /\ users s' = users store_archived
    /\ (forall id', id' <> "h1" ->
          habits s' !! id' = habits store_archived !! id')
    /\ habits s' !! "h1" = Some h'
    /\ (exists h, habits store_archived !! "h1" = Some h
                  /\ user h' = user h
                  /\ currentStreak h' = currentStreak h
                  /\ longestStreak h' = longestStreak h
                  /\ totalCompletions h' = totalCompletions h
                  /\ isArchived h' = isArchived h
                  /\ isActive h'
                     = default (isActive h)
                         (u_isActive (mkUpdate daily None None (Some true))))
    /\ frequency h' = u_frequency (mkUpdate daily None None (Some true))
    /\ 1 <= targetCount h'
    /\ (forall d, d ∈ customFrequency_days h' -> d ∈ dayNames)
    /\ (u_isActive (mkUpdate daily None None (Some true)) = Some true ->
        u_frequency (mkUpdate daily None None (Some true)) <> custom ->
        forall date, isDueToday h' date = true).
Proof.
  eexists _, _. split; [vm_compute; reflexivity|].
  split; [reflexivity|]. split; [reflexivity|].
  apply (put_habit_keeps_progress store_archived alice "h1"
           (mkUpdate daily None None (Some true))).
  vm_compute. reflexivity.
Defined.
